(** * py-serializable: a shallow embedding of [serializable/__init__.py]

    The development follows the layout of the Python module:

    - [PyStr]       the [str] methods the module calls;
    - [PyDict]      insertion-ordered dictionaries ([__dict__], [_data],
                    [attrib], the hook tables);
    - values, documents, elements, annotations, classes and exceptions;
    - [ObjectMetadataLibrary], the [register_*] functions and
      [register_klass], on the process-wide state [world];
    - the decorators of properties;
    - [DefaultJsonEncoder.default], [_as_json], [from_json], [_from_json];
    - [_as_xml], [XmlSerializableObject.as_xml], [from_xml];
    - [Sample], [Stock]  the classes and objects the properties are
                    evaluated at;
    - the properties, by part of the module, and the further properties
      of the registry, the decorators, the encoders and the decoders.

    Exceptions are results ([Ok], [Raise]); the recursion of the codecs
    through nested objects is bounded by [fuel], and a method call on a
    value ([x.as_xml], [klass.from_json], [klass.from_xml]) is a parameter
    of the body of each codec, tied by the [Fixpoint] that follows it. *)

From Stdlib Require Import ZArith String Ascii List Bool.
From stdpp Require Import gmap strings list pretty.
Import ListNotations.
Local Open Scope string_scope.
Set Warnings "-register-all,-clear-no-such-hyp".

(** ** The [str] methods used by the module *)

Module PyStr.

(** [s[1:]] *)
Definition tail1 (s : string) : string :=
  match s with
  | EmptyString => EmptyString
  | String _ r => r
  end.

(** [s.startswith(p)] *)
Definition startswith (p s : string) : bool := String.prefix p s.

(** [sub in s] *)
Fixpoint contains (sub s : string) : bool :=
  match s with
  | EmptyString => String.prefix sub EmptyString
  | String _ r => String.prefix sub s || contains sub r
  end.

(** [s.replace(old, '')] for a non-empty [old]: the occurrences of [old]
    are removed from left to right, without overlap.  [skip] counts the
    characters of a match that are still to be dropped. *)
Fixpoint remove_from (old : string) (skip : nat) (s : string) : string :=
  match s with
  | EmptyString => EmptyString
  | String c r =>
      match skip with
      | S n => remove_from old n r
      | O =>
          if String.prefix old s
          then remove_from old (Nat.pred (String.length old)) r
          else String c (remove_from old O r)
      end
  end.

Definition remove_all (old s : string) : string :=
  match old with
  | EmptyString => s
  | _ => remove_from old O s
  end.

(** [s.isascii()] *)
Fixpoint is_ascii (s : string) : bool :=
  match s with
  | EmptyString => true
  | String c r => (Ascii.nat_of_ascii c <? 128)%nat && is_ascii r
  end.

Definition is_digit (c : ascii) : bool :=
  let n := Ascii.nat_of_ascii c in (48 <=? n)%nat && (n <=? 57)%nat.

Fixpoint all_digits (s : string) : bool :=
  match s with
  | EmptyString => true
  | String c r => is_digit c && all_digits r
  end.

(** [s.isdigit()] on ASCII text: at least one character, all of them
    decimal digits. *)
Definition isdigit (s : string) : bool :=
  match s with
  | EmptyString => false
  | _ => all_digits s
  end.

Fixpoint int_digits (acc : Z) (s : string) : Z :=
  match s with
  | EmptyString => acc
  | String c r =>
      int_digits (10 * acc + (Z.of_nat (Ascii.nat_of_ascii c) - 48))%Z r
  end.

(** [int(s)] for an ASCII text [s] with [s.isdigit()] *)
Definition int_of (s : string) : Z := int_digits 0%Z s.

Definition lower_ascii (c : ascii) : ascii :=
  let n := Ascii.nat_of_ascii c in
  if (65 <=? n)%nat && (n <=? 90)%nat
  then Ascii.ascii_of_nat (n + 32)
  else c.

(** [s.lower()] on ASCII text *)
Fixpoint lower (s : string) : string :=
  match s with
  | EmptyString => EmptyString
  | String c r => String (lower_ascii c) (lower r)
  end.

Definition is_space (c : ascii) : bool :=
  let n := Ascii.nat_of_ascii c in
  (n =? 32)%nat || ((9 <=? n)%nat && (n <=? 13)%nat)
  || ((28 <=? n)%nat && (n <=? 31)%nat).

Fixpoint lstrip (s : string) : string :=
  match s with
  | EmptyString => EmptyString
  | String c r => if is_space c then lstrip r else s
  end.

Fixpoint rstrip (s : string) : string :=
  match s with
  | EmptyString => EmptyString
  | String c r =>
      match rstrip r with
      | EmptyString => if is_space c then EmptyString else String c EmptyString
      | r' => String c r'
      end
  end.

(** [s.strip()] on ASCII text *)
Definition strip (s : string) : string := rstrip (lstrip s).

(** [str(n)] for an [int] *)
Definition of_int (z : Z) : string := pretty z.

(** [c in s] for a character *)
Fixpoint has_char (c : ascii) (s : string) : bool :=
  match s with
  | EmptyString => false
  | String b r => Ascii.eqb c b || has_char c r
  end.

End PyStr.

(** ** Insertion-ordered dictionaries

    A Python [dict] keeps its keys in insertion order; assigning to a key
    that is present keeps the key where it is.  The encoders walk
    [__dict__] in that order and the decoders rebuild [_data] key by key,
    so the order is part of the model. *)

Module PyDict.
Section Dict.
Context {V : Type}.

Definition t := list (string * V).

(** [d.get(k)] *)
Fixpoint get (k : string) (d : t) : option V :=
  match d with
  | [] => None
  | (k', v) :: r => if String.eqb k' k then Some v else get k r
  end.

(** [k in d] *)
Definition mem (k : string) (d : t) : bool :=
  match get k d with Some _ => true | None => false end.

(** [d[k] = v], also [d.update({k: v})] *)
Fixpoint set (k : string) (v : V) (d : t) : t :=
  match d with
  | [] => [(k, v)]
  | (k', v') :: r =>
      if String.eqb k' k then (k', v) :: r else (k', v') :: set k v r
  end.

(** [del d[k]] for a key that is present *)
Fixpoint del (k : string) (d : t) : t :=
  match d with
  | [] => []
  | (k', v') :: r => if String.eqb k' k then r else (k', v') :: del k r
  end.

(** [list(d.keys())], [list(d.values())] *)
Definition keys (d : t) : list string := map fst d.
Definition values (d : t) : list V := map snd d.

(** [dict(pairs)]: a later pair replaces the value of an earlier one *)
Definition of_pairs (l : list (string * V)) : t :=
  fold_left (fun d kv => set (fst kv) (snd kv) d) l [].

End Dict.
Arguments t : clear implicits.

(** [list(d.keys())[list(d.values()).index(x)]] for a dictionary of
    strings: the key of the first entry whose value is [x]. *)
Fixpoint key_of_value (x : string) (d : t string) : option string :=
  match d with
  | [] => None
  | (k, v) :: r => if String.eqb v x then Some k else key_of_value x r
  end.

(** [x in d.values()] *)
Definition has_value (x : string) (d : t string) : bool :=
  match key_of_value x d with Some _ => true | None => false end.

End PyDict.

(** [x in l] for a list or a set of strings *)
Definition str_in (x : string) (l : list string) : bool :=
  existsb (String.eqb x) l.

(** ** Exceptions and results *)

Inductive exn : Type :=
| ValueError (msg : string)
| TypeError (msg : string)
| AttributeError (msg : string)
| RecursionError
| ParseError (msg : string)
| UserError (msg : string).

Inductive result (A : Type) : Type :=
| Ok (a : A)
| Raise (e : exn).
Arguments Ok {A} a.
Arguments Raise {A} e.

#[global] Instance result_ret : MRet result := fun A a => Ok a.
#[global] Instance result_bind : MBind result := fun A B f r =>
  match r with
  | Ok a => f a
  | Raise e => Raise e
  end.

Definition raises {A} (r : result A) : Prop := exists e, r = Raise e.

(** ** Values *)

(** What identifies the class of an instance:
    [__module__], [__qualname__], [__name__]. *)
Record class_ref : Type := ClassRef {
  cr_module : string;
  cr_qualname : string;
  cr_name : string
}.

(** [f'{o.__module__}.{o.__class__.__qualname__}'] *)
Definition qualified_name (c : class_ref) : string :=
  cr_module c +:+ "." +:+ cr_qualname c.

(** Python values.  A [float] is identified by its [repr]; a [set] is
    given in its iteration order; an instance is its class and its
    [__dict__]; an [Enum] member carries its class name, its name and its
    [value]. *)
Inductive pyval : Type :=
| VNone
| VBool (b : bool)
| VInt (z : Z)
| VFloat (repr : string)
| VStr (s : string)
| VEnum (enum_class member : string) (value : pyval)
| VList (items : list pyval)
| VSet (items : list pyval)
| VDict (entries : list (string * pyval))
| VObj (cls : class_ref) (dict : list (string * pyval)).

(** JSON documents, as [json.dumps] writes and [json.loads] reads them. *)
Inductive json : Type :=
| JNull
| JBool (b : bool)
| JInt (z : Z)
| JFloat (repr : string)
| JStr (s : string)
| JArr (items : list json)
| JObj (members : list (string * json)).

(** [xml.etree.ElementTree.Element]: tag, [attrib], [text], children. *)
Inductive Element : Type :=
| mkElement (tag : string) (attrib : list (string * string))
            (text : option string) (children : list Element).

Definition tag (e : Element) : string :=
  match e with mkElement t _ _ _ => t end.
Definition attrib (e : Element) : list (string * string) :=
  match e with mkElement _ a _ _ => a end.
Definition text (e : Element) : option string :=
  match e with mkElement _ _ t _ => t end.
Definition children (e : Element) : list Element :=
  match e with mkElement _ _ _ c => c end.

(** ** Enumerations of the module *)

Inductive XmlArraySerializationType : Type := FLAT | NESTED.

Inductive SerializationType : Type := JSON | XML.

#[global] Instance XmlArraySerializationType_eq_dec :
  EqDecision XmlArraySerializationType.
Proof. solve_decision. Defined.

#[global] Instance SerializationType_eq_dec : EqDecision SerializationType.
Proof. solve_decision. Defined.

#[global] Instance SerializationType_countable : Countable SerializationType.
Proof.
  refine (inj_countable' (fun t => match t with JSON => false | XML => true end)
                         (fun b => if b then XML else JSON) _).
  intros []; reflexivity.
Defined.

(** [_DEFAULT_SERIALIZATION_TYPES] *)
Definition _DEFAULT_SERIALIZATION_TYPES : list SerializationType := [JSON; XML].

(** [t in serialization_types] *)
Definition serialization_type_in (t : SerializationType)
           (l : list SerializationType) : bool :=
  bool_decide (t ∈ l).

(** ** Return annotations of properties

    The annotations the module inspects through [__name__] and [__args__]:
    the four primitive types, [NoneType], [Enum] subclasses, other
    classes, [typing.List[t]], [typing.Set[t]] and [typing.Optional[t]],
    whose arguments are [(t, NoneType)]; any other alias of [typing] with
    its name and its arguments ([Union[None, t]] is called [Optional] and
    has the arguments [(NoneType, t)], [Union[t, u]] is called [Union],
    [Dict[k, v]] is called [Dict]); a union written [t | u], which has
    arguments and no name; and an annotation written as a string, which
    has neither.  An alias without arguments, such as [typing.List]
    itself, has a name and no arguments, as a class has. *)

Inductive pytype : Type :=
| TBool | TInt | TFloat | TStr
| TNoneType
| TEnum (name : string)
| TClass (name : string)
| TList (item : pytype)
| TSet (item : pytype)
| TOptional (arg : pytype)
| TAlias (name : string) (args : list pytype)
| TUnionType (args : list pytype)
| TText (annotation : string).

(** [t == u] for annotations *)
Fixpoint pytype_eq (a b : pytype) {struct a} : Decision (a = b).
Proof.
  unfold Decision.
  decide equality; try apply String.string_dec;
    apply (List.list_eq_dec pytype_eq).
Defined.

#[global] Instance pytype_eq_dec : EqDecision pytype := pytype_eq.

(** [t.__name__]; a union written [t | u] and a string have no such
    attribute *)
Definition type_name (t : pytype) : result string :=
  match t with
  | TBool => Ok "bool" | TInt => Ok "int" | TFloat => Ok "float" | TStr => Ok "str"
  | TNoneType => Ok "NoneType"
  | TEnum n => Ok n
  | TClass n => Ok n
  | TList _ => Ok "List"
  | TSet _ => Ok "Set"
  | TOptional _ => Ok "Optional"
  | TAlias n _ => Ok n
  | TUnionType _ | TText _ => Raise (AttributeError "__name__")
  end.

(** [t.__args__]; a class and a string have no such attribute *)
Definition type_args (t : pytype) : result (list pytype) :=
  match t with
  | TList a => Ok [a]
  | TSet a => Ok [a]
  | TOptional a => Ok [a; TNoneType]
  | TAlias _ args => Ok args
  | TUnionType args => Ok args
  | _ => Raise (AttributeError "__args__")
  end.

(** ** Classes

    A value found in [get_property_data_class_mappings], in the third
    component of an array configuration, or registered by [type_mapping]:
    a class of the class table, a class with [serialize]/[deserialize]
    (a [SimpleSerializable]), or any other callable ([Enum] classes,
    [int], [str], functions). *)

Record simple_serializable : Type := SimpleSerializable {
  ss_ref : class_ref;
  ss_serialize : pyval -> result pyval;
  ss_deserialize : pyval -> result pyval
}.

Inductive any_serializable : Type :=
| AClass (c : class_ref)
| ASimple (s : simple_serializable)
| ACallable (f : pyval -> result pyval).

(** A class as the module sees it.  [k_properties] is
    [inspect.getmembers(klass, is_property)] with the ['return'] annotation
    of each getter; [k_dict] the names of [cls.__dict__] as the class body
    defines them; [k_json_object], [k_xml_object] say whether
    [JsonSerializableObject], [XmlSerializableObject] are among its bases,
    which gives it the hook methods below and the inherited [from_json],
    [as_xml], [from_xml]; [k_new args kwargs] is the call [cls( *args,
    **kwargs)] and returns the [__dict__] of the new instance. *)
Record klass : Type := Klass {
  k_ref : class_ref;
  k_properties : list (string * option pytype);
  k_dict : list string;
  k_json_object : bool;
  k_xml_object : bool;
  get_json_key_removals : list string;
  get_property_key_mappings : PyDict.t string;
  get_property_data_class_mappings : PyDict.t any_serializable;
  get_array_property_configuration :
    PyDict.t (XmlArraySerializationType * string * any_serializable);
  properties_as_attributes : list string;
  k_new : list pyval -> list (string * pyval) -> result (list (string * pyval))
}.

(** The hooks of [SerializableObject] are there when one of the two
    serializable bases is. *)
Definition k_serializable_object (k : klass) : bool :=
  k_json_object k || k_xml_object k.

(** ** ObjectMetadataLibrary *)

Record SerializableClass : Type := mkSerializableClass {
  sc_name : string;
  sc_custom_name : option string;
  sc_serialization_types : list SerializationType
}.

(** The dictionary a [SerializableProperty] holds as [_custom_names] is
    [_klass_property_names.get(qualified_property_name, {})]: the very
    dictionary stored in the library under that name when there is one
    (later [register_custom_*_property_name] calls update it in place), a
    new empty one otherwise. *)
Inductive names_ref : Type :=
| SharedNames (qual_name : string)
| FreshNames.

Record SerializableProperty : Type := mkSerializableProperty {
  sp_name : string;
  sp_custom_names : names_ref;
  sp_type_ : option pytype;
  sp_custom_type : option any_serializable;
  sp_is_xml_attribute : bool;
  sp_xml_array_config : option (XmlArraySerializationType * string)
}.

Record ObjectMetadataLibrary : Type := mkLibrary {
  _klass_property_array_config :
    gmap string (XmlArraySerializationType * string);
  _klass_property_attributes : gset string;
  _klass_property_names : gmap string (gmap SerializationType string);
  _klass_property_types : gmap string any_serializable;
  klass_mappings : gmap string SerializableClass;
  klass_property_mappings : gmap string (gmap string SerializableProperty)
}.

Definition empty_library : ObjectMetadataLibrary :=
  mkLibrary ∅ ∅ ∅ ∅ ∅ ∅.

(** The three module-level functions that [register_klass] attaches to a
    class with [setattr], and the methods a class inherits from the two
    serializable bases. *)
Inductive method : Type :=
| Fn_as_json | Fn_from_json | Fn_as_xml
| Inherited_from_json | Inherited_as_xml | Inherited_from_xml.

#[global] Instance method_eq_dec : EqDecision method.
Proof. solve_decision. Defined.

(** The process-wide state: the library and the attributes set on classes
    by [setattr], by qualified class name. *)
Record world : Type := mkWorld {
  library : ObjectMetadataLibrary;
  klass_attrs : gmap string (gmap string method)
}.

Definition empty_world : world := mkWorld empty_library ∅.

Module SerializableProperty_.

(** [prop.custom_names] *)
Definition custom_names (l : ObjectMetadataLibrary)
           (p : SerializableProperty) : gmap SerializationType string :=
  match sp_custom_names p with
  | SharedNames q => default ∅ (_klass_property_names l !! q)
  | FreshNames => ∅
  end.

(** [prop.custom_name(serialization_type)] *)
Definition custom_name (l : ObjectMetadataLibrary)
           (p : SerializableProperty) (t : SerializationType)
  : option string :=
  custom_names l p !! t.

Definition _ARRAY_TYPES : list string := ["List"; "Set"].
Definition _PRIMITIVE_TYPES : list pytype := [TBool; TInt; TFloat; TStr].

(** [self.type_.__name__]; [type_] is [None] without an annotation *)
Definition type__name (p : SerializableProperty) : result string :=
  match sp_type_ p with
  | Some t => type_name t
  | None => Raise (AttributeError "__name__")
  end.

(** [self.type_.__args__] *)
Definition type__args (p : SerializableProperty) : result (list pytype) :=
  match sp_type_ p with
  | Some t => type_args t
  | None => Raise (AttributeError "__args__")
  end.

Definition is_optional (p : SerializableProperty) : result bool :=
  n ← type__name p; Ok (String.eqb n "Optional").

(** [t, n = args] *)
Definition unpack2 (args : list pytype) : result (pytype * pytype) :=
  match args with
  | [t; n] => Ok (t, n)
  | _ => Raise (ValueError "unpack")
  end.

(** [t, = args] *)
Definition unpack1 (args : list pytype) : result pytype :=
  match args with
  | [t] => Ok t
  | _ => Raise (ValueError "unpack")
  end.

Definition concrete_type (p : SerializableProperty) : result pytype :=
  o ← is_optional p;
  if o : bool then
    args ← type__args p;
    tn ← unpack2 args;
    let t := fst tn in
    n ← type_name t;
    if str_in n _ARRAY_TYPES
    then (args' ← type_args t; unpack1 args')
    else Ok t
  else
    n ← type__name p;
    if str_in n _ARRAY_TYPES
    then (args ← type__args p; unpack1 args)
    else match sp_type_ p with
         | Some t => Ok t
         | None => Raise (AttributeError "__name__")
         end.

Definition is_array (p : SerializableProperty) : result bool :=
  o ← is_optional p;
  if o : bool then
    args ← type__args p;
    tn ← unpack2 args;
    n ← type_name (fst tn);
    Ok (str_in n _ARRAY_TYPES)
  else
    n ← type__name p;
    Ok (str_in n _ARRAY_TYPES).

(** [issubclass(type(self.concrete_type()), enum.EnumMeta)] *)
Definition is_enum (p : SerializableProperty) : result bool :=
  t ← concrete_type p;
  Ok (match t with TEnum _ => true | _ => false end).

Definition is_primitive_type (p : SerializableProperty) : result bool :=
  t ← concrete_type p;
  Ok (bool_decide (t ∈ _PRIMITIVE_TYPES)).

End SerializableProperty_.

(** ** Registration *)

(** The argument of [is_klass_serializable] is a class object or, as the
    lookups by qualified name do it, a string. *)
Inductive klass_arg : Type :=
| KlassObject (k : klass)
| KlassName (s : string).

(** [type(klass) is Type], where [Type] is [typing.Type]: the type of a
    class object is its metaclass and the type of a string is [str];
    neither is the object [typing.Type]. *)
Definition type_is_typing_Type (klass : klass_arg) : bool :=
  match klass with
  | KlassObject _ => false
  | KlassName _ => false
  end.

(** [klass in cls.klass_mappings]: the keys of [klass_mappings] are
    strings, and a class object is equal to no string. *)
Definition in_klass_mappings (l : ObjectMetadataLibrary) (klass : klass_arg)
  : bool :=
  match klass with
  | KlassObject _ => false
  | KlassName s => bool_decide (is_Some (klass_mappings l !! s))
  end.

Definition is_klass_serializable (l : ObjectMetadataLibrary)
           (klass : klass_arg) : bool :=
  if type_is_typing_Type klass then
    match klass with
    | KlassObject k =>
        bool_decide (is_Some (klass_mappings l !!
                                (cr_module (k_ref k) +:+ "." +:+ cr_name (k_ref k))))
    | KlassName _ => false
    end
  else in_klass_mappings l klass.

Definition with_klass_mappings (l : ObjectMetadataLibrary)
           (m : gmap string SerializableClass) : ObjectMetadataLibrary :=
  mkLibrary (_klass_property_array_config l) (_klass_property_attributes l)
            (_klass_property_names l) (_klass_property_types l)
            m (klass_property_mappings l).

Definition with_klass_property_mappings (l : ObjectMetadataLibrary)
           (m : gmap string (gmap string SerializableProperty))
  : ObjectMetadataLibrary :=
  mkLibrary (_klass_property_array_config l) (_klass_property_attributes l)
            (_klass_property_names l) (_klass_property_types l)
            (klass_mappings l) m.

(** [SerializableClass(klass=klass, serialization_types=...)] *)
Definition new_SerializableClass (k : klass)
           (serialization_types : list SerializationType) : SerializableClass :=
  mkSerializableClass (cr_name (k_ref k)) None serialization_types.

(** The [SerializableProperty] built for the member [name] of the class
    named [qualified_class_name], from the overrides recorded so far. *)
Definition new_SerializableProperty (l : ObjectMetadataLibrary)
           (qualified_class_name name : string) (annotation : option pytype)
  : SerializableProperty :=
  let qualified_property_name := qualified_class_name +:+ "." +:+ name in
  mkSerializableProperty
    name
    (match _klass_property_names l !! qualified_property_name with
     | Some _ => SharedNames qualified_property_name
     | None => FreshNames
     end)
    annotation
    (_klass_property_types l !! qualified_property_name)
    (bool_decide (qualified_property_name ∈ _klass_property_attributes l))
    (_klass_property_array_config l !! qualified_property_name).

(** [cls.klass_property_mappings[q].update({name: prop})] *)
Definition add_property (q name : string) (prop : SerializableProperty)
           (m : gmap string (gmap string SerializableProperty))
  : gmap string (gmap string SerializableProperty) :=
  alter (fun props => <[name := prop]> props) q m.

(** The attribute [name] set on the class named [q], if any. *)
Definition attr_lookup (attrs : gmap string (gmap string method))
           (q name : string) : option method :=
  attrs !! q ≫= (fun names => names !! name).

(** [setattr(klass, name, f)] *)
Definition setattr (q name : string) (f : method)
           (attrs : gmap string (gmap string method))
  : gmap string (gmap string method) :=
  <[q := <[name := f]> (default ∅ (attrs !! q))]> attrs.

Definition register_klass (w : world) (k : klass) (a : option string)
           (serialization_types : list SerializationType) : world :=
  if is_klass_serializable (library w) (KlassObject k) then w
  else
    let qualified_class_name := qualified_name (k_ref k) in
    let l1 :=
      with_klass_mappings (library w)
        (<[qualified_class_name := new_SerializableClass k serialization_types]>
           (klass_mappings (library w))) in
    let l2 :=
      with_klass_property_mappings l1
        (<[qualified_class_name := ∅]> (klass_property_mappings l1)) in
    let l3 :=
      fold_left
        (fun l (member : string * option pytype) =>
           with_klass_property_mappings l
             (add_property qualified_class_name (fst member)
                (new_SerializableProperty l qualified_class_name
                   (fst member) (snd member))
                (klass_property_mappings l)))
        (k_properties k) l2 in
    let attrs1 :=
      if serialization_type_in JSON serialization_types
      then setattr qualified_class_name "from_json" Fn_from_json
             (setattr qualified_class_name "as_json" Fn_as_json (klass_attrs w))
      else klass_attrs w in
    let attrs2 :=
      if serialization_type_in XML serialization_types
      then setattr qualified_class_name "as_xml" Fn_as_xml attrs1
      else attrs1 in
    mkWorld l3 attrs2.

(** [@serializable_class] *)
Definition serializable_class (w : world) (k : klass) (name : option string)
           (serialization_types : option (list SerializationType)) : world :=
  register_klass w k name
    (match serialization_types with
     | Some ts => ts
     | None => _DEFAULT_SERIALIZATION_TYPES
     end).

Definition with_names (l : ObjectMetadataLibrary)
           (m : gmap string (gmap SerializationType string))
  : ObjectMetadataLibrary :=
  mkLibrary (_klass_property_array_config l) (_klass_property_attributes l)
            m (_klass_property_types l)
            (klass_mappings l) (klass_property_mappings l).

(** Both branches of [register_custom_*_property_name] bind the name for
    the serialization type in the dictionary stored under [qual_name],
    which is created when absent. *)
Definition register_custom_property_name (l : ObjectMetadataLibrary)
           (t : SerializationType) (qual_name property_name : string)
  : ObjectMetadataLibrary :=
  match _klass_property_names l !! qual_name with
  | Some names =>
      with_names l (<[qual_name := <[t := property_name]> names]>
                      (_klass_property_names l))
  | None =>
      with_names l (<[qual_name := {[t := property_name]}]>
                      (_klass_property_names l))
  end.

Definition register_custom_json_property_name (l : ObjectMetadataLibrary)
           (qual_name json_property_name : string) : ObjectMetadataLibrary :=
  register_custom_property_name l JSON qual_name json_property_name.

Definition register_custom_xml_property_name (l : ObjectMetadataLibrary)
           (qual_name xml_property_name : string) : ObjectMetadataLibrary :=
  register_custom_property_name l XML qual_name xml_property_name.

Definition register_xml_property_array_config (l : ObjectMetadataLibrary)
           (qual_name : string) (array_type : XmlArraySerializationType)
           (child_name : string) : ObjectMetadataLibrary :=
  mkLibrary (<[qual_name := (array_type, child_name)]>
               (_klass_property_array_config l))
            (_klass_property_attributes l)
            (_klass_property_names l) (_klass_property_types l)
            (klass_mappings l) (klass_property_mappings l).

Definition register_xml_property_attribute (l : ObjectMetadataLibrary)
           (qual_name : string) : ObjectMetadataLibrary :=
  mkLibrary (_klass_property_array_config l)
            ({[qual_name]} ∪ _klass_property_attributes l)
            (_klass_property_names l) (_klass_property_types l)
            (klass_mappings l) (klass_property_mappings l).

Definition register_property_type_mapping (l : ObjectMetadataLibrary)
           (qual_name : string) (mapped_type : any_serializable)
  : ObjectMetadataLibrary :=
  mkLibrary (_klass_property_array_config l) (_klass_property_attributes l)
            (_klass_property_names l)
            (<[qual_name := mapped_type]> (_klass_property_types l))
            (klass_mappings l) (klass_property_mappings l).

(** ** The decorators of properties

    What a decorator reads of the function it is given: [f.__module__] and
    [f.__qualname__].  The function it returns is [inner], to which
    [functools.wraps(f)] copies both. *)
Record function : Type := Function {
  f_module : string;
  f_qualname : string
}.

(** [f'{f.__module__}.{f.__qualname__}'] *)
Definition function_qual_name (f : function) : string :=
  f_module f +:+ "." +:+ f_qualname f.

Definition type_mapping (type_ : any_serializable) (f : function)
           (l : ObjectMetadataLibrary) : ObjectMetadataLibrary * function :=
  (register_property_type_mapping l (function_qual_name f) type_, f).

Definition json_name (name : string) (f : function)
           (l : ObjectMetadataLibrary) : ObjectMetadataLibrary * function :=
  (register_custom_json_property_name l (function_qual_name f) name, f).

Definition xml_attribute (f : function)
           (l : ObjectMetadataLibrary) : ObjectMetadataLibrary * function :=
  (register_xml_property_attribute l (function_qual_name f), f).

Definition xml_array (array_type : XmlArraySerializationType)
           (child_name : string) (f : function)
           (l : ObjectMetadataLibrary) : ObjectMetadataLibrary * function :=
  (register_xml_property_array_config l (function_qual_name f)
                                      array_type child_name, f).

Definition xml_name (name : string) (f : function)
           (l : ObjectMetadataLibrary) : ObjectMetadataLibrary * function :=
  (register_custom_xml_property_name l (function_qual_name f) name, f).

(** A decorator line above a getter. *)
Inductive decorator : Type :=
| At_type_mapping (type_ : any_serializable)
| At_json_name (name : string)
| At_xml_attribute
| At_xml_array (array_type : XmlArraySerializationType) (child_name : string)
| At_xml_name (name : string).

Definition decorate (d : decorator)
  : function → ObjectMetadataLibrary → ObjectMetadataLibrary * function :=
  match d with
  | At_type_mapping type_ => type_mapping type_
  | At_json_name name => json_name name
  | At_xml_attribute => xml_attribute
  | At_xml_array array_type child_name => xml_array array_type child_name
  | At_xml_name name => xml_name name
  end.

(** The decorator lines above [def f], from the top one to the one next
    to [def]: Python applies them from the bottom up, each to the
    function the one below it returned. *)
Fixpoint decorated (ds : list decorator) (f : function)
         (l : ObjectMetadataLibrary) : ObjectMetadataLibrary * function :=
  match ds with
  | [] => (l, f)
  | d :: below => let '(l', f') := decorated below f l in decorate d f' l'
  end.

(** Which of the five decorators a line is. *)
Inductive decorator_kind : Type :=
| K_type_mapping | K_json_name | K_xml_attribute | K_xml_array | K_xml_name.

#[global] Instance decorator_kind_eq_dec : EqDecision decorator_kind.
Proof. solve_decision. Defined.

Definition kind_of (d : decorator) : decorator_kind :=
  match d with
  | At_type_mapping _ => K_type_mapping
  | At_json_name _ => K_json_name
  | At_xml_attribute => K_xml_attribute
  | At_xml_array _ _ => K_xml_array
  | At_xml_name _ => K_xml_name
  end.

(** ** The environment of the codecs

    [CurrentFormatter.formatter] lives in [serializable.formatters]; the
    codecs use its [encode] and [decode] and nothing else.  A formatter is
    always installed, so the guards [if CurrentFormatter.formatter:] hold. *)

Record Formatter : Type := mkFormatter {
  encode : string -> string;
  decode : string -> string
}.

Definition dquote : string := String (Ascii.ascii_of_nat 34) EmptyString.

(** [str.isdigit] and [int] on a text with characters outside ASCII go by
    the Unicode database: a full-width digit is a digit and has a value,
    a superscript digit is a digit on which [int] raises [ValueError]. *)
Record Unicode : Type := mkUnicode {
  unicode_isdigit : string -> bool;
  unicode_int : string -> result Z
}.

Section Codecs.

(** The installed formatter. *)
Variable formatter : Formatter.

(** The classes of the program, by qualified name. *)
Variable klasses : gmap string klass.

(** [str(v)] for the values whose text the module does not determine:
    lists, sets, dictionaries and instances. *)
Variable str_other : pyval -> string.

(** What the Unicode database says of the texts outside ASCII. *)
Variable unicode : Unicode.

(** The [(prefix, uri)] pairs that
    [ElementTree.iterparse(StringIO(ElementTree.tostring(data, 'unicode')),
    events=['start-ns'])] reports for an element, or the exception that
    writing the element and parsing it again raises: a [ParseError] when
    a name, a text or an attribute value of the element holds what an
    XML document cannot hold. *)
Variable start_ns : Element -> result (list (string * string)).

(** [str(v)] *)
Definition py_str (v : pyval) : string :=
  match v with
  | VNone => "None"
  | VBool true => "True"
  | VBool false => "False"
  | VInt z => PyStr.of_int z
  | VFloat r => r
  | VStr s => s
  | VEnum c m _ => c +:+ "." +:+ m
  | _ => str_other v
  end.

(** *** Attribute lookup on classes *)

Definition inherited (k : klass) (attr : string) : option method :=
  if String.eqb attr "from_json"
  then (if k_json_object k then Some Inherited_from_json else None)
  else if String.eqb attr "as_xml"
  then (if k_xml_object k then Some Inherited_as_xml else None)
  else if String.eqb attr "from_xml"
  then (if k_xml_object k then Some Inherited_from_xml else None)
  else None.

(** [getattr(klass, attr, None)] for a class of the program: an
    attribute set by [register_klass] hides the inherited one. *)
Definition class_getattr (w : world) (c : class_ref) (attr : string)
  : option method :=
  match attr_lookup (klass_attrs w) (qualified_name c) attr with
  | Some m => Some m
  | None => klasses !! qualified_name c ≫= (fun k => inherited k attr)
  end.

(** [getattr(klass, attr, None)] for a value of a hook table, for the
    three method names above. *)
Definition any_getattr (w : world) (a : any_serializable) (attr : string)
  : option method :=
  match a with
  | AClass c => class_getattr w c attr
  | _ => None
  end.

(** [inspect.isclass(klass) and callable(getattr(klass, "serialize", None))],
    and the same for ["deserialize"] *)
Definition simple_of (a : any_serializable) : option simple_serializable :=
  match a with
  | ASimple s => Some s
  | _ => None
  end.

(** [klass(x)] *)
Definition call_any (a : any_serializable) (x : pyval) : result pyval :=
  match a with
  | AClass c =>
      match klasses !! qualified_name c with
      | Some k => d ← k_new k [x] []; Ok (VObj c d)
      | None => Raise (TypeError "not callable")
      end
  | ASimple s => Ok (VObj (ss_ref s) [])
  | ACallable f => f x
  end.

(** [cls( **_data)] *)
Definition construct (cls : klass) (_data : list (string * pyval))
  : result pyval :=
  d ← k_new cls [] _data; Ok (VObj (k_ref cls) d).

(** [for x in xs: acc = step(acc, x)], stopping at the first exception *)
Fixpoint for_each {A S : Type} (step : S -> A -> result S) (xs : list A)
         (acc : S) : result S :=
  match xs with
  | [] => Ok acc
  | x :: r => acc' ← step acc x; for_each step r acc'
  end.

(** [[f(x) for x in xs]], stopping at the first exception *)
Fixpoint map_each {A B : Type} (f : A -> result B) (xs : list A)
  : result (list B) :=
  match xs with
  | [] => Ok []
  | x :: r => y ← f x; ys ← map_each f r; Ok (y :: ys)
  end.

(** [k[1:]] is skipped when it starts with an underscore or holds a
    double underscore. *)
Definition skipped_key (new_key : string) : bool :=
  PyStr.startswith "_" new_key || PyStr.contains "__" new_key.

(** *** JSON encoding *)

(** [ObjectMetadataLibrary.klass_property_mappings.get(klass_qualified_name, {})] *)
Definition property_info (w : world) (c : class_ref)
  : gmap string SerializableProperty :=
  match klass_property_mappings (library w) !! qualified_name c with
  | Some info => info
  | None => ∅
  end.

(** One turn of the loop over [o.__dict__.items()]. *)
Definition default_item (w : world)
           (serializable_property_info : gmap string SerializableProperty)
           (d : list (string * pyval)) (kv : string * pyval)
  : result (list (string * pyval)) :=
  let '(k, v) := kv in
  match v with
  | VNone => Ok d
  | _ =>
      let new_key := PyStr.tail1 k in
      if skipped_key new_key then Ok d
      else
        match serializable_property_info !! new_key with
        | Some prop_info =>
            let new_key :=
              match SerializableProperty_.custom_name (library w) prop_info JSON with
              | Some n => if String.eqb n "" then new_key else n
              | None => new_key
              end in
            let new_key := encode formatter new_key in
            v ← match sp_custom_type prop_info with
                | Some ct =>
                    match simple_of ct with
                    | Some s => ss_serialize s v
                    | None => call_any ct v
                    end
                | None => Ok v
                end;
            let new_key := encode formatter new_key in
            Ok (PyDict.set new_key v d)
        | None =>
            let new_key := encode formatter new_key in
            Ok (PyDict.set new_key v d)
        end
  end.

(** [DefaultJsonEncoder.default(o)].  Every value is an instance of
    [object], so the third test always holds and the fallback after it
    is never reached; the values [json] encodes by itself have no
    [__module__]. *)
Definition DefaultJsonEncoder_default (w : world) (o : pyval) : result pyval :=
  match o with
  | VEnum _ _ value => Ok value
  | VList items => Ok (VList items)
  | VSet items => Ok (VList items)
  | VObj c dict =>
      let serializable_property_info := property_info w c in
      d ← for_each (default_item w serializable_property_info) dict [];
      Ok (VDict d)
  | _ => Raise (AttributeError "__module__")
  end.

(** [json.dumps(v, cls=DefaultJsonEncoder)] up to the text: the document
    it writes.  [json] encodes [None], booleans, numbers, strings, lists
    and dictionaries by itself and asks [default] for anything else,
    then encodes what [default] returns.  [fuel] bounds the depth of
    the recursion, as the interpreter's recursion limit does. *)
Fixpoint json_dumps (fuel : nat) (w : world) (v : pyval) : result json :=
  match fuel with
  | O => Raise RecursionError
  | S n =>
      match v with
      | VNone => Ok JNull
      | VBool b => Ok (JBool b)
      | VInt z => Ok (JInt z)
      | VFloat r => Ok (JFloat r)
      | VStr s => Ok (JStr s)
      | VList items => js ← map_each (json_dumps n w) items; Ok (JArr js)
      | VDict entries =>
          ms ← map_each (fun kv : string * pyval =>
                           j ← json_dumps n w (snd kv); Ok (fst kv, j))
                        entries;
          Ok (JObj ms)
      | _ => v' ← DefaultJsonEncoder_default w v; json_dumps n w v'
      end
  end.

(** [json.loads] up to the text: the value read from a document. *)
Fixpoint json_loads (j : json) : pyval :=
  match j with
  | JNull => VNone
  | JBool b => VBool b
  | JInt z => VInt z
  | JFloat r => VFloat r
  | JStr s => VStr s
  | JArr items => VList (map json_loads items)
  | JObj members =>
      VDict (PyDict.of_pairs
               (map (fun kv : string * json =>
                       let '(k, x) := kv in (k, json_loads x))
                    members))
  end.

(** [_as_json(self)] *)
Definition _as_json (fuel : nat) (w : world) (self : pyval) : result json :=
  json_dumps fuel w self.

(** *** JSON decoding *)

(** One turn of the first loop of [from_json], over [data.items()], on
    the copy [_data]. *)
Definition resolve_key (cls : klass) (_data : list (string * pyval))
           (kv : string * pyval) : result (list (string * pyval)) :=
  let '(k, v) := kv in
  if negb (k_json_object cls)
  then Raise (AttributeError "get_json_key_removals")
  else if str_in k (get_json_key_removals cls)
  then Ok (PyDict.del k _data)
  else
    let decoded_k := decode formatter k in
    match PyDict.key_of_value decoded_k (get_property_key_mappings cls) with
    | Some mapped_k =>
        let _data := PyDict.del k _data in
        let mapped_k := if String.eqb mapped_k "." then decoded_k else mapped_k in
        Ok (PyDict.set mapped_k v _data)
    | None =>
        let _data := PyDict.del k _data in
        Ok (PyDict.set decoded_k v _data)
    end.

(** The name under which the first loop of [from_json] files the value of
    the key [k]: none when the key is among the removals, the key of the
    first key mapping whose value is the decoded key when there is one
    (the decoded key itself when that key is ['.']), the decoded key
    otherwise. *)
Definition resolved_name (cls : klass) (k : string) : option string :=
  if str_in k (get_json_key_removals cls) then None
  else
    let decoded_k := decode formatter k in
    match PyDict.key_of_value decoded_k (get_property_key_mappings cls) with
    | Some mapped_k => Some (if String.eqb mapped_k "." then decoded_k else mapped_k)
    | None => Some decoded_k
    end.

(** [klass.from_json(data=j)], when [klass] has a callable [from_json].
    The inherited one is a class method.  The one [register_klass] sets
    is the plain function [_from_json]: reached through the class it is
    not bound, and the call binds [data] only. *)
Definition klass_from_json (rec : klass -> pyval -> result pyval)
           (w : world) (a : any_serializable) (j : pyval)
  : option (result pyval) :=
  match a with
  | AClass c =>
      match class_getattr w c "from_json" with
      | Some Inherited_from_json =>
          match klasses !! qualified_name c with
          | Some k => Some (rec k j)
          | None => None
          end
      | Some _ =>
          Some (Raise (TypeError
            "_from_json() missing 1 required positional argument: 'cls'"))
      | None => None
      end
  | _ => None
  end.

(** The three-way choice made for a value of the data class mappings. *)
Definition decode_mapped (rec : klass -> pyval -> result pyval)
           (w : world) (a : any_serializable) (j : pyval) : result pyval :=
  match klass_from_json rec w a j with
  | Some r => r
  | None =>
      match simple_of a with
      | Some s => ss_deserialize s j
      | None => call_any a j
      end
  end.

(** The two-way choice made for the class of an array configuration. *)
Definition decode_array_item (rec : klass -> pyval -> result pyval)
           (w : world) (a : any_serializable) (j : pyval) : result pyval :=
  match klass_from_json rec w a j with
  | Some r => r
  | None => call_any a j
  end.

(** One turn of the second loop of [from_json], over [_data.items()]. *)
Definition convert_value (rec : klass -> pyval -> result pyval)
           (w : world) (cls : klass) (_data : list (string * pyval))
           (kv : string * pyval) : result (list (string * pyval)) :=
  let '(k, v) := kv in
  match PyDict.get k (get_property_data_class_mappings cls) with
  | Some a =>
      match v with
      | VList js | VSet js =>
          items ← map_each (decode_mapped rec w a) js;
          Ok (PyDict.set k (VList items) _data)
      | _ =>
          x ← decode_mapped rec w a v;
          Ok (PyDict.set k x _data)
      end
  | None =>
      match PyDict.get k (get_array_property_configuration cls) with
      | Some (_, _, a) =>
          match v with
          | VList js | VSet js =>
              items ← map_each (decode_array_item rec w a) js;
              Ok (PyDict.set k (VList items) _data)
          | _ => Ok _data
          end
      | None => Ok _data
      end
  end.

(** The keyword arguments [from_json] builds for the constructor. *)
Definition from_json_kwargs (rec : klass -> pyval -> result pyval)
           (w : world) (cls : klass) (data : list (string * pyval))
  : result (list (string * pyval)) :=
  _data ← for_each (resolve_key cls) data data;
  for_each (convert_value rec w cls) _data _data.

(** The body shared, word for word, by [JsonSerializableObject.from_json]
    and [_from_json]; [rec] is the class method reached by
    [klass.from_json]. *)
Definition from_json_body (rec : klass -> pyval -> result pyval)
           (w : world) (cls : klass) (data : pyval) : result pyval :=
  match data with
  | VDict entries =>
      _data ← from_json_kwargs rec w cls entries;
      construct cls _data
  | _ => Raise (AttributeError "items")
  end.

(** [JsonSerializableObject.from_json(cls, data)] *)
Fixpoint from_json (fuel : nat) (w : world) (cls : klass) (data : pyval)
  : result pyval :=
  match fuel with
  | O => Raise RecursionError
  | S n => from_json_body (from_json n w) w cls data
  end.

(** [_from_json(cls, data)] *)
Definition _from_json (fuel : nat) (w : world) (cls : klass) (data : pyval)
  : result pyval :=
  match fuel with
  | O => Raise RecursionError
  | S n => from_json_body (from_json n w) w cls data
  end.

(** *** XML encoding *)

(** [ElementTree.SubElement(parent, tag).text = s]: the new child *)
Definition text_element (tag s : string) : Element :=
  mkElement tag [] (Some s) [].

(** The characters of a string, as [for j in v] yields them. *)
Fixpoint chars (s : string) : list pyval :=
  match s with
  | EmptyString => []
  | String c r => VStr (String c EmptyString) :: chars r
  end.

(** [for j in v] *)
Definition iterate (v : pyval) : result (list pyval) :=
  match v with
  | VList items => Ok items
  | VSet items => Ok items
  | VStr s => Ok (chars s)
  | VDict entries => Ok (map (fun kv : string * pyval => VStr (fst kv)) entries)
  | _ => Raise (TypeError "object is not iterable")
  end.

(** [element_name or CurrentFormatter.formatter.encode(self.__class__.__name__)] *)
Definition root_tag (c : class_ref) (element_name : option string) : string :=
  match element_name with
  | Some n => if String.eqb n "" then encode formatter (cr_name c) else n
  | None => encode formatter (cr_name c)
  end.

(** [prop_info.custom_names.get(SerializationType.XML, new_key)] *)
Definition xml_name_of (w : world) (prop_info : SerializableProperty)
           (new_key : string) : string :=
  match SerializableProperty_.custom_names (library w) prop_info !! XML with
  | Some n => n
  | None => new_key
  end.

(** The attribute name the first loop of [_as_xml] writes for the key [k]
    of [__dict__], if it writes one. *)
Definition _as_xml_attribute_name (w : world)
           (serializable_property_info : gmap string SerializableProperty)
           (k : string) : option string :=
  let new_key := PyStr.tail1 k in
  if skipped_key new_key then None
  else
    match serializable_property_info !! new_key with
    | Some prop_info =>
        if sp_is_xml_attribute prop_info then
          let new_key := xml_name_of w prop_info new_key in
          let new_key := encode formatter new_key in
          Some new_key
        else None
    | None => None
    end.

(** One turn of the first loop of [_as_xml]: the attributes. *)
Definition _as_xml_attribute (w : world)
           (serializable_property_info : gmap string SerializableProperty)
           (this_e_attributes : list (string * string))
           (kv : string * pyval) : list (string * string) :=
  let '(k, v) := kv in
  match _as_xml_attribute_name w serializable_property_info k with
  | Some new_key => PyDict.set new_key (py_str v) this_e_attributes
  | None => this_e_attributes
  end.

Definition _as_xml_attributes (w : world) (c : class_ref)
           (dict : list (string * pyval)) : list (string * string) :=
  fold_left (_as_xml_attribute w (property_info w c)) dict [].

(** An item of an array property in [_as_xml]. *)
Definition _as_xml_array_item
           (call_as_xml : pyval -> option string -> result Element)
           (prop_info : SerializableProperty) (nested_key : string)
           (j : pyval) : result Element :=
  prim ← SerializableProperty_.is_primitive_type prop_info;
  if negb prim then call_as_xml j (Some nested_key)
  else
    t ← SerializableProperty_.concrete_type prop_info;
    if bool_decide (t ∈ [TFloat; TInt])
    then Ok (text_element nested_key (py_str j))
    else if bool_decide (t = TBool)
    then Ok (text_element nested_key (PyStr.lower (py_str j)))
    else Ok (text_element nested_key (py_str j)).

(** The text [_as_xml] writes for an item or a value of the primitive
    type [t]. *)
Definition primitive_text (t : pytype) (v : pyval) : string :=
  if bool_decide (t = TBool) then PyStr.lower (py_str v) else py_str v.

(** The state of [this_e] while its sub elements are added: its text and
    its children. *)
Definition xml_state : Type := option string * list Element.

Definition append_child (st : xml_state) (e : Element) : xml_state :=
  (fst st, (snd st ++ [e])%list).

(** One turn of the second loop of [_as_xml]: the sub elements. *)
Definition _as_xml_element
           (call_as_xml : pyval -> option string -> result Element)
           (w : world)
           (serializable_property_info : gmap string SerializableProperty)
           (st : xml_state) (kv : string * pyval) : result xml_state :=
  let '(k, v) := kv in
  match v with
  | VNone => Ok st
  | _ =>
      let new_key := PyStr.tail1 k in
      if skipped_key new_key then Ok st
      else
        match serializable_property_info !! new_key with
        | None => Ok st
        | Some prop_info =>
            if sp_is_xml_attribute prop_info then Ok st
            else
              let new_key := xml_name_of w prop_info new_key in
              if String.eqb new_key "." then Ok (Some (py_str v), snd st)
              else
                let new_key := encode formatter new_key in
                match sp_custom_type prop_info with
                | Some ct =>
                    match simple_of ct with
                    | Some s =>
                        x ← ss_serialize s v;
                        Ok (append_child st (text_element new_key (py_str x)))
                    | None => Raise (AttributeError "serialize")
                    end
                | None =>
                    arr ← SerializableProperty_.is_array prop_info;
                    if arr : bool then
                      match sp_xml_array_config prop_info with
                      | None =>
                          Raise (TypeError
                            "cannot unpack non-iterable NoneType object")
                      | Some (_array_type, nested_key) =>
                          items ← iterate v;
                          es ← map_each
                                 (_as_xml_array_item call_as_xml prop_info nested_key)
                                 items;
                          match _array_type with
                          | NESTED =>
                              Ok (append_child st (mkElement new_key [] None es))
                          | FLAT => Ok (fst st, (snd st ++ es)%list)
                          end
                      end
                    else
                      en ← SerializableProperty_.is_enum prop_info;
                      if en : bool then
                        match v with
                        | VEnum _ _ value =>
                            Ok (append_child st (text_element new_key (py_str value)))
                        | _ => Raise (AttributeError "value")
                        end
                      else
                        prim ← SerializableProperty_.is_primitive_type prop_info;
                        if negb prim then
                          e ← call_as_xml v (Some new_key);
                          Ok (append_child st e)
                        else if bool_decide (sp_type_ prop_info ∈ [Some TFloat; Some TInt])
                        then Ok (append_child st (text_element new_key (py_str v)))
                        else if bool_decide (sp_type_ prop_info = Some TBool)
                        then Ok (append_child st
                                   (text_element new_key (PyStr.lower (py_str v))))
                        else Ok (append_child st (text_element new_key (py_str v)))
                end
        end
  end.

(** [_as_xml(self, as_string=False, element_name)]; [call_as_xml] is the
    method call [x.as_xml(as_string=False, element_name=...)].  With
    [as_string=True] the function returns [ElementTree.tostring] of the
    same element. *)
Definition _as_xml_body
           (call_as_xml : pyval -> option string -> result Element)
           (w : world) (self : pyval) (element_name : option string)
  : result Element :=
  match self with
  | VObj c dict =>
      let serializable_property_info := property_info w c in
      let this_e_attributes := _as_xml_attributes w c dict in
      st ← for_each (_as_xml_element call_as_xml w serializable_property_info)
                    dict (None, []);
      Ok (mkElement (root_tag c element_name) this_e_attributes (fst st) (snd st))
  | _ => Raise (AttributeError "__dict__")
  end.

(** The attribute name the first loop of [XmlSerializableObject.as_xml]
    writes for the key [k] of [__dict__], if it writes one. *)
Definition as_xml_attribute_name (cls : klass) (k : string) : option string :=
  let new_key := PyStr.tail1 k in
  if skipped_key new_key then None
  else if str_in new_key (properties_as_attributes cls) then
    let new_key :=
      match PyDict.get new_key (get_property_key_mappings cls) with
      | Some n => n
      | None => new_key
      end in
    let new_key := encode formatter new_key in
    Some new_key
  else None.

(** One turn of the first loop of [XmlSerializableObject.as_xml]. *)
Definition as_xml_attribute (cls : klass)
           (this_e_attributes : list (string * string))
           (kv : string * pyval) : list (string * string) :=
  let '(k, v) := kv in
  match as_xml_attribute_name cls k with
  | Some new_key => PyDict.set new_key (py_str v) this_e_attributes
  | None => this_e_attributes
  end.

Definition as_xml_attributes (cls : klass) (dict : list (string * pyval))
  : list (string * string) :=
  fold_left (as_xml_attribute cls) dict [].

(** An item of a list or set in [XmlSerializableObject.as_xml]. *)
Definition as_xml_array_item
           (call_as_xml : pyval -> option string -> result Element)
           (w : world) (item_key : string) (j : pyval) : result Element :=
  match j with
  | VObj c _ =>
      match class_getattr w c "as_xml" with
      | Some _ => call_as_xml j None
      | None => Ok (text_element item_key (py_str j))
      end
  | _ => Ok (text_element item_key (py_str j))
  end.

(** The sub element of a property that is no attribute and is not
    mapped to the text of [this_e]; [new_key] is the name after the key
    mapping. *)
Definition as_xml_sub_element
           (call_as_xml : pyval -> option string -> result Element)
           (w : world) (cls : klass)
           (st : xml_state) (new_key : string) (v : pyval)
  : result xml_state :=
  match PyDict.get new_key (get_property_data_class_mappings cls) with
  | Some klass_ss =>
      let new_key := encode formatter new_key in
      match any_getattr w klass_ss "as_xml" with
      | Some _ =>
          e ← call_as_xml v (Some new_key);
          Ok (append_child st e)
      | None =>
          match simple_of klass_ss with
          | Some s =>
              x ← ss_serialize s v;
              Ok (append_child st (text_element new_key (py_str x)))
          | None => Ok st
          end
      end
  | None =>
      match v with
      | VList items | VSet items =>
          let '(array_type, nested_key) :=
            match PyDict.get new_key (get_array_property_configuration cls) with
            | Some (array_type, nested_key, _) => (array_type, nested_key)
            | None => (FLAT, new_key)
            end in
          let new_key := encode formatter new_key in
          match array_type with
          | NESTED =>
              let item_key := new_key in
              es ← map_each (as_xml_array_item call_as_xml w item_key) items;
              Ok (append_child st (mkElement new_key [] None es))
          | FLAT =>
              let item_key := nested_key in
              es ← map_each (as_xml_array_item call_as_xml w item_key) items;
              Ok (fst st, (snd st ++ es)%list)
          end
      | VEnum _ _ value =>
          let new_key := encode formatter new_key in
          Ok (append_child st (text_element new_key (py_str value)))
      | _ =>
          let new_key := encode formatter new_key in
          Ok (append_child st (text_element new_key (py_str v)))
      end
  end.

(** One turn of the second loop of [XmlSerializableObject.as_xml]. *)
Definition as_xml_element
           (call_as_xml : pyval -> option string -> result Element)
           (w : world) (cls : klass)
           (st : xml_state) (kv : string * pyval) : result xml_state :=
  let '(k, v) := kv in
  match v with
  | VNone => Ok st
  | _ =>
      let new_key := PyStr.tail1 k in
      if skipped_key new_key then Ok st
      else if str_in new_key (properties_as_attributes cls) then Ok st
      else
        match PyDict.get new_key (get_property_key_mappings cls) with
        | Some mapped =>
            if String.eqb mapped "." then Ok (Some (py_str v), snd st)
            else as_xml_sub_element call_as_xml w cls st mapped v
        | None => as_xml_sub_element call_as_xml w cls st new_key v
        end
  end.

(** [XmlSerializableObject.as_xml(self, as_string=False, element_name)] *)
Definition as_xml_body
           (call_as_xml : pyval -> option string -> result Element)
           (w : world) (self : pyval) (element_name : option string)
  : result Element :=
  match self with
  | VObj c dict =>
      match klasses !! qualified_name c with
      | Some cls =>
          let this_e_attributes := as_xml_attributes cls dict in
          st ← for_each (as_xml_element call_as_xml w cls) dict (None, []);
          Ok (mkElement (root_tag c element_name) this_e_attributes
                        (fst st) (snd st))
      | None => Raise (AttributeError "properties_as_attributes")
      end
  | _ => Raise (AttributeError "__dict__")
  end.

(** The method call [x.as_xml(as_string=False, element_name=...)]: the
    function set by [register_klass] when there is one, the method
    inherited from [XmlSerializableObject] otherwise. *)
Fixpoint call_as_xml (fuel : nat) (w : world) (x : pyval)
         (element_name : option string) : result Element :=
  match fuel with
  | O => Raise RecursionError
  | S n =>
      match x with
      | VObj c _ =>
          match class_getattr w c "as_xml" with
          | Some Fn_as_xml => _as_xml_body (call_as_xml n w) w x element_name
          | Some Inherited_as_xml => as_xml_body (call_as_xml n w) w x element_name
          | Some _ => Raise (TypeError "as_xml")
          | None => Raise (AttributeError "as_xml")
          end
      | _ => Raise (AttributeError "as_xml")
      end
  end.

(** [_as_xml(self, as_string=False, element_name=element_name)] *)
Definition _as_xml (fuel : nat) (w : world) (self : pyval)
           (element_name : option string) : result Element :=
  _as_xml_body (call_as_xml fuel w) w self element_name.

(** [XmlSerializableObject.as_xml(self, as_string=False, element_name=element_name)] *)
Definition as_xml (fuel : nat) (w : world) (self : pyval)
           (element_name : option string) : result Element :=
  as_xml_body (call_as_xml fuel w) w self element_name.

(** *** XML decoding *)

(** The default namespace [from_xml] works out when it is given none:
    the URI bound to the prefix [ns0] in [dict] of the reported
    declarations, the empty string without such a prefix. *)
Definition infer_default_namespace (data : Element) : result string :=
  declarations ← start_ns data;
  let _namespaces := PyDict.of_pairs declarations in
  match PyDict.get "ns0" _namespaces with
  | Some uri => Ok uri
  | None => Ok ""
  end.

(** The namespace in force after the test [if default_namespace is None:] *)
Definition effective_namespace (data : Element)
           (default_namespace : option string) : result string :=
  match default_namespace with
  | Some ns => Ok ns
  | None => infer_default_namespace data
  end.

(** [str(e.tag).replace('{' + default_namespace + '}', '')] *)
Definition strip_namespace (default_namespace tag_ : string) : string :=
  PyStr.remove_all ("{" +:+ default_namespace +:+ "}") tag_.

(** [e.text] as a value *)
Definition text_value (e : Element) : pyval :=
  match text e with
  | Some s => VStr s
  | None => VNone
  end.

(** [s.isdigit()] *)
Definition str_isdigit (s : string) : bool :=
  if PyStr.is_ascii s then PyStr.isdigit s else unicode_isdigit unicode s.

(** [int(s)] for an [s] with [s.isdigit()] *)
Definition int_of_str (s : string) : result Z :=
  if PyStr.is_ascii s then Ok (PyStr.int_of s) else unicode_int unicode s.

(** [int(str(x)) if str(x).isdigit() else x] *)
Definition int_or_raw (x : pyval) : result pyval :=
  if str_isdigit (py_str x)
  then (n ← int_of_str (py_str x); Ok (VInt n))
  else Ok x.

(** The name found for a decoded tag: the key of the first key mapping
    whose value it is, the decoded tag itself otherwise. *)
Definition mapped_name (cls : klass) (decoded_name : string) : string :=
  match PyDict.key_of_value decoded_name (get_property_key_mappings cls) with
  | Some key => key
  | None => decoded_name
  end.

(** One turn of the loop over [data.attrib.items()]. *)
Definition from_xml_attribute (cls : klass) (_data : list (string * pyval))
           (attribute : string * string) : result (list (string * pyval)) :=
  let '(attribute_name, attribute_value) := attribute in
  let decoded_name := mapped_name cls (decode formatter attribute_name) in
  if str_in decoded_name (properties_as_attributes cls) then
    match PyDict.get decoded_name (get_property_data_class_mappings cls) with
    | Some a =>
        x ← match simple_of a with
            | Some s => ss_deserialize s (VStr attribute_value)
            | None => call_any a (VStr attribute_value)
            end;
        Ok (PyDict.set decoded_name x _data)
    | None =>
        x ← int_or_raw (VStr attribute_value);
        Ok (PyDict.set decoded_name x _data)
    end
  else Ok _data.

(** The text of the element goes to the property mapped to ['.']. *)
Definition from_xml_text (cls : klass) (data : Element)
           (_data : list (string * pyval)) : list (string * pyval) :=
  match text data with
  | Some s =>
      if String.eqb s "" then _data
      else match PyDict.key_of_value "." (get_property_key_mappings cls) with
           | Some decoded_name => PyDict.set decoded_name (VStr (PyStr.strip s)) _data
           | None => _data
           end
  | None => _data
  end.

(** [klass.from_xml(data=e, default_namespace=ns)] for a value of a hook
    table: [None] when [klass] has no callable [from_xml]. *)
Definition klass_from_xml
           (rec : klass -> Element -> option string -> result pyval)
           (w : world) (a : any_serializable) (e : Element)
           (ns : option string) : option (result pyval) :=
  match a with
  | AClass c =>
      match class_getattr w c "from_xml" with
      | Some Inherited_from_xml =>
          match klasses !! qualified_name c with
          | Some k => Some (rec k e ns)
          | None => None
          end
      | Some _ => Some (Raise (TypeError "from_xml"))
      | None => None
      end
  | _ => None
  end.

(** [_data[name].append(x)] *)
Definition append_to (name : string) (x : pyval) (_data : list (string * pyval))
  : result (list (string * pyval)) :=
  match PyDict.get name _data with
  | Some (VList items) => Ok (PyDict.set name (VList (items ++ [x])%list) _data)
  | _ => Raise (AttributeError "append")
  end.

(** [[{k: v} for k, v in cls.get_array_property_configuration().items()
      if str(child_e_tag_name) in v]]: a string is in the tuple when it
    is its second component. *)
Definition matching_array_config (cls : klass) (child_e_tag_name : string)
  : list (string * (XmlArraySerializationType * string * any_serializable)) :=
  filter (fun kv => bool_decide (snd (fst (snd kv)) = child_e_tag_name))
         (get_array_property_configuration cls).

(** [name in cls.__dict__]: the names of the class body and those set by
    [register_klass]. *)
Definition in_class_dict (w : world) (cls : klass) (name : string) : bool :=
  str_in name (k_dict cls)
  || match attr_lookup (klass_attrs w) (qualified_name (k_ref cls)) name with
     | Some _ => true
     | None => false
     end.

(** The message of the last branch of the loop over the children. *)
Definition unmapped_message (child_e_tag_name : string) (cls : klass) : string :=
  "Element " +:+ dquote +:+ child_e_tag_name +:+ dquote
  +:+ " does not map to a Property of Class " +:+ cr_name (k_ref cls).

(** One turn of the loop over the sub children of a nested array. *)
Definition from_xml_sub_child
           (rec : klass -> Element -> option string -> result pyval)
           (w : world) (a : any_serializable)
           (default_namespace nested_tag child_e_tag_name decoded_name : string)
           (_data : list (string * pyval)) (sub_child_e : Element)
  : result (list (string * pyval)) :=
  let sub_child_e_tag_name := strip_namespace default_namespace (tag sub_child_e) in
  if negb (String.eqb sub_child_e_tag_name nested_tag)
  then Raise (ValueError ("Only " +:+ nested_tag +:+ " elements expected under "
                          +:+ child_e_tag_name))
  else
    match klass_from_xml rec w a sub_child_e (Some default_namespace) with
    | Some r => x ← r; append_to decoded_name x _data
    | None => Raise (AttributeError "from_xml")
    end.

(** One turn of the loop over the children of [data]. *)
Definition from_xml_child
           (rec : klass -> Element -> option string -> result pyval)
           (w : world) (cls : klass) (default_namespace : string)
           (_data : list (string * pyval)) (child_e : Element)
  : result (list (string * pyval)) :=
  let child_e_tag_name := strip_namespace default_namespace (tag child_e) in
  let decoded_name := decode formatter child_e_tag_name in
  let array_config := matching_array_config cls child_e_tag_name in
  let decoded_name := mapped_name cls decoded_name in
  match PyDict.get decoded_name (get_array_property_configuration cls) with
  | Some (array_type, nested_tag, a) =>
      match array_type with
      | FLAT => Raise (ValueError "Only NESTED expected here!")
      | NESTED =>
          for_each
            (from_xml_sub_child rec w a default_namespace nested_tag
                                child_e_tag_name decoded_name)
            (children child_e)
            (PyDict.set decoded_name (VList []) _data)
      end
  | None =>
      match array_config with
      | (prop_name, (array_type, tag_name, a)) :: _ =>
          match array_type with
          | NESTED => Raise (ValueError "Only FLAT expected here!")
          | FLAT =>
              let _data :=
                if PyDict.mem prop_name _data then _data
                else PyDict.set prop_name (VList []) _data in
              match klass_from_xml rec w a child_e None with
              | Some r => x ← r; append_to prop_name x _data
              | None => x ← call_any a (text_value child_e);
                        append_to prop_name x _data
              end
          end
      | [] =>
          match PyDict.get decoded_name (get_property_data_class_mappings cls) with
          | Some a =>
              x ← match klass_from_xml rec w a child_e None with
                  | Some r => r
                  | None =>
                      match simple_of a with
                      | Some s => ss_deserialize s (VStr (py_str (text_value child_e)))
                      | None => call_any a (VStr (py_str (text_value child_e)))
                      end
                  end;
              Ok (PyDict.set decoded_name x _data)
          | None =>
              if in_class_dict w cls decoded_name
              then (x ← int_or_raw (text_value child_e);
                    Ok (PyDict.set decoded_name x _data))
              else Raise (ValueError (unmapped_message child_e_tag_name cls))
          end
      end
  end.

(** [XmlSerializableObject.from_xml(cls, data, default_namespace)] for an
    element [data]; [rec] is the class method reached by
    [klass.from_xml]. *)
Definition from_xml_body
           (rec : klass -> Element -> option string -> result pyval)
           (w : world) (cls : klass) (data : Element)
           (default_namespace : option string) : result pyval :=
  default_namespace ← effective_namespace data default_namespace;
  _data ← for_each (from_xml_attribute cls) (attrib data) [];
  let _data := from_xml_text cls data _data in
  _data ← for_each (from_xml_child rec w cls default_namespace) (children data) _data;
  construct cls _data.

Fixpoint from_xml (fuel : nat) (w : world) (cls : klass) (data : Element)
         (default_namespace : option string) : result pyval :=
  match fuel with
  | O => Raise RecursionError
  | S n => from_xml_body (from_xml n w) w cls data default_namespace
  end.

End Codecs.

(** ** Notions used to state the round trip *)

(** The values [json] writes and reads back unchanged without asking
    [default]: [None], booleans, numbers, strings, and lists of such. *)
Fixpoint json_native (v : pyval) : bool :=
  match v with
  | VNone | VBool _ | VInt _ | VFloat _ | VStr _ => true
  | VList items => forallb json_native items
  | _ => false
  end.

(** The document of such a value. *)
Fixpoint native_json (v : pyval) : json :=
  match v with
  | VBool b => JBool b
  | VInt z => JInt z
  | VFloat r => JFloat r
  | VStr s => JStr s
  | VList items => JArr (map native_json items)
  | _ => JNull
  end.

(** The nesting of lists in a value. *)
Fixpoint depth (v : pyval) : nat :=
  match v with
  | VList items => S (fold_right Nat.max O (map depth items))
  | _ => O
  end.

(** The entries of a [__dict__] whose value is not [None]. *)
Fixpoint present (dict : list (string * pyval)) : list (string * pyval) :=
  match dict with
  | [] => []
  | (_, VNone) :: r => present r
  | kv :: r => kv :: present r
  end.

(** The key under which [DefaultJsonEncoder.default] writes the property
    [new_key] of an instance of the class [c]: a registered property is
    renamed by its JSON name, if it has a non-empty one, and encoded by
    the formatter twice; any other attribute is encoded once. *)
Definition json_wire_name (formatter : Formatter) (w : world) (c : class_ref)
           (new_key : string) : string :=
  match property_info w c !! new_key with
  | Some prop_info =>
      encode formatter
        (encode formatter
           (match SerializableProperty_.custom_name (library w) prop_info JSON with
            | Some n => if String.eqb n "" then new_key else n
            | None => new_key
            end))
  | None => encode formatter new_key
  end.

(** What [DefaultJsonEncoder.default] writes for the value [v] of the
    property [new_key] of an instance of the class [c]: what the custom
    type of a registered property makes of it, through [serialize] when
    it has one and by a call otherwise; the value itself when there is
    no custom type. *)
Definition json_wire_value (klasses : gmap string klass) (w : world)
           (c : class_ref) (new_key : string) (v : pyval) : result pyval :=
  match property_info w c !! new_key with
  | Some prop_info =>
      match sp_custom_type prop_info with
      | Some ct =>
          match simple_of ct with
          | Some s => ss_serialize s v
          | None => call_any klasses ct v
          end
      | None => Ok v
      end
  | None => Ok v
  end.

(** What [json.dumps] writes in the place of a value that is no
    container: the value of a member of an enumeration, the value itself
    otherwise. *)
Definition raw_of (x : pyval) : pyval :=
  match x with
  | VEnum _ _ value => value
  | _ => x
  end.

(** Wire names that the first loop of [from_json] keeps apart: no name
    occurs twice, no two names are filed under the same name ([decode_]
    says under which), and no name is filed under a name that comes
    after it. *)
Fixpoint independent (decode_ : string → string) (ws : list string) : Prop :=
  match ws with
  | [] => True
  | w :: r =>
      (w ∉ r) ∧ (decode_ w ∉ r) ∧ (decode_ w ∉ map decode_ r)
      ∧ independent decode_ r
  end.

(** [x != x] for a float: the not-a-number, whose [repr] is [nan]. *)
Definition is_nan (repr : string) : bool := String.eqb repr "nan".

(** A value none of whose floats is a not-a-number, so that [==] holds
    between the value and itself. *)
Fixpoint nan_free (v : pyval) : bool :=
  match v with
  | VFloat r => negb (is_nan r)
  | VEnum _ _ value => nan_free value
  | VList items | VSet items => forallb nan_free items
  | VDict entries | VObj _ entries =>
      forallb (fun kv : string * pyval => let '(_, x) := kv in nan_free x) entries
  | _ => true
  end.

(** The name under which the first loop of [from_json] files a key; a
    key that is removed has none and stands for itself. *)
Definition filed_under (formatter : Formatter) (cls : klass) (k : string)
  : string :=
  default k (resolved_name formatter cls k).

(** A value written as [x] that the class [a] of a data class mapping
    or of an array configuration turns into [v] when it is given what
    [json.loads] reads of the document [j] that [json.dumps] writes for
    [x], with the fuel [n] for writing and [m] for reading.  Either [x]
    is [None], a boolean, a number or a string, or a member of an
    enumeration with such a value, and [a] is a callable that returns [v]
    for it (the class of the enumeration returns the member), or a class
    with [serialize] and [deserialize] whose [deserialize] returns [v]
    for it.  Or [x] and [v] are the same instance of the class [a], which
    has the [from_json] of [JsonSerializableObject], and the instance is
    written and read back by it. *)
Inductive mapped_value (formatter : Formatter) (klasses : gmap string klass)
          (w : world) (n m : nat) (a : any_serializable)
  : pyval → pyval → json → Prop :=
| mapped_called (f : pyval → result pyval) (x v : pyval) :
    a = ACallable f →
    json_native (raw_of x) = true → depth (raw_of x) = O → (1 < n)%nat →
    f (raw_of x) = Ok v →
    mapped_value formatter klasses w n m a x v (native_json (raw_of x))
| mapped_deserialized (s : simple_serializable) (x v : pyval) :
    a = ASimple s →
    json_native (raw_of x) = true → depth (raw_of x) = O → (1 < n)%nat →
    ss_deserialize s (raw_of x) = Ok v →
    mapped_value formatter klasses w n m a x v (native_json (raw_of x))
| mapped_instance (k : klass) (dict : list (string * pyval)) (j : json) :
    a = AClass (k_ref k) →
    klasses !! qualified_name (k_ref k) = Some k →
    class_getattr klasses w (k_ref k) "from_json" = Some Inherited_from_json →
    json_dumps formatter klasses n w (VObj (k_ref k) dict) = Ok j →
    from_json formatter klasses m w k (json_loads j) = Ok (VObj (k_ref k) dict) →
    mapped_value formatter klasses w n m a
                 (VObj (k_ref k) dict) (VObj (k_ref k) dict) j.

(** How the property [name] of an instance of [cls], with the value [v]
    and written as [x], goes through JSON as the document [j].  It is
    plain: a boolean, a number, a string or a list of such, written as it
    is, with no data class and, if it is a list, no array configuration.
    Or the class maps it to [a], which turns what is written into [v].
    Or it is a list, written as it is, of values that the class [a] of
    the data class mapping, or else of the array configuration of the
    property, turns into themselves; the array configuration makes no
    use of [deserialize]. *)
Inductive written_and_read (formatter : Formatter) (klasses : gmap string klass)
          (w : world) (cls : klass) (n m : nat) (name : string)
  : pyval → pyval → json → Prop :=
| plain_value (v : pyval) :
    PyDict.get name (get_property_data_class_mappings cls) = None →
    PyDict.get name (get_array_property_configuration cls) = None
    ∨ depth v = O →
    json_native v = true → (depth v < n)%nat →
    written_and_read formatter klasses w cls n m name v v (native_json v)
| mapped_single (a : any_serializable) (x v : pyval) (j : json) :
    PyDict.get name (get_property_data_class_mappings cls) = Some a →
    mapped_value formatter klasses w n m a x v j →
    written_and_read formatter klasses w cls n m name x v j
| mapped_list (a : any_serializable) (items : list pyval) (js : list json)
              (n' : nat) :
    PyDict.get name (get_property_data_class_mappings cls) = Some a →
    n = S n' →
    Forall2 (λ v j, mapped_value formatter klasses w n' m a v v j) items js →
    written_and_read formatter klasses w cls n m name
                     (VList items) (VList items) (JArr js)
| array_list (array_type : XmlArraySerializationType) (child_name : string)
             (a : any_serializable) (items : list pyval) (js : list json)
             (n' : nat) :
    PyDict.get name (get_property_data_class_mappings cls) = None →
    PyDict.get name (get_array_property_configuration cls)
    = Some (array_type, child_name, a) →
    simple_of a = None →
    n = S n' →
    Forall2 (λ v j, mapped_value formatter klasses w n' m a v v j) items js →
    written_and_read formatter klasses w cls n m name
                     (VList items) (VList items) (JArr js).

(** A property [k], [v] of an instance of [cls] that goes through JSON as
    the document [j]: it is not skipped as private, [default] writes [x]
    for it (what its custom type makes of [v], or [v]), none of the
    floats of [v] is a not-a-number, the first loop of [from_json] files
    its wire name under its name, and it is written and read as above. *)
Record json_field (formatter : Formatter) (klasses : gmap string klass)
       (w : world) (cls : klass) (n m : nat)
       (k : string) (v x : pyval) (j : json) : Prop := {
  jf_not_skipped : skipped_key (PyStr.tail1 k) = false;
  jf_written : json_wire_value klasses w (k_ref cls) (PyStr.tail1 k) v = Ok x;
  jf_nan_free : nan_free v = true;
  jf_filed :
    resolved_name formatter cls
                  (json_wire_name formatter w (k_ref cls) (PyStr.tail1 k))
    = Some (PyStr.tail1 k);
  jf_kind :
    written_and_read formatter klasses w cls n m (PyStr.tail1 k) x v j
}.

(** The default namespace in the words of the specification: the
    namespace of the first declaration of the document, the empty string
    without declarations. *)
Definition first_declared_namespace (declarations : list (string * string))
  : string :=
  match declarations with
  | (_, uri) :: _ => uri
  | [] => ""
  end.

(** The URI of the last declaration with the prefix [prefix], if there
    is one. *)
Fixpoint last_bound (prefix : string) (declarations : list (string * string))
  : option string :=
  match declarations with
  | [] => None
  | (p, uri) :: rest =>
      match last_bound prefix rest with
      | Some later => Some later
      | None => if String.eqb p prefix then Some uri else None
      end
  end.

(** A dictionary that holds the key [k] at most once: deleting it leaves
    no entry for it. *)
Definition once (k : string) (d : list (string * pyval)) : Prop :=
  PyDict.get k (PyDict.del k d) = None.

(** The element [e] under another tag. *)
Definition retag (tag_ : string) (e : Element) : Element :=
  mkElement tag_ (attrib e) (text e) (children e).

(** A child element that maps to nothing of the class [cls] when the
    default namespace is [ns]: no array configuration under its name, no
    flat array with its tag as child name, no data class and no name of
    the class dictionary. *)
Definition unmapped_child (formatter : Formatter) (w : world) (cls : klass)
           (ns : string) (child : Element) : Prop :=
  let t := strip_namespace ns (tag child) in
  let name := mapped_name cls (decode formatter t) in
  PyDict.get name (get_array_property_configuration cls) = None
  ∧ matching_array_config cls t = []
  ∧ PyDict.get name (get_property_data_class_mappings cls) = None
  ∧ in_class_dict w cls name = false.

(** ** Notions used to state the further properties *)

(** Two libraries with the same override tables. *)
Definition same_overrides (l l' : ObjectMetadataLibrary) : Prop :=
  _klass_property_array_config l = _klass_property_array_config l'
  ∧ _klass_property_attributes l = _klass_property_attributes l'
  ∧ _klass_property_names l = _klass_property_names l'
  ∧ _klass_property_types l = _klass_property_types l'.

(** What the encoders read of the world: the attributes set on the
    classes, the property tables and the custom names. *)
Definition same_view (w w' : world) : Prop :=
  klass_attrs w = klass_attrs w'
  ∧ klass_property_mappings (library w) = klass_property_mappings (library w')
  ∧ _klass_property_names (library w) = _klass_property_names (library w').

(** The entries of a [__dict__] with a value other than [None] under a
    key that is not skipped as private. *)
Definition visible (kv : string * pyval) : bool :=
  match kv.2 with
  | VNone => false
  | _ => negb (skipped_key (PyStr.tail1 kv.1))
  end.

(** The entries of a [__dict__] under a key that is not skipped. *)
Definition public (kv : string * pyval) : bool :=
  negb (skipped_key (PyStr.tail1 kv.1)).

(** An annotation in the words of [typing]: what is left of it without
    [Optional], whether that is a [List] or a [Set], and the type of the
    items if it is. *)
Definition without_optional (t : pytype) : pytype :=
  match t with
  | TOptional a => a
  | _ => t
  end.

Definition is_array_type (t : pytype) : bool :=
  match t with
  | TList _ | TSet _ => true
  | _ => false
  end.

Definition item_type (t : pytype) : pytype :=
  match t with
  | TList a | TSet a => a
  | _ => t
  end.

(** The name of a class, of an enumeration or of another alias is none
    of the names the predicates of a property test for. *)
Definition own_name (t : pytype) : bool :=
  match t with
  | TClass n | TEnum n | TAlias n _ =>
      negb (str_in n ["List"; "Set"; "Optional"])
  | _ => true
  end.

(** An annotation with a [__name__]: any but a union written [t | u] and
    a string. *)
Definition named (t : pytype) : bool :=
  match t with
  | TUnionType _ | TText _ => false
  | _ => true
  end.

(** The message of the [TypeError] raised by [klass.from_json(data=j)]
    when [from_json] is the function set by [register_klass]. *)
Definition missing_cls : string :=
  "_from_json() missing 1 required positional argument: 'cls'".

(** An instance of a class of the program. *)
Definition is_instance (v : pyval) : bool :=
  match v with
  | VObj _ _ => true
  | _ => false
  end.

(** The entries of a [__dict__] that [XmlSerializableObject.as_xml] writes
    as attributes, and those it writes as sub elements. *)
Definition attribute_entry (cls : klass) (kv : string * pyval) : bool :=
  str_in (PyStr.tail1 kv.1) (properties_as_attributes cls).

Definition element_entry (cls : klass) (kv : string * pyval) : bool :=
  match kv.2 with
  | VNone => false
  | _ => negb (attribute_entry cls kv)
  end.

(** The name under which [XmlSerializableObject.as_xml] writes an entry
    that no key mapping renames. *)
Definition xml_wire_name (formatter : Formatter) (kv : string * pyval) : string :=
  encode formatter (PyStr.tail1 kv.1).

(** A value that [from_xml] reads back from its text: an integer from
    zero on, or a string of which [isdigit] does not hold. *)
Definition read_back_from_text (unicode : Unicode) (v : pyval) : Prop :=
  match v with
  | VInt z => (0 ≤ z)%Z
  | VStr s => str_isdigit unicode s = false
  | _ => False
  end.

(** A property [k], [v] of an instance of [cls] that
    [XmlSerializableObject.as_xml] writes as a text and [from_xml] reads
    back: it is not skipped as private, no key mapping and no data class
    apply to its name, the formatter decodes its wire name to its name,
    and the value is read back from its text; when it is written as a
    sub element, its name is a name of the class dictionary, there is no
    array configuration under its name or with its wire name as child
    name, and the wire name holds no brace. *)
Record xml_text_field (formatter : Formatter) (unicode : Unicode)
       (w : world) (cls : klass) (k : string) (v : pyval) : Prop := {
  xf_not_skipped : skipped_key (PyStr.tail1 k) = false;
  xf_no_key_mapping :
    PyDict.get (PyStr.tail1 k) (get_property_key_mappings cls) = None;
  xf_not_mapped :
    PyDict.key_of_value (PyStr.tail1 k) (get_property_key_mappings cls) = None;
  xf_no_data_class :
    PyDict.get (PyStr.tail1 k) (get_property_data_class_mappings cls) = None;
  xf_decoded :
    decode formatter (encode formatter (PyStr.tail1 k)) = PyStr.tail1 k;
  xf_read_back : read_back_from_text unicode v;
  xf_element :
    attribute_entry cls (k, v) = false →
    PyDict.get (PyStr.tail1 k) (get_array_property_configuration cls) = None
    ∧ matching_array_config cls (encode formatter (PyStr.tail1 k)) = []
    ∧ in_class_dict w cls (PyStr.tail1 k) = true
    ∧ PyStr.has_char "{" (encode formatter (PyStr.tail1 k)) = false
}.

(** * Sample classes and objects

    The classes, formatters and objects at which the properties below are
    evaluated. *)

Module Sample.

(** A formatter that leaves names as they are. *)
Definition plain : Formatter := mkFormatter (fun s => s) (fun s => s).

(** [str] of the other values is not looked at in the samples. *)
Definition no_str (v : pyval) : string := "".

(** No text outside ASCII is looked at in the samples. *)
Definition no_unicode : Unicode :=
  mkUnicode (fun _ => false) (fun _ => Raise (ValueError "invalid literal for int()")).

(** An element without namespace declarations. *)
Definition no_ns (e : Element) : result (list (string * string)) := Ok [].

(** A constructor [def __init__(self, *, f1=None, ..., fn=None)] that
    stores each argument under its name with a leading underscore. *)
Definition keyword_init (fields : list string) (args : list pyval)
           (kwargs : list (string * pyval)) : result (list (string * pyval)) :=
  match args with
  | _ :: _ => Raise (TypeError "__init__() takes 1 positional argument")
  | [] =>
      if forallb (fun k => str_in k fields) (PyDict.keys kwargs)
      then Ok (map (fun f => ("_" +:+ f,
                              match PyDict.get f kwargs with
                              | Some v => v
                              | None => VNone
                              end)) fields)
      else Raise (TypeError "__init__() got an unexpected keyword argument")
  end.

(** A class of the module [shop] with the given properties, bases and
    array configuration, and no other hook overridden. *)
Definition shop_class (name : string) (props : list (string * option pytype))
           (json_object xml_object : bool)
           (arrays : PyDict.t (XmlArraySerializationType * string * any_serializable))
           (attributes : list string)
  : klass :=
  Klass (ClassRef "shop" name name) props (map fst props)
        json_object xml_object [] [] [] arrays attributes
        (keyword_init (map fst props)).

Definition Tag : klass :=
  shop_class "Tag" [("name", Some TStr)] true false [] [].

(** [int] as the class of an array configuration *)
Definition int_ : any_serializable :=
  ACallable (fun x =>
               match x with
               | VInt z => Ok (VInt z)
               | VStr s => if PyStr.isdigit s then Ok (VInt (PyStr.int_of s))
                           else Raise (ValueError "invalid literal for int()")
               | _ => Raise (TypeError "int() argument")
               end).

(** A class for [@serializable_class]: a list of integers, an optional
    flag and a flag. *)
Definition Basket : klass :=
  shop_class "Basket"
             [("active", Some (TOptional TBool));
              ("flag", Some TBool);
              ("items", Some (TList TInt))]
             false false [] [].

(** Subclasses of [XmlSerializableObject] with a list of integers,
    configured as a nested array, as a flat array, and not configured. *)
Definition Crate : klass :=
  shop_class "Crate" [("flag", Some TBool); ("items", Some (TList TInt))]
             false true [("items", (NESTED, "item", int_))] [].

Definition Pallet : klass :=
  shop_class "Pallet" [("items", Some (TList TInt))]
             false true [("items", (FLAT, "item", int_))] [].

Definition Shelf : klass :=
  shop_class "Shelf" [("items", Some (TList TInt)); ("label", Some TStr)]
             false true [] ["label"].

Definition three : pyval := VList [VInt 1; VInt 2; VInt 3].

Definition item (tag_ s : string) : Element := mkElement tag_ [] (Some s) [].

(** [Basket] registered for XML after [@xml_array(array_type, "item")] on
    its property [items]. *)
Definition basket_world (array_type : XmlArraySerializationType) : world :=
  register_klass
    (mkWorld (register_xml_property_array_config
                empty_library "shop.Basket.items" array_type "item") ∅)
    Basket None [XML].

(** [Basket] registered for XML without any override. *)
Definition plain_basket_world : world :=
  register_klass empty_world Basket None [XML].

(** A subclass of [XmlSerializableObject] whose class body defines
    [title]. *)
Definition Page : klass :=
  shop_class "Page" [("title", Some TStr)] false true [] [].

Definition xhtml : string := "http://www.w3.org/1999/xhtml".

(** A document in the XHTML namespace.  [ElementTree.tostring] writes
    that namespace with the prefix [html], which the module
    [xml.etree.ElementTree] registers for it, so that is the one
    declaration [iterparse] reports. *)
Definition page : Element :=
  mkElement ("{" +:+ xhtml +:+ "}html") [] None
            [mkElement ("{" +:+ xhtml +:+ "}title") [] (Some "Hi") []].

Definition page_ns (e : Element) : result (list (string * string)) :=
  Ok [("html", xhtml)].

(** A subclass of [XmlSerializableObject] whose class body defines
    [bolt]. *)
Definition Order : klass :=
  shop_class "Order" [("bolt", Some TStr)] false true [] [].

(** A document in the namespace [urn:shop] with a child in the namespace
    [urn:parts].  [ElementTree.tostring] generates the prefixes [ns0] and
    [ns1] for them. *)
Definition order : Element :=
  mkElement "{urn:shop}order" [] None
            [mkElement "{urn:parts}bolt" [] (Some "M6") []].

Definition order_ns (e : Element) : result (list (string * string)) :=
  Ok [("ns0", "urn:shop"); ("ns1", "urn:parts")].

(** [Tag] registered after [@xml_attribute()] on its property [name]. *)
Definition tag_world : world :=
  register_klass
    (mkWorld (register_xml_property_attribute empty_library "shop.Tag.name") ∅)
    Tag None _DEFAULT_SERIALIZATION_TYPES.

(** A subclass of [JsonSerializableObject] that removes the key [junk]
    from its input. *)
Definition Loose : klass :=
  Klass (ClassRef "shop" "Loose" "Loose") [("size", Some TInt)] ["size"]
        true false ["junk"] [] [] [] []
        (keyword_init ["size"]).

(** A subclass of [JsonSerializableObject] for [@serializable_class]
    with an enumeration, a nested object, a number, a list and a set. *)
Definition Gadget : klass :=
  shop_class "Gadget"
             [("colour", Some (TEnum "Colour"));
              ("part", Some (TClass "Tag"));
              ("size", Some TInt);
              ("sizes", Some (TList TInt));
              ("tags", Some (TSet TInt))]
             true false [] [].

Definition gadget (colour part size sizes tags : pyval) : pyval :=
  VObj (k_ref Gadget)
       [("_colour", colour); ("_part", part); ("_size", size);
        ("_sizes", sizes); ("_tags", tags)].

(** The enumeration [Colour] as a class: called with a value it returns
    the member with that value. *)
Definition Colour : any_serializable :=
  ACallable (fun x =>
               match x with
               | VInt 1 => Ok (VEnum "Colour" "RED" (VInt 1))
               | VInt 2 => Ok (VEnum "Colour" "BLUE" (VInt 2))
               | _ => Raise (ValueError "is not a valid Colour")
               end).

(** A class with [serialize] and [deserialize] that writes a boolean as
    [sealed] or [open]. *)
Definition Seal : simple_serializable :=
  SimpleSerializable
    (ClassRef "shop" "Seal" "Seal")
    (fun o => match o with
              | VBool true => Ok (VStr "sealed")
              | VBool false => Ok (VStr "open")
              | _ => Raise (ValueError "not a seal")
              end)
    (fun o => match o with
              | VStr s => if String.eqb s "sealed" then Ok (VBool true)
                          else if String.eqb s "open" then Ok (VBool false)
                          else Raise (ValueError "not a seal")
              | _ => Raise (ValueError "not a seal")
              end).

(** A subclass of [JsonSerializableObject] that maps its property
    [colour] to [Colour], its property [part] to the class [Tag] and its
    property [sealed] to [Seal], and has the array [codes] of [int]. *)
Definition Parcel : klass :=
  Klass (ClassRef "shop" "Parcel" "Parcel")
        [("codes", Some (TList TInt)); ("colour", Some (TEnum "Colour"));
         ("part", Some (TClass "Tag")); ("sealed", Some TBool);
         ("size", Some TInt); ("sizes", Some (TList TInt))]
        ["codes"; "colour"; "part"; "sealed"; "size"; "sizes"]
        true false [] []
        [("colour", Colour); ("part", AClass (k_ref Tag)); ("sealed", ASimple Seal)]
        [("codes", (FLAT, "code", int_))] []
        (keyword_init ["codes"; "colour"; "part"; "sealed"; "size"; "sizes"]).

Definition parcel (codes colour part sealed size sizes : pyval) : pyval :=
  VObj (k_ref Parcel)
       [("_codes", codes); ("_colour", colour); ("_part", part);
        ("_sealed", sealed); ("_size", size); ("_sizes", sizes)].

(** [Tag] registered for XML and [Parcel] for JSON, after
    [@type_mapping(Seal)] on its property [sealed]. *)
Definition parcel_world : world :=
  register_klass
    (register_klass
       (mkWorld (register_property_type_mapping empty_library "shop.Parcel.sealed"
                                                (ASimple Seal)) ∅)
       Tag None [XML])
    Parcel None [JSON].

(** [Tag] and [Gadget] registered with the default serialization types. *)
Definition gadget_world : world :=
  register_klass
    (register_klass empty_world Tag None _DEFAULT_SERIALIZATION_TYPES)
    Gadget None _DEFAULT_SERIALIZATION_TYPES.

(** A formatter whose [decode] puts names in lower case. *)
Definition lowering : Formatter := mkFormatter (fun s => s) PyStr.lower.

(** A subclass of [XmlSerializableObject] with the attribute
    [serial__no], a property whose name holds a double underscore. *)
Definition Vault : klass :=
  shop_class "Vault" [("serial__no", Some TStr)] false true [] ["serial__no"].

(** A subclass of [XmlSerializableObject] with the attributes [code] and
    [id], of which [code] is written under the name [id]. *)
Definition Label : klass :=
  Klass (ClassRef "shop" "Label" "Label")
        [("code", Some TStr); ("id", Some TInt)] ["code"; "id"]
        false true [] [("code", "id")] [] [] ["code"; "id"]
        (keyword_init ["code"; "id"]).

Definition klasses : gmap string klass :=
  list_to_map
    (map (fun k => (qualified_name (k_ref k), k))
         [Tag; Basket; Crate; Pallet; Shelf; Page; Order; Loose; Gadget;
          Vault; Label; Parcel]).

End Sample.

(** * More sample classes

    The classes at which the further properties are evaluated. *)

Module Stock.

(** A class for [@serializable_class] whose getter [note] has no return
    annotation. *)
Definition Memo : klass :=
  Sample.shop_class "Memo" [("note", None)] false false [] [].

Definition memo_world : world := register_klass empty_world Memo None [XML].

(** A subclass of [JsonSerializableObject] whose property [part] is
    mapped to the class [Tag]. *)
Definition Kit : klass :=
  Klass (ClassRef "shop" "Kit" "Kit") [("part", Some (TClass "Tag"))] ["part"]
        true false [] [] [("part", AClass (k_ref Sample.Tag))] [] []
        (Sample.keyword_init ["part"]).

(** A subclass of [XmlSerializableObject] with an attribute and two
    sub elements. *)
Definition Book : klass :=
  Sample.shop_class "Book"
                    [("isbn", Some TStr); ("pages", Some TInt); ("title", Some TStr)]
                    false true [] ["isbn"].

Definition book : pyval :=
  VObj (k_ref Book)
       [("_isbn", VStr "x1"); ("_pages", VInt 96); ("_title", VStr "Hi")].

(** A class with [serialize] and [deserialize] that writes a boolean as
    [yes] or [no]. *)
Definition Flag : simple_serializable :=
  SimpleSerializable
    (ClassRef "shop" "Flag" "Flag")
    (fun o => match o with
              | VBool true => Ok (VStr "yes")
              | VBool false => Ok (VStr "no")
              | _ => Raise (ValueError "not a flag")
              end)
    (fun o => match o with
              | VStr s => if String.eqb s "yes" then Ok (VBool true)
                          else if String.eqb s "no" then Ok (VBool false)
                          else Raise (ValueError "not a flag")
              | _ => Raise (ValueError "not a flag")
              end).

(** A subclass of [XmlSerializableObject] whose property [on] is mapped
    to [Flag]. *)
Definition Switch : klass :=
  Klass (ClassRef "shop" "Switch" "Switch") [("on", Some TBool)] ["on"]
        false true [] [] [("on", ASimple Flag)] [] []
        (Sample.keyword_init ["on"]).

(** A subclass of [XmlSerializableObject] whose property [page] is mapped
    to the class [Page]. *)
Definition Folder : klass :=
  Klass (ClassRef "shop" "Folder" "Folder") [("page", Some (TClass "Page"))] ["page"]
        false true [] [] [("page", AClass (k_ref Sample.Page))] [] []
        (Sample.keyword_init ["page"]).

(** The getter of the property [name] of [Tag]. *)
Definition name_getter : function := Function "shop" "Tag.name".

Definition klasses : gmap string klass :=
  list_to_map
    (map (fun k => (qualified_name (k_ref k), k))
         [Sample.Tag; Sample.Basket; Sample.Crate; Sample.Pallet; Sample.Shelf;
          Sample.Page; Sample.Gadget; Memo; Kit; Book; Switch; Folder]).

End Stock.

(** * Properties *)

(** ** Registration *)

Section Registration.

Lemma attr_lookup_setattr attrs q name f q' name' :
  attr_lookup (setattr q name f attrs) q' name' =
  if decide (q = q' ∧ name = name') then Some f else attr_lookup attrs q' name'.
Proof.
  unfold attr_lookup, setattr.
  destruct (decide (q = q')) as [->|Hq].
  - rewrite lookup_insert_eq. simpl.
    destruct (decide (name = name')) as [->|Hn].
    + rewrite lookup_insert_eq. rewrite decide_True; auto.
    + rewrite lookup_insert_ne by done. rewrite decide_False by tauto.
      destruct (attrs !! q'); simpl; [done | apply lookup_empty].
  - rewrite lookup_insert_ne by done. rewrite decide_False by tauto. done.
Qed.

(** A class object never passes the test at the head of
    [register_klass]. *)
Lemma is_klass_serializable_object l k :
  is_klass_serializable l (KlassObject k) = false.
Proof. reflexivity. Qed.

(** The attributes of the classes after [register_klass]. *)
Lemma register_klass_attrs w k a types q name :
  attr_lookup (klass_attrs (register_klass w k a types)) q name =
  if decide (q = qualified_name (k_ref k)) then
    if decide (name = "as_xml") then
      if serialization_type_in XML types then Some Fn_as_xml
      else attr_lookup (klass_attrs w) q name
    else if decide (name = "from_json") then
      if serialization_type_in JSON types then Some Fn_from_json
      else attr_lookup (klass_attrs w) q name
    else if decide (name = "as_json") then
      if serialization_type_in JSON types then Some Fn_as_json
      else attr_lookup (klass_attrs w) q name
    else attr_lookup (klass_attrs w) q name
  else attr_lookup (klass_attrs w) q name.
Proof.
  unfold register_klass. rewrite is_klass_serializable_object. cbn [klass_attrs].
  destruct (serialization_type_in XML types), (serialization_type_in JSON types);
    rewrite ?attr_lookup_setattr;
    repeat (destruct (decide _) as [?|?]); simplify_eq; try done;
    exfalso; naive_solver.
Qed.

(** C10.  Registering a class with XML among the serialization types
    sets [as_xml] on it and leaves [from_xml] as it was: no decode method
    is set for XML.  Registering with JSON sets both [as_json] and
    [from_json].  Without the serialization type the attributes stay as
    they were. *)
Theorem register_klass_sets_as_xml_but_no_from_xml
        (klasses : gmap string klass) (w : world) (k : klass)
        (a : option string) (types : list SerializationType) :
  let c := k_ref k in
  let w' := register_klass w k a types in
  class_getattr klasses w' c "as_xml" =
    (if serialization_type_in XML types then Some Fn_as_xml
     else class_getattr klasses w c "as_xml")
  ∧ attr_lookup (klass_attrs w') (qualified_name c) "from_xml" =
      attr_lookup (klass_attrs w) (qualified_name c) "from_xml"
  ∧ class_getattr klasses w' c "from_xml" = class_getattr klasses w c "from_xml"
  ∧ class_getattr klasses w' c "as_json" =
      (if serialization_type_in JSON types then Some Fn_as_json
       else class_getattr klasses w c "as_json")
  ∧ class_getattr klasses w' c "from_json" =
      (if serialization_type_in JSON types then Some Fn_from_json
       else class_getattr klasses w c "from_json").
Proof.
  intros c w'. unfold class_getattr. subst w'.
  rewrite !register_klass_attrs. subst c.
  rewrite !decide_True by done.
  repeat split;
    repeat (destruct (decide _) as [?|?]); try discriminate; try done;
    destruct (serialization_type_in _ types); done.
Qed.

(** C3.  Registering the class [Tag] a second time is not a no-op.  The
    test at the head of [register_klass] fails for the class object
    although the class is in [klass_mappings] under its qualified name;
    the second call replaces the [SerializableClass] entry, rebuilds the
    property metadata from the overrides recorded in between, and sets
    methods again. *)
Theorem register_klass_twice_rebuilds :
  let w1 := register_klass empty_world Sample.Tag None [JSON] in
  let w1' := mkWorld (register_xml_property_attribute (library w1) "shop.Tag.name")
                     (klass_attrs w1) in
  let w2 := register_klass w1' Sample.Tag None [XML] in
  let prop (w : world) :=
    klass_property_mappings (library w) !! "shop.Tag" ≫= (fun ps => ps !! "name") in
  is_klass_serializable (library w1') (KlassName "shop.Tag") = true
  ∧ is_klass_serializable (library w1') (KlassObject Sample.Tag) = false
  ∧ klass_mappings (library w1') !! "shop.Tag"
    = Some (mkSerializableClass "Tag" None [JSON])
  ∧ klass_mappings (library w2) !! "shop.Tag"
    = Some (mkSerializableClass "Tag" None [XML])
  ∧ sp_is_xml_attribute <$> prop w1' = Some false
  ∧ sp_is_xml_attribute <$> prop w2 = Some true
  ∧ attr_lookup (klass_attrs w1') "shop.Tag" "as_xml" = None
  ∧ attr_lookup (klass_attrs w2) "shop.Tag" "as_xml" = Some Fn_as_xml.
Proof. vm_compute. repeat split; reflexivity. Qed.

End Registration.

(** ** Dictionaries and loops *)

Section DictFacts.
Context {V : Type}.
Implicit Types (d : PyDict.t V) (k : string) (v : V).

Lemma get_set_eq k v d : PyDict.get k (PyDict.set k v d) = Some v.
Proof.
  induction d as [|[k' v'] d IH]; simpl.
  - by rewrite String.eqb_refl.
  - destruct (String.eqb k' k) eqn:E; simpl; rewrite E; auto.
Qed.

Lemma get_set_ne k k' v d :
  k ≠ k' → PyDict.get k (PyDict.set k' v d) = PyDict.get k d.
Proof.
  intros Hne. induction d as [|[k0 v0] d IH]; simpl.
  - destruct (String.eqb_spec k' k); congruence.
  - destruct (String.eqb_spec k0 k') as [->|]; simpl.
    + destruct (String.eqb_spec k' k); congruence.
    + destruct (String.eqb_spec k0 k); auto.
Qed.

Lemma get_del_ne k k' d :
  k ≠ k' → PyDict.get k (PyDict.del k' d) = PyDict.get k d.
Proof.
  intros Hne. induction d as [|[k0 v0] d IH]; simpl; [done|].
  destruct (String.eqb_spec k0 k') as [->|]; simpl.
  - destruct (String.eqb_spec k' k); congruence.
  - destruct (String.eqb_spec k0 k); auto.
Qed.

Lemma get_None_not_key k d :
  PyDict.get k d = None ↔ k ∉ PyDict.keys d.
Proof.
  induction d as [|[k0 v0] d IH]; simpl.
  - split; [intros _; apply not_elem_of_nil | done].
  - rewrite not_elem_of_cons. destruct (String.eqb_spec k0 k) as [->|].
    + split; [done | tauto].
    + rewrite IH. split; [intros; split; congruence | tauto].
Qed.

(** Assigning to an absent key appends it. *)
Lemma set_fresh k v d :
  k ∉ PyDict.keys d → PyDict.set k v d = (d ++ [(k, v)])%list.
Proof.
  induction d as [|[k0 v0] d IH]; simpl; [done|].
  rewrite not_elem_of_cons. intros [Hne Hd].
  destruct (String.eqb_spec k0 k); [congruence|]. by rewrite IH.
Qed.

(** Deleting an absent key changes nothing. *)
Lemma del_absent k d : k ∉ PyDict.keys d → PyDict.del k d = d.
Proof.
  induction d as [|[k0 v0] d IH]; simpl; [done|].
  rewrite not_elem_of_cons. intros [Hne Hd].
  destruct (String.eqb_spec k0 k); [congruence|]. by rewrite IH.
Qed.

Lemma keys_app d1 d2 :
  PyDict.keys (d1 ++ d2)%list = (PyDict.keys d1 ++ PyDict.keys d2)%list.
Proof. apply map_app. Qed.

(** Assigning the value a key has changes nothing. *)
Lemma set_same k v d : PyDict.get k d = Some v → PyDict.set k v d = d.
Proof.
  induction d as [|[k0 v0] d IH]; [done|]. cbn.
  destruct (String.eqb_spec k0 k) as [->|]; [by intros [= ->]|].
  intros Hd. by rewrite IH.
Qed.

(** The second of two assignments to a key is the one that stays. *)
Lemma set_set k v v' d : PyDict.set k v' (PyDict.set k v d) = PyDict.set k v' d.
Proof.
  induction d as [|[k0 v0] d IH]; cbn.
  - by rewrite String.eqb_refl.
  - destruct (String.eqb k0 k) eqn:E; cbn; rewrite E; [done|]. by rewrite IH.
Qed.

(** Assigning to a key and deleting it deletes it. *)
Lemma del_set_eq k v d : PyDict.del k (PyDict.set k v d) = PyDict.del k d.
Proof.
  induction d as [|[k0 v0] d IH]; simpl.
  - by rewrite String.eqb_refl.
  - destruct (String.eqb k0 k) eqn:E; simpl; rewrite E; [done|]. by rewrite IH.
Qed.

Lemma del_set_ne k k' v d :
  k ≠ k' → PyDict.del k (PyDict.set k' v d) = PyDict.set k' v (PyDict.del k d).
Proof.
  intros Hne. induction d as [|[k0 v0] d IH]; simpl.
  - destruct (String.eqb_spec k' k); congruence.
  - destruct (String.eqb_spec k0 k') as [->|]; simpl.
    + destruct (String.eqb_spec k' k); [congruence|]. simpl.
      by rewrite String.eqb_refl.
    + destruct (String.eqb_spec k0 k) as [->|]; simpl.
      * done.
      * destruct (String.eqb_spec k0 k'); [congruence|]. by rewrite IH.
Qed.

Lemma del_del k k' d :
  k ≠ k' → PyDict.del k (PyDict.del k' d) = PyDict.del k' (PyDict.del k d).
Proof.
  intros Hne. induction d as [|[k0 v0] d IH]; simpl; [done|].
  destruct (String.eqb_spec k0 k') as [->|]; simpl.
  - destruct (String.eqb_spec k' k); [congruence|]. simpl.
    by rewrite String.eqb_refl.
  - destruct (String.eqb_spec k0 k) as [->|]; simpl.
    + done.
    + destruct (String.eqb_spec k0 k'); [congruence|]. by rewrite IH.
Qed.

End DictFacts.

Section LoopFacts.
Context {A S : Type}.

Lemma for_each_app (step : S → A → result S) (xs ys : list A) (acc : S) :
  for_each step (xs ++ ys)%list acc =
  (acc' ← for_each step xs acc; for_each step ys acc').
Proof.
  revert acc. induction xs as [|x xs IH]; intros acc; simpl; [done|].
  destruct (step acc x); simpl; auto.
Qed.

(** A loop over a list with a failing turn fails, whatever the turns
    before it do. *)
Lemma for_each_raises (step : S → A → result S) (xs ys : list A) (x : A)
      (acc : S) :
  (∀ s, raises (step s x)) →
  raises (for_each step (xs ++ x :: ys)%list acc).
Proof.
  intros Hx. rewrite for_each_app.
  destruct (for_each step xs acc) as [s|e]; simpl.
  - destruct (Hx s) as [e He]. rewrite He. by exists e.
  - by exists e.
Qed.

(** An invariant of the turns is an invariant of the loop. *)
Lemma for_each_invariant (P : S → Prop) (step : S → A → result S)
      (xs : list A) (acc acc' : S) :
  (∀ s x s', x ∈ xs → P s → step s x = Ok s' → P s') →
  P acc → for_each step xs acc = Ok acc' → P acc'.
Proof.
  revert acc. induction xs as [|x xs IH]; intros acc Hstep HP; simpl.
  - by intros [= <-].
  - destruct (step acc x) as [s|e] eqn:E; simpl; [|done].
    apply IH.
    + intros s0 x0 s0' Hin. apply Hstep. by right.
    + eapply Hstep; [by left| |]; eauto.
Qed.

(** The same for a loop that cannot fail. *)
Lemma fold_left_invariant (P : S → Prop) (step : S → A → S)
      (xs : list A) (acc : S) :
  (∀ s x, x ∈ xs → P s → P (step s x)) →
  P acc → P (fold_left step xs acc).
Proof.
  revert acc. induction xs as [|x xs IH]; intros acc Hstep HP; simpl; [done|].
  apply IH.
  - intros s0 x0 Hin. apply Hstep. by right.
  - apply Hstep; [by left | done].
Qed.

End LoopFacts.

Lemma map_each_ok {A B} (f : A → result B) (g : A → B) (xs : list A) :
  (∀ x, x ∈ xs → f x = Ok (g x)) → map_each f xs = Ok (map g xs).
Proof.
  induction xs as [|x xs IH]; intros Hf; simpl; [done|].
  rewrite (Hf x) by by left. simpl.
  rewrite IH; [done|]. intros y Hy. apply Hf. by right.
Qed.

(** ** XML encoding *)

Section XmlEncoding.
Variable formatter : Formatter.
Variable klasses : gmap string klass.
Variable str_other : pyval → string.

(** What an attribute loop leaves under the name written for a key,
    when no later key is written under the same name. *)
Lemma attribute_loop_written
      (step : list (string * string) → string * pyval → list (string * string))
      (name_of : string → option string) :
  (∀ acc k v,
      step acc (k, v) =
      match name_of k with
      | Some n => PyDict.set n (py_str str_other v) acc
      | None => acc
      end) →
  ∀ pre k v post n,
    name_of k = Some n →
    (∀ k' v', (k', v') ∈ post → name_of k' ≠ Some n) →
    PyDict.get n (fold_left step (pre ++ (k, v) :: post)%list [])
    = Some (py_str str_other v).
Proof.
  intros Hstep pre k v post n Hk Hpost.
  rewrite fold_left_app. simpl. rewrite Hstep, Hk.
  apply (fold_left_invariant
           (λ acc, PyDict.get n acc = Some (py_str str_other v))).
  - intros acc [k' v'] Hin Hacc. rewrite Hstep.
    destruct (name_of k') as [n'|] eqn:E; [|done].
    rewrite get_set_ne; [done|]. intros ->. by eapply Hpost.
  - apply get_set_eq.
Qed.

(** The items of an array property of a primitive item type are written
    under the child name of the array configuration. *)
Lemma _as_xml_array_items_primitive call prop_info nested_key t items :
  SerializableProperty_.concrete_type prop_info = Ok t →
  t ∈ SerializableProperty_._PRIMITIVE_TYPES →
  map_each (_as_xml_array_item str_other call prop_info nested_key) items
  = Ok (map (λ j, text_element nested_key (primitive_text str_other t j)) items).
Proof.
  intros Ht Hprim. apply map_each_ok. intros j _.
  unfold _as_xml_array_item, SerializableProperty_.is_primitive_type, primitive_text.
  rewrite Ht. cbn [mbind result_bind]. rewrite bool_decide_true by done.
  cbn [negb]. repeat case_bool_decide; try done.
  subst t. exfalso. set_solver.
Qed.

(** What the second loop of [_as_xml] adds for a list of primitive items
    with an array configuration: one wrapper named by the wire name with
    one child per item when [NESTED], one sibling per item when [FLAT],
    the children and the siblings tagged with the configured child name. *)
Lemma _as_xml_element_array call w info st k items prop_info array_type nested_key t :
  let new_key := encode formatter (xml_name_of w prop_info (PyStr.tail1 k)) in
  let es := map (λ j, text_element nested_key (primitive_text str_other t j)) items in
  skipped_key (PyStr.tail1 k) = false →
  info !! PyStr.tail1 k = Some prop_info →
  sp_is_xml_attribute prop_info = false →
  xml_name_of w prop_info (PyStr.tail1 k) ≠ "." →
  sp_custom_type prop_info = None →
  SerializableProperty_.is_array prop_info = Ok true →
  sp_xml_array_config prop_info = Some (array_type, nested_key) →
  SerializableProperty_.concrete_type prop_info = Ok t →
  t ∈ SerializableProperty_._PRIMITIVE_TYPES →
  _as_xml_element formatter str_other call w info st (k, VList items)
  = Ok (match array_type with
        | NESTED => append_child st (mkElement new_key [] None es)
        | FLAT => (st.1, (st.2 ++ es)%list)
        end).
Proof.
  intros new_key es Hskip Hinfo Hattr Hdot Hct Harr Hcfg Ht Hprim.
  unfold _as_xml_element. rewrite Hskip, Hinfo, Hattr.
  apply String.eqb_neq in Hdot. rewrite Hdot, Hct, Harr.
  cbn [mbind result_bind]. rewrite Hcfg. cbn [iterate mbind result_bind].
  rewrite (_as_xml_array_items_primitive call prop_info nested_key t items Ht Hprim).
  cbn [mbind result_bind]. by destruct array_type.
Qed.

(** Without an array configuration the same turn raises. *)
Lemma _as_xml_element_array_without_config call w info st k v prop_info :
  v ≠ VNone →
  skipped_key (PyStr.tail1 k) = false →
  info !! PyStr.tail1 k = Some prop_info →
  sp_is_xml_attribute prop_info = false →
  xml_name_of w prop_info (PyStr.tail1 k) ≠ "." →
  sp_custom_type prop_info = None →
  SerializableProperty_.is_array prop_info = Ok true →
  sp_xml_array_config prop_info = None →
  _as_xml_element formatter str_other call w info st (k, v)
  = Raise (TypeError "cannot unpack non-iterable NoneType object").
Proof.
  intros Hv Hskip Hinfo Hattr Hdot Hct Harr Hcfg.
  unfold _as_xml_element. rewrite Hskip, Hinfo, Hattr.
  apply String.eqb_neq in Hdot. rewrite Hdot, Hct, Harr.
  cbn [mbind result_bind]. rewrite Hcfg. by destruct v.
Qed.

(** What the predicates of a property say about a primitive annotation
    and about an optional one. *)
Lemma primitive_annotation prop_info t :
  sp_type_ prop_info = Some t →
  t ∈ SerializableProperty_._PRIMITIVE_TYPES →
  SerializableProperty_.is_array prop_info = Ok false
  ∧ SerializableProperty_.is_enum prop_info = Ok false
  ∧ SerializableProperty_.is_primitive_type prop_info = Ok true.
Proof.
  intros Ht Hprim.
  unfold SerializableProperty_.is_array, SerializableProperty_.is_enum,
    SerializableProperty_.is_primitive_type, SerializableProperty_.concrete_type,
    SerializableProperty_.is_optional, SerializableProperty_.type__name,
    SerializableProperty_.type__args.
  rewrite Ht.
  repeat (apply elem_of_cons in Hprim as [->|Hprim]; [by vm_compute|]).
  by apply elem_of_nil in Hprim.
Qed.

Lemma optional_primitive_annotation prop_info t :
  sp_type_ prop_info = Some (TOptional t) →
  t ∈ SerializableProperty_._PRIMITIVE_TYPES →
  SerializableProperty_.is_array prop_info = Ok false
  ∧ SerializableProperty_.is_enum prop_info = Ok false
  ∧ SerializableProperty_.is_primitive_type prop_info = Ok true.
Proof.
  intros Ht Hprim.
  unfold SerializableProperty_.is_array, SerializableProperty_.is_enum,
    SerializableProperty_.is_primitive_type, SerializableProperty_.concrete_type,
    SerializableProperty_.is_optional, SerializableProperty_.type__name,
    SerializableProperty_.type__args.
  rewrite Ht.
  repeat (apply elem_of_cons in Hprim as [->|Hprim]; [by vm_compute|]).
  by apply elem_of_nil in Hprim.
Qed.

(** The sub element [_as_xml] writes for a property annotated with a
    primitive type: the text is [str(v)], in lower case when the
    annotation is [bool]. *)
Lemma _as_xml_element_primitive call w info st k v prop_info t :
  let new_key := encode formatter (xml_name_of w prop_info (PyStr.tail1 k)) in
  v ≠ VNone →
  skipped_key (PyStr.tail1 k) = false →
  info !! PyStr.tail1 k = Some prop_info →
  sp_is_xml_attribute prop_info = false →
  xml_name_of w prop_info (PyStr.tail1 k) ≠ "." →
  sp_custom_type prop_info = None →
  sp_type_ prop_info = Some t →
  t ∈ SerializableProperty_._PRIMITIVE_TYPES →
  _as_xml_element formatter str_other call w info st (k, v)
  = Ok (append_child st (text_element new_key (primitive_text str_other t v))).
Proof.
  intros new_key Hv Hskip Hinfo Hattr Hdot Hct Ht Hprim.
  destruct (primitive_annotation prop_info t Ht Hprim) as (Harr & Hen & Hpr).
  unfold _as_xml_element. rewrite Hskip, Hinfo, Hattr.
  apply String.eqb_neq in Hdot. rewrite Hdot, Hct, Harr.
  cbn [mbind result_bind]. rewrite Hen. cbn [mbind result_bind].
  rewrite Hpr. cbn [mbind result_bind negb]. rewrite Ht.
  unfold primitive_text.
  repeat (apply elem_of_cons in Hprim as [->|Hprim]; [by destruct v|]).
  by apply elem_of_nil in Hprim.
Qed.

(** For a property annotated [Optional[t]] with a primitive [t] the text is
    [str(v)] as it is, also when [t] is [bool]. *)
Lemma _as_xml_element_optional_primitive call w info st k v prop_info t :
  let new_key := encode formatter (xml_name_of w prop_info (PyStr.tail1 k)) in
  v ≠ VNone →
  skipped_key (PyStr.tail1 k) = false →
  info !! PyStr.tail1 k = Some prop_info →
  sp_is_xml_attribute prop_info = false →
  xml_name_of w prop_info (PyStr.tail1 k) ≠ "." →
  sp_custom_type prop_info = None →
  sp_type_ prop_info = Some (TOptional t) →
  t ∈ SerializableProperty_._PRIMITIVE_TYPES →
  _as_xml_element formatter str_other call w info st (k, v)
  = Ok (append_child st (text_element new_key (py_str str_other v))).
Proof.
  intros new_key Hv Hskip Hinfo Hattr Hdot Hct Ht Hprim.
  destruct (optional_primitive_annotation prop_info t Ht Hprim) as (Harr & Hen & Hpr).
  unfold _as_xml_element. rewrite Hskip, Hinfo, Hattr.
  apply String.eqb_neq in Hdot. rewrite Hdot, Hct, Harr.
  cbn [mbind result_bind]. rewrite Hen. cbn [mbind result_bind].
  rewrite Hpr. cbn [mbind result_bind negb]. rewrite Ht.
  by destruct v.
Qed.

(** C9, as amended.  A property flagged as an XML attribute whose value
    is [None] and whose name is not private is written as an attribute
    with the text [None], by [_as_xml] (flag of the registry) and by
    [XmlSerializableObject.as_xml] (flag of [properties_as_attributes])
    alike, as long as no later key of [__dict__] is written under the
    same attribute name: the attribute is in the attributes the first
    loop builds; these are the attributes of the element returned, and
    an element is returned whenever the second loop ends without error;
    and in the second loop, to which the test [if v is None: continue]
    belongs, the key adds nothing and raises nothing. *)
Theorem xml_attribute_of_None_is_written (fuel : nat) (w : world) :
  (∀ c pre k post prop_info element_name,
      let dict := (pre ++ (k, VNone) :: post)%list in
      let info := property_info w c in
      let n := encode formatter (xml_name_of w prop_info (PyStr.tail1 k)) in
      let attributes := _as_xml_attributes formatter str_other w c dict in
      skipped_key (PyStr.tail1 k) = false →
      info !! PyStr.tail1 k = Some prop_info →
      sp_is_xml_attribute prop_info = true →
      (∀ k' v', (k', v') ∈ post →
                _as_xml_attribute_name formatter w info k' ≠ Some n) →
      PyDict.get n attributes = Some "None"
      ∧ (∀ st,
            for_each (_as_xml_element formatter str_other
                        (call_as_xml formatter klasses str_other fuel w) w info)
                     dict (None, []) = Ok st →
            _as_xml formatter klasses str_other fuel w (VObj c dict) element_name
            = Ok (mkElement (root_tag formatter c element_name) attributes
                            st.1 st.2))
      ∧ (∀ call st,
            _as_xml_element formatter str_other call w info st (k, VNone) = Ok st))
  ∧
  (∀ cls pre k post element_name,
      let dict := (pre ++ (k, VNone) :: post)%list in
      let n := encode formatter
                 (match PyDict.get (PyStr.tail1 k) (get_property_key_mappings cls) with
                  | Some m => m
                  | None => PyStr.tail1 k
                  end) in
      let attributes := as_xml_attributes formatter str_other cls dict in
      klasses !! qualified_name (k_ref cls) = Some cls →
      skipped_key (PyStr.tail1 k) = false →
      str_in (PyStr.tail1 k) (properties_as_attributes cls) = true →
      (∀ k' v', (k', v') ∈ post → as_xml_attribute_name formatter cls k' ≠ Some n) →
      PyDict.get n attributes = Some "None"
      ∧ (∀ st,
            for_each (as_xml_element formatter klasses str_other
                        (call_as_xml formatter klasses str_other fuel w) w cls)
                     dict (None, []) = Ok st →
            as_xml formatter klasses str_other fuel w (VObj (k_ref cls) dict)
                   element_name
            = Ok (mkElement (root_tag formatter (k_ref cls) element_name) attributes
                            st.1 st.2))
      ∧ (∀ call st,
            as_xml_element formatter klasses str_other call w cls st (k, VNone) = Ok st)).
Proof.
  split.
  - intros c pre k post prop_info element_name dict info n attributes
           Hskip Hinfo Hattr Hpost.
    assert (Hn : _as_xml_attribute_name formatter w info k = Some n).
    { unfold _as_xml_attribute_name. by rewrite Hskip, Hinfo, Hattr. }
    split; [|split; [|done]].
    + unfold attributes, _as_xml_attributes, dict.
      apply (attribute_loop_written _ (_as_xml_attribute_name formatter w info)
               (λ _ _ _, eq_refl) pre k VNone post n Hn Hpost).
    + intros st Hst. unfold _as_xml, _as_xml_body. fold info. by rewrite Hst.
  - intros cls pre k post element_name dict n attributes Hcls Hskip Hattr Hpost.
    assert (Hn : as_xml_attribute_name formatter cls k = Some n).
    { unfold as_xml_attribute_name. by rewrite Hskip, Hattr. }
    split; [|split; [|done]].
    + unfold attributes, as_xml_attributes, dict.
      apply (attribute_loop_written _ (as_xml_attribute_name formatter cls)
               (λ _ _ _, eq_refl) pre k VNone post n Hn Hpost).
    + intros st Hst. unfold as_xml, as_xml_body. rewrite Hcls. by rewrite Hst.
Qed.

End XmlEncoding.

(** C9 at the class [Tag], whose property [name] is an attribute, and at
    the class [Shelf], which lists [label] in [properties_as_attributes]. *)
Lemma xml_attribute_of_None_is_written_witness :
  _as_xml Sample.plain Sample.klasses Sample.no_str 1 Sample.tag_world
          (VObj (k_ref Sample.Tag) [("_name", VNone)]) None
  = Ok (mkElement "Tag" [("name", "None")] None [])
  ∧ as_xml Sample.plain Sample.klasses Sample.no_str 1 empty_world
           (VObj (k_ref Sample.Shelf) [("_label", VNone)]) None
    = Ok (mkElement "Shelf" [("label", "None")] None []).
Proof.
  split.
  - destruct (xml_attribute_of_None_is_written
                Sample.plain Sample.klasses Sample.no_str 1 Sample.tag_world)
      as [Hreg _].
    refine (proj1 (proj2 (Hreg (k_ref Sample.Tag) [] "_name" []
                               (mkSerializableProperty "name" FreshNames (Some TStr)
                                                       None true None)
                               None _ _ _ _)) (None, []) _).
    + vm_compute; reflexivity.
    + vm_compute; reflexivity.
    + reflexivity.
    + intros k' v' Hin. inversion Hin.
    + vm_compute; reflexivity.
  - destruct (xml_attribute_of_None_is_written
                Sample.plain Sample.klasses Sample.no_str 1 empty_world)
      as [_ Hold].
    refine (proj1 (proj2 (Hold Sample.Shelf [] "_label" [] None _ _ _ _))
                  (None, []) _).
    + vm_compute; reflexivity.
    + vm_compute; reflexivity.
    + vm_compute; reflexivity.
    + intros k' v' Hin. inversion Hin.
    + vm_compute; reflexivity.
Defined.

(** C9 as stated fails.  The name of the attribute [serial__no] of [Vault]
    holds a double underscore: the key is skipped as private, and with
    the value [None] the attribute is not written at all.  The attribute
    [code] of [Label] is written under the name [id], as the attribute [id]
    is after it: with the value [None] its text is replaced by the text
    of [id]. *)
Lemma xml_attribute_of_None_need_not_be_written :
  str_in "serial__no" (properties_as_attributes Sample.Vault) = true
  ∧ as_xml Sample.plain Sample.klasses Sample.no_str 1 empty_world
           (VObj (k_ref Sample.Vault) [("_serial__no", VNone)]) None
    = Ok (mkElement "Vault" [] None [])
  ∧ str_in "code" (properties_as_attributes Sample.Label) = true
  ∧ as_xml Sample.plain Sample.klasses Sample.no_str 1 empty_world
           (VObj (k_ref Sample.Label) [("_code", VNone); ("_id", VInt 5)]) None
    = Ok (mkElement "Label" [("id", "5")] None []).
Proof. vm_compute. repeat split; reflexivity. Qed.

(** C4.  [XmlSerializableObject.as_xml] on a list of three integers
    configured [NESTED] with the child name [item] writes one wrapper
    [items] whose three children are tagged [items], the name of the
    wrapper, not [item]; configured [FLAT] it writes three [item]
    siblings.  [_as_xml] on the same data writes [item] children in both
    configurations. *)
Theorem as_xml_nested_children_take_the_wrapper_name :
  as_xml Sample.plain Sample.klasses Sample.no_str 1 empty_world
         (VObj (k_ref Sample.Crate) [("_items", Sample.three)]) None
  = Ok (mkElement "Crate" [] None
          [mkElement "items" [] None
             [Sample.item "items" "1"; Sample.item "items" "2";
              Sample.item "items" "3"]])
  ∧ as_xml Sample.plain Sample.klasses Sample.no_str 1 empty_world
           (VObj (k_ref Sample.Pallet) [("_items", Sample.three)]) None
    = Ok (mkElement "Pallet" [] None
            [Sample.item "item" "1"; Sample.item "item" "2"; Sample.item "item" "3"])
  ∧ _as_xml Sample.plain Sample.klasses Sample.no_str 1 (Sample.basket_world NESTED)
            (VObj (k_ref Sample.Basket) [("_items", Sample.three)]) None
    = Ok (mkElement "Basket" [] None
            [mkElement "items" [] None
               [Sample.item "item" "1"; Sample.item "item" "2";
                Sample.item "item" "3"]])
  ∧ _as_xml Sample.plain Sample.klasses Sample.no_str 1 (Sample.basket_world FLAT)
            (VObj (k_ref Sample.Basket) [("_items", Sample.three)]) None
    = Ok (mkElement "Basket" [] None
            [Sample.item "item" "1"; Sample.item "item" "2"; Sample.item "item" "3"]).
Proof. vm_compute. repeat split; reflexivity. Qed.

(** C5.  [_as_xml] on a list property for which no array configuration was
    registered raises the [TypeError] of unpacking [None]; it does not
    fall back to a flat array.  [XmlSerializableObject.as_xml] does fall
    back, to [FLAT] with the name of the property as child name. *)
Theorem _as_xml_array_without_config_raises :
  _as_xml Sample.plain Sample.klasses Sample.no_str 1 Sample.plain_basket_world
          (VObj (k_ref Sample.Basket) [("_items", Sample.three)]) None
  = Raise (TypeError "cannot unpack non-iterable NoneType object")
  ∧ as_xml Sample.plain Sample.klasses Sample.no_str 1 empty_world
           (VObj (k_ref Sample.Shelf) [("_items", Sample.three)]) None
    = Ok (mkElement "Shelf" [] None
            [Sample.item "items" "1"; Sample.item "items" "2";
             Sample.item "items" "3"]).
Proof. vm_compute. split; reflexivity. Qed.

(** C6.  [_as_xml] writes [True] for a property annotated
    [Optional[bool]], and [XmlSerializableObject.as_xml] writes [True] for
    any boolean; only a property annotated [bool] gets the lowercase
    text from [_as_xml]. *)
Theorem xml_bool_text_is_not_always_lowercase :
  _as_xml Sample.plain Sample.klasses Sample.no_str 1 Sample.plain_basket_world
          (VObj (k_ref Sample.Basket) [("_active", VBool true)]) None
  = Ok (mkElement "Basket" [] None [Sample.item "active" "True"])
  ∧ as_xml Sample.plain Sample.klasses Sample.no_str 1 empty_world
           (VObj (k_ref Sample.Crate) [("_flag", VBool true)]) None
    = Ok (mkElement "Crate" [] None [Sample.item "flag" "True"])
  ∧ _as_xml Sample.plain Sample.klasses Sample.no_str 1 Sample.plain_basket_world
            (VObj (k_ref Sample.Basket) [("_flag", VBool true)]) None
    = Ok (mkElement "Basket" [] None [Sample.item "flag" "true"]).
Proof. vm_compute. repeat split; reflexivity. Qed.

(** ** Removing a namespace prefix *)

Section StringFacts.

Lemma append_cons (x : ascii) (a b : string) :
  String x a +:+ b = String x (a +:+ b).
Proof. reflexivity. Qed.

Lemma append_nil (b : string) : "" +:+ b = b.
Proof. reflexivity. Qed.

Lemma append_assoc_ (a b c : string) : (a +:+ b) +:+ c = a +:+ (b +:+ c).
Proof.
  induction a as [|x a IH]; [done|].
  rewrite !append_cons. by rewrite IH.
Qed.

Lemma prefix_append (p t : string) : String.prefix p (p +:+ t) = true.
Proof.
  induction p as [|a p IH].
  - rewrite append_nil. by destruct t.
  - rewrite append_cons. simpl. destruct (ascii_dec a a); [done | congruence].
Qed.

Lemma remove_from_skip (old r t : string) :
  PyStr.remove_from old (String.length r) (r +:+ t) = PyStr.remove_from old O t.
Proof.
  induction r as [|c r IH].
  - by rewrite append_nil.
  - rewrite append_cons. simpl. apply IH.
Qed.

(** An occurrence at the head is removed. *)
Lemma remove_all_head (old t : string) :
  old ≠ "" → PyStr.remove_all old (old +:+ t) = PyStr.remove_all old t.
Proof.
  destruct old as [|c r]; [done|]. intros _.
  unfold PyStr.remove_all.
  pose proof (prefix_append (String c r) t) as Hp.
  rewrite append_cons in *.
  cbn [PyStr.remove_from]. rewrite Hp. cbn [String.length Nat.pred].
  apply remove_from_skip.
Qed.

(** A text without the first character of [old] is left as it is. *)
Lemma remove_all_absent (c : ascii) (r t : string) :
  PyStr.has_char c t = false → PyStr.remove_all (String c r) t = t.
Proof.
  unfold PyStr.remove_all.
  induction t as [|b t IH]; simpl; [done|].
  intros [Hb Ht]%orb_false_elim.
  destruct (ascii_dec c b) as [->|_].
  - by rewrite Ascii.eqb_refl in Hb.
  - by rewrite IH.
Qed.

(** So is the part of a text before the first such character. *)
Lemma remove_all_before (c : ascii) (r piece t : string) :
  PyStr.has_char c piece = false →
  PyStr.remove_all (String c r) (piece +:+ t)
  = piece +:+ PyStr.remove_all (String c r) t.
Proof.
  unfold PyStr.remove_all.
  induction piece as [|b piece IH]; [done|]. cbn [PyStr.has_char].
  intros [Hb Hpiece]%orb_false_elim. rewrite !append_cons.
  cbn [PyStr.remove_from String.prefix].
  destruct (ascii_dec c b) as [->|_].
  - by rewrite Ascii.eqb_refl in Hb.
  - by rewrite IH.
Qed.

Lemma has_char_app (c : ascii) (a b : string) :
  PyStr.has_char c (a +:+ b) = PyStr.has_char c a || PyStr.has_char c b.
Proof.
  induction a as [|x a IH]; [done|].
  rewrite append_cons. cbn [PyStr.has_char]. by rewrite IH, orb_assoc.
Qed.

(** A text that starts with [x] followed by [c] holds [c]. *)
Lemma prefix_has_char (c : ascii) (x t : string) :
  String.prefix (x +:+ String c "") t = true → PyStr.has_char c t = true.
Proof.
  revert t. induction x as [|a x IH]; intros [|b t]; try done.
  - rewrite append_nil. cbn [String.prefix PyStr.has_char].
    destruct (ascii_dec c b) as [->|]; [|done]. by rewrite Ascii.eqb_refl.
  - rewrite append_cons. cbn [String.prefix PyStr.has_char].
    destruct (ascii_dec a b) as [->|]; [|done].
    intros H. by rewrite (IH t H), orb_true_r.
Qed.

(** Two names closed by [c] of which one starts the other are the same
    name, when [c] is in neither of them nor in what follows. *)
Lemma closed_prefix_eq (c : ascii) (x y t : string) :
  PyStr.has_char c y = false → PyStr.has_char c t = false →
  String.prefix (x +:+ String c "") (y +:+ String c "" +:+ t) = true →
  x = y.
Proof.
  intros Hy Ht. revert y Hy.
  induction x as [|a x IH]; intros [|b y] Hy; try done.
  - rewrite !append_nil, !append_cons. cbn [String.prefix PyStr.has_char] in *.
    destruct (ascii_dec c b) as [->|]; [|done].
    by rewrite Ascii.eqb_refl in Hy.
  - rewrite append_nil, !append_cons, append_nil. cbn [String.prefix].
    destruct (ascii_dec a c) as [->|]; [|done].
    intros H%prefix_has_char. congruence.
  - rewrite !append_cons. cbn [String.prefix PyStr.has_char] in *.
    apply orb_false_elim in Hy as [_ Hy].
    destruct (ascii_dec a b) as [->|]; [|done].
    intros H. by rewrite (IH y Hy H).
Qed.

End StringFacts.

(** ** XML decoding *)

Section XmlDecoding.
Variable formatter : Formatter.
Variable klasses : gmap string klass.
Variable str_other : pyval → string.
Variable unicode : Unicode.
Variable start_ns : Element → result (list (string * string)).

Abbreviation from_xml_ := (from_xml formatter klasses str_other unicode start_ns).
Abbreviation from_xml_child_ := (from_xml_child formatter klasses str_other unicode).
Abbreviation from_xml_attribute_ :=
  (from_xml_attribute formatter klasses str_other unicode).
Abbreviation infer_ := (infer_default_namespace start_ns).
Abbreviation in_force := (effective_namespace start_ns).

(** [dict(pairs).get(k)] is the value of the last pair with the key [k]. *)
Lemma get_of_pairs (k : string) (pairs : list (string * string)) :
  PyDict.get k (PyDict.of_pairs pairs) = last_bound k pairs.
Proof.
  unfold PyDict.of_pairs.
  assert (H : ∀ acc, PyDict.get k (fold_left (λ d kv, PyDict.set kv.1 kv.2 d) pairs acc)
                     = match last_bound k pairs with
                       | Some later => Some later
                       | None => PyDict.get k acc
                       end).
  { induction pairs as [|[p uri] rest IH]; intros acc; [done|].
    cbn [fold_left last_bound fst snd]. rewrite IH.
    destruct (last_bound k rest); [done|].
    destruct (String.eqb_spec p k) as [->|Hne].
    - apply get_set_eq.
    - by rewrite get_set_ne. }
  rewrite H. by destruct (last_bound k pairs).
Qed.

Lemma last_bound_absent (k : string) (pairs : list (string * string)) :
  k ∉ map fst pairs → last_bound k pairs = None.
Proof.
  induction pairs as [|[p uri] rest IH]; [done|]. cbn [map fst last_bound].
  rewrite not_elem_of_cons. intros [Hne Hrest]. rewrite (IH Hrest).
  destruct (String.eqb_spec p k); congruence.
Qed.

(** What [from_xml] works out as the default namespace. *)
Lemma infer_default_namespace_last (data : Element) :
  infer_ data
  = (declarations ← start_ns data;
     Ok (default "" (last_bound "ns0" declarations))).
Proof.
  unfold infer_default_namespace. destruct (start_ns data) as [decls|]; [|done].
  cbn [mbind result_bind]. rewrite get_of_pairs.
  by destruct (last_bound "ns0" decls).
Qed.

(** The turn of the children loop for a child with no mapping. *)
Lemma from_xml_child_unmapped rec w cls ns _data child :
  unmapped_child formatter w cls ns child →
  from_xml_child_ rec w cls ns _data child
  = Raise (ValueError (unmapped_message (strip_namespace ns (tag child)) cls)).
Proof.
  intros (Harr & Hflat & Hmap & Hdict). unfold from_xml_child.
  by rewrite Harr, Hflat, Hmap, Hdict.
Qed.

(** C2, as amended.  When a child of the element maps to nothing (no
    array configuration under its name, no flat array with its tag as
    child name, no data class, no name of the class dictionary) under
    the default namespace in force, [from_xml] raises and returns no
    object.  When the default namespace is given or worked out without
    error, and the attributes and the children before that child decode
    without error, what it raises is the [ValueError] whose message
    names the tag of the child, the default namespace removed, and the
    name of the class. *)
Theorem from_xml_unmapped_child_raises
        (fuel : nat) (w : world) (cls : klass) (data : Element)
        (default_namespace : option string)
        (pre post : list Element) (child : Element) :
  children data = (pre ++ child :: post)%list →
  (∀ ns, in_force data default_namespace = Ok ns →
         unmapped_child formatter w cls ns child) →
  raises (from_xml_ (S fuel) w cls data default_namespace)
  ∧ (∀ ns d0 d1,
        in_force data default_namespace = Ok ns →
        for_each (from_xml_attribute_ cls) (attrib data) [] = Ok d0 →
        for_each (from_xml_child_ (from_xml_ fuel w) w cls ns) pre
                 (from_xml_text cls data d0) = Ok d1 →
        from_xml_ (S fuel) w cls data default_namespace
        = Raise (ValueError
                   (unmapped_message (strip_namespace ns (tag child)) cls))).
Proof.
  intros Hchildren Hchild.
  cbn [from_xml]. unfold from_xml_body. rewrite Hchildren. split.
  - destruct (in_force data default_namespace) as [ns|e]; [|by exists e].
    cbn [mbind result_bind].
    destruct (for_each _ (attrib data) []) as [d0|e]; simpl; [|by exists e].
    destruct (for_each_raises (from_xml_child_ (from_xml_ fuel w) w cls ns)
                pre post child (from_xml_text cls data d0)) as [e He].
    { intros d. rewrite from_xml_child_unmapped by auto. by eexists. }
    rewrite He. by exists e.
  - intros ns d0 d1 Hns Hattr Hpre. rewrite Hns. cbn [mbind result_bind].
    rewrite Hattr. simpl.
    rewrite for_each_app, Hpre. simpl.
    by rewrite from_xml_child_unmapped by auto.
Qed.

(** C7, as amended.  Without a default namespace [from_xml] raises what
    writing the element and parsing it again raises, if it does; if not,
    it proceeds as if it had been given the URI of the last declaration
    reported with the prefix [ns0], or the empty string when no
    declaration has that prefix: a first declaration wins when its prefix
    is [ns0] and no later one has it.  The tag of a child is looked at
    with the occurrences of the default namespace in braces removed from
    left to right: a tag made of pieces without brace joined by that
    prefix is read as the pieces joined; a tag in another namespace, with
    no brace inside the URI or the local name, is left as it is; and two
    children that differ in their tags only, with the same remainder,
    are treated alike by the loop, the nested decodes aside. *)
Theorem from_xml_default_namespace_is_bound_to_ns0
        (fuel : nat) (w : world) (cls : klass) (data : Element) :
  from_xml_ (S fuel) w cls data None
  = (declarations ← start_ns data;
     from_xml_ (S fuel) w cls data
               (Some (default "" (last_bound "ns0" declarations))))
  ∧ (∀ uri rest,
        start_ns data = Ok (("ns0", uri) :: rest) → "ns0" ∉ map fst rest →
        infer_ data = Ok (first_declared_namespace (("ns0", uri) :: rest)))
  ∧ (∀ declarations,
        start_ns data = Ok declarations → "ns0" ∉ map fst declarations →
        infer_ data = Ok "")
  ∧ (∀ ns pieces,
        Forall (λ piece, PyStr.has_char "{" piece = false) pieces →
        strip_namespace ns (String.concat ("{" +:+ ns +:+ "}") pieces)
        = String.concat "" pieces)
  ∧ (∀ ns other local,
        other ≠ ns →
        PyStr.has_char "{" other = false → PyStr.has_char "}" other = false →
        PyStr.has_char "{" local = false → PyStr.has_char "}" local = false →
        strip_namespace ns ("{" +:+ other +:+ "}" +:+ local)
        = "{" +:+ other +:+ "}" +:+ local)
  ∧ (∀ rec ns _data e tag',
        strip_namespace ns tag' = strip_namespace ns (tag e) →
        (∀ k ns', rec k (retag tag' e) ns' = rec k e ns') →
        from_xml_child_ rec w cls ns _data (retag tag' e)
        = from_xml_child_ rec w cls ns _data e).
Proof.
  split; [|split; [|split; [|split; [|split]]]].
  - cbn [from_xml]. unfold from_xml_body, effective_namespace.
    rewrite infer_default_namespace_last.
    by destruct (start_ns data).
  - intros uri rest Hdecl Hrest. rewrite infer_default_namespace_last, Hdecl.
    cbn [mbind result_bind last_bound first_declared_namespace].
    by rewrite (last_bound_absent _ _ Hrest).
  - intros decls Hdecl Hnone. rewrite infer_default_namespace_last, Hdecl.
    cbn [mbind result_bind]. by rewrite (last_bound_absent _ _ Hnone).
  - intros ns pieces Hpieces. unfold strip_namespace.
    induction Hpieces as [|piece rest Hpiece Hrest IH]; [done|].
    destruct rest as [|next rest].
    + cbn [String.concat]. rewrite append_cons. by apply remove_all_absent.
    + change (String.concat ?sep (piece :: next :: rest))
        with (piece +:+ sep +:+ String.concat sep (next :: rest)).
      rewrite (append_cons "{" ns "}") at 1.
      rewrite remove_all_before by done.
      rewrite <- (append_cons "{" ns "}").
      rewrite remove_all_head by by rewrite append_cons.
      rewrite IH.
      change (String.concat "" (piece :: next :: rest))
        with (piece +:+ "" +:+ String.concat "" (next :: rest)).
      by rewrite append_nil.
  - intros ns other local Hne Ho1 Ho2 Hl1 Hl2. unfold strip_namespace.
    change ("{" +:+ other +:+ "}" +:+ local)
      with (String "{" (other +:+ "}" +:+ local)).
    change ("{" +:+ ns +:+ "}") with (String "{" (ns +:+ "}")).
    unfold PyStr.remove_all. cbn [PyStr.remove_from String.prefix].
    destruct (ascii_dec "{" "{") as [_|]; [|done].
    destruct (String.prefix (ns +:+ "}") (other +:+ "}" +:+ local)) eqn:Hp.
    { exfalso. apply Hne. symmetry.
      by apply (closed_prefix_eq "}" ns other local). }
    f_equal.
    apply (remove_all_absent "{" (ns +:+ "}") (other +:+ "}" +:+ local)).
    rewrite !has_char_app, Ho1, Hl1. done.
  - intros rec ns _data [t a x c] tag' Htag Hrec.
    unfold retag in *. cbn [tag attrib text children] in *.
    unfold from_xml_child. cbn [tag children]. rewrite Htag.
    unfold klass_from_xml, text_value. cbn [text].
    repeat (case_match; try done); simplify_eq; by rewrite ?Hrec.
Qed.

End XmlDecoding.

(** C2 at a [Pallet] element whose only child is [bogus]. *)
Lemma from_xml_unmapped_child_raises_witness :
  from_xml Sample.plain Sample.klasses Sample.no_str Sample.no_unicode Sample.no_ns
           1 empty_world Sample.Pallet
           (mkElement "Pallet" [] None [mkElement "bogus" [] None []]) None
  = Raise (ValueError (unmapped_message "bogus" Sample.Pallet)).
Proof.
  refine (proj2 (from_xml_unmapped_child_raises
                   Sample.plain Sample.klasses Sample.no_str Sample.no_unicode
                   Sample.no_ns 0 empty_world Sample.Pallet
                   (mkElement "Pallet" [] None [mkElement "bogus" [] None []])
                   None [] [] (mkElement "bogus" [] None [])
                   _ _) "" [] [] _ _ _);
    try (vm_compute; reflexivity).
  intros ns [= <-]. vm_compute. repeat split; reflexivity.
Defined.

(** C2 as stated fails: in this [Pallet] element the child [bogus] maps to
    nothing, and the error raised is the one of the child before it, which
    names neither [bogus] nor the class. *)
Lemma from_xml_error_need_not_name_the_unmapped_child :
  let cls := Sample.Pallet in
  let data := mkElement "Pallet" [] None
                        [mkElement "items" [] None []; mkElement "bogus" [] None []] in
  let name := mapped_name cls (decode Sample.plain (strip_namespace "" "bogus")) in
  PyDict.get name (get_array_property_configuration cls) = None
  ∧ matching_array_config cls "bogus" = []
  ∧ PyDict.get name (get_property_data_class_mappings cls) = None
  ∧ in_class_dict empty_world cls name = false
  ∧ from_xml Sample.plain Sample.klasses Sample.no_str Sample.no_unicode Sample.no_ns
             1 empty_world cls data None
    = Raise (ValueError "Only NESTED expected here!")
  ∧ from_xml Sample.plain Sample.klasses Sample.no_str Sample.no_unicode Sample.no_ns
             1 empty_world cls data None
    ≠ Raise (ValueError (unmapped_message "bogus" cls)).
Proof. vm_compute. repeat split; try reflexivity. discriminate. Qed.

(** C7 at a document whose first declaration has the prefix [ns0], at a
    tag in the default namespace and at a tag in another one. *)
Lemma from_xml_default_namespace_is_bound_to_ns0_witness :
  infer_default_namespace Sample.order_ns Sample.order = Ok "urn:shop"
  ∧ strip_namespace "urn:shop" "{urn:shop}bolt" = "bolt"
  ∧ strip_namespace "urn:shop" "{urn:parts}bolt" = "{urn:parts}bolt".
Proof.
  destruct (from_xml_default_namespace_is_bound_to_ns0
              Sample.plain Sample.klasses Sample.no_str Sample.no_unicode
              Sample.order_ns 0 empty_world Sample.Order Sample.order)
    as (_ & Hfirst & _ & Hstrip & Hother & _).
  split; [|split].
  - refine (Hfirst "urn:shop" [("ns1", "urn:parts")] _ _); [reflexivity|].
    intros Hin. apply list_elem_of_singleton in Hin. discriminate Hin.
  - refine (Hstrip "urn:shop" [""; "bolt"] _).
    repeat constructor.
  - refine (Hother "urn:shop" "urn:parts" "bolt" _ _ _ _ _);
      [discriminate | reflexivity ..].
Defined.

(** C7 as stated fails.  The first and only namespace declared for the
    XHTML document has the prefix [html]; [from_xml] then works with the
    empty namespace, reads the tag of the child with its namespace in
    braces, and finds no property for it, where the same call with the
    XHTML namespace given decodes the document.  In the other document
    the child is in a namespace that is not the default one: its prefix is
    not removed, and no property is found for it either. *)
Lemma from_xml_first_declared_namespace_need_not_win :
  first_declared_namespace [("html", Sample.xhtml)] = Sample.xhtml
  ∧ Sample.page_ns Sample.page = Ok [("html", Sample.xhtml)]
  ∧ infer_default_namespace Sample.page_ns Sample.page = Ok ""
  ∧ from_xml Sample.plain Sample.klasses Sample.no_str Sample.no_unicode Sample.page_ns
             1 empty_world Sample.Page Sample.page None
    = Raise (ValueError
               (unmapped_message ("{" +:+ Sample.xhtml +:+ "}title") Sample.Page))
  ∧ from_xml Sample.plain Sample.klasses Sample.no_str Sample.no_unicode Sample.page_ns
             1 empty_world Sample.Page Sample.page (Some Sample.xhtml)
    = Ok (VObj (k_ref Sample.Page) [("_title", VStr "Hi")])
  ∧ infer_default_namespace Sample.order_ns Sample.order = Ok "urn:shop"
  ∧ from_xml Sample.plain Sample.klasses Sample.no_str Sample.no_unicode Sample.order_ns
             1 empty_world Sample.Order Sample.order None
    = Raise (ValueError (unmapped_message "{urn:parts}bolt" Sample.Order)).
Proof. vm_compute. repeat split; reflexivity. Qed.

(** ** JSON decoding *)

Section JsonDecoding.
Variable formatter : Formatter.
Variable klasses : gmap string klass.

Abbreviation resolve_key_ := (resolve_key formatter).
Abbreviation resolved_name_ := (resolved_name formatter).

(** For a class with the hooks of [JsonSerializableObject], a turn of the
    first loop never fails: it deletes the key and files the value under
    the resolved name. *)
Lemma resolve_key_resolved cls d k v :
  k_json_object cls = true →
  resolve_key_ cls d (k, v)
  = Ok (match resolved_name_ cls k with
        | Some n => PyDict.set n v (PyDict.del k d)
        | None => PyDict.del k d
        end).
Proof.
  intros Hj. unfold resolve_key, resolved_name. rewrite Hj. simpl.
  destruct (str_in k _); [done|].
  by destruct (PyDict.key_of_value _ _).
Qed.

Lemma resolve_loop_total cls xs d :
  k_json_object cls = true → ∃ d', for_each (resolve_key_ cls) xs d = Ok d'.
Proof.
  intros Hj. revert d. induction xs as [|[k v] xs IH]; intros d; cbn [for_each].
  - by eexists.
  - rewrite resolve_key_resolved by done. apply IH.
Qed.

Lemma once_del k k' d : once k d → once k (PyDict.del k' d).
Proof.
  unfold once. intros Hd. destruct (decide (k = k')) as [<-|Hne].
  - pose proof Hd as Hk. apply get_None_not_key in Hk.
    by rewrite (del_absent k (PyDict.del k d)).
  - rewrite del_del by done. by rewrite get_del_ne.
Qed.

Lemma once_set k k' v d : once k d → once k (PyDict.set k' v d).
Proof.
  unfold once. intros Hd. destruct (decide (k = k')) as [<-|Hne].
  - by rewrite del_set_eq.
  - rewrite del_set_ne by done. by rewrite get_set_ne.
Qed.

(** The first loop keeps at most one entry for a key. *)
Lemma resolve_loop_once cls k xs d d' :
  k_json_object cls = true → once k d →
  for_each (resolve_key_ cls) xs d = Ok d' → once k d'.
Proof.
  intros Hj. apply (for_each_invariant (once k)). intros s [k' v'] s' _ Hs.
  rewrite resolve_key_resolved by done. intros [= <-].
  destruct (resolved_name_ cls k'); [apply once_set|]; by apply once_del.
Qed.

(** The second loop assigns to the keys it finds and to no other. *)
Lemma convert_loop_absent rec w cls k xs d kwargs :
  k ∉ PyDict.keys xs → PyDict.get k d = None →
  for_each (convert_value klasses rec w cls) xs d = Ok kwargs →
  PyDict.get k kwargs = None.
Proof.
  intros Hk. apply (for_each_invariant (λ s, PyDict.get k s = None)).
  intros s [k' v'] s' Hin Hs.
  assert (k ≠ k').
  { intros ->. apply Hk. apply list_elem_of_fmap. by exists (k', v'). }
  unfold convert_value.
  repeat case_match; unfold mbind, result_bind; repeat case_match;
    intros; simplify_eq; try done; by rewrite get_set_ne.
Qed.

(** C8, as amended.  Take a key of the input that is not among the
    removals of the class and whose decoded name is the value of no key
    mapping and has neither a data class nor an array configuration, and
    suppose no later key of the input is that name or is filed under
    it.  Then the first loop ends without error with the value filed
    under the decoded name; the second loop leaves the entry as it is;
    the keyword arguments, when the other keys let [from_json] build
    them, bind the decoded name to the value; and when no name of the
    resolved input has a data class or an array configuration the
    outcome of [from_json], and of [_from_json], is that of the
    constructor called with them.  Take instead a key that is among the
    removals, and suppose no later key of the input is filed under it:
    then the first loop ends without error and leaves no entry for the
    key, and the keyword arguments have none.  The class has the hooks
    of [JsonSerializableObject], and the input holds the key once. *)
Theorem from_json_passes_unknown_key_to_constructor
        (rec : klass → pyval → result pyval) (w : world) (cls : klass)
        (pre post : list (string * pyval)) (k : string) (v : pyval) :
  let data := (pre ++ (k, v) :: post)%list in
  let name := decode formatter k in
  k_json_object cls = true →
  (str_in k (get_json_key_removals cls) = false →
   PyDict.key_of_value name (get_property_key_mappings cls) = None →
   PyDict.get name (get_property_data_class_mappings cls) = None →
   PyDict.get name (get_array_property_configuration cls) = None →
   (∀ k' v', (k', v') ∈ post → k' ≠ name ∧ resolved_name_ cls k' ≠ Some name) →
   ∃ _data,
     for_each (resolve_key_ cls) data data = Ok _data
     ∧ PyDict.get name _data = Some v
     ∧ (∀ d, convert_value klasses rec w cls d (name, v) = Ok d)
     ∧ (∀ kwargs,
           from_json_kwargs formatter klasses rec w cls data = Ok kwargs →
           PyDict.get name kwargs = Some v)
     ∧ ((∀ k' v', (k', v') ∈ _data →
                  PyDict.get k' (get_property_data_class_mappings cls) = None
                  ∧ PyDict.get k' (get_array_property_configuration cls) = None) →
        ∀ fuel, from_json formatter klasses (S fuel) w cls (VDict data)
                = construct cls _data
                ∧ _from_json formatter klasses (S fuel) w cls (VDict data)
                  = construct cls _data))
  ∧ (str_in k (get_json_key_removals cls) = true →
     k ∉ PyDict.keys pre → k ∉ PyDict.keys post →
     (∀ k' v', (k', v') ∈ post → resolved_name_ cls k' ≠ Some k) →
     ∃ _data,
       for_each (resolve_key_ cls) data data = Ok _data
       ∧ PyDict.get k _data = None
       ∧ (∀ kwargs,
             from_json_kwargs formatter klasses rec w cls data = Ok kwargs →
             PyDict.get k kwargs = None)).
Proof.
  intros data name Hj. split.
  - intros Hrem Hmap Hdcm Harr Hpost.
    assert (Hres : resolved_name_ cls k = Some name).
    { unfold resolved_name. rewrite Hrem. fold name. by rewrite Hmap. }
    assert (Hconv : ∀ d, convert_value klasses rec w cls d (name, v) = Ok d).
    { intros d. unfold convert_value. by rewrite Hdcm, Harr. }
    destruct (resolve_loop_total cls data data Hj) as [_data Hdata].
    assert (Hget : PyDict.get name _data = Some v).
    { revert Hdata. unfold data at 1. rewrite for_each_app.
      destruct (resolve_loop_total cls pre data Hj) as [d1 ->].
      cbn [mbind result_bind for_each].
      rewrite resolve_key_resolved, Hres by done. cbn [mbind result_bind].
      apply (for_each_invariant (λ d, PyDict.get name d = Some v)).
      - intros d [k' v'] d' Hin Hd. rewrite resolve_key_resolved by done.
        intros [= <-]. destruct (Hpost k' v' Hin) as [Hne Hres'].
        destruct (resolved_name_ cls k') as [n'|].
        + rewrite get_set_ne by congruence. by rewrite get_del_ne.
        + by rewrite get_del_ne.
      - apply get_set_eq. }
    assert (Hkeep : ∀ kwargs,
               for_each (convert_value klasses rec w cls) _data _data = Ok kwargs →
               PyDict.get name kwargs = Some v).
    { intros kwargs.
      apply (for_each_invariant (λ d, PyDict.get name d = Some v)); [|done].
      intros d [k' v'] d' _ Hd. unfold convert_value.
      destruct (decide (k' = name)) as [->|Hne].
      - rewrite Hdcm, Harr. by intros [= <-].
      - repeat case_match; unfold mbind, result_bind; repeat case_match;
          intros; simplify_eq; try done; by rewrite get_set_ne. }
    exists _data. split; [done|]. split; [done|]. split; [done|]. split.
    + intros kwargs. unfold from_json_kwargs. rewrite Hdata. simpl. apply Hkeep.
    + intros Hplain fuel.
      assert (Hsame : _from_json formatter klasses (S fuel) w cls (VDict data)
                      = from_json formatter klasses (S fuel) w cls (VDict data))
        by reflexivity.
      rewrite Hsame. cut (from_json formatter klasses (S fuel) w cls (VDict data)
                          = construct cls _data); [by intros ->|].
      cbn [from_json]. unfold from_json_body, from_json_kwargs.
      rewrite Hdata. simpl.
      assert (Hid : ∀ xs d,
                 (∀ k' v', (k', v') ∈ xs →
                           PyDict.get k' (get_property_data_class_mappings cls) = None
                           ∧ PyDict.get k' (get_array_property_configuration cls) = None) →
                 for_each (convert_value klasses (from_json formatter klasses fuel w)
                                         w cls) xs d = Ok d).
      { induction xs as [|[k' v'] xs IH]; intros d Hxs; simpl; [done|].
        destruct (Hxs k' v') as [-> ->]; [by left|]. simpl.
        apply IH. intros k'' v'' Hin. apply (Hxs k'' v''). by right. }
      by rewrite Hid.
  - intros Hrem Hpre Hpost Hlater.
    assert (Hres : resolved_name_ cls k = None).
    { unfold resolved_name. by rewrite Hrem. }
    destruct (resolve_loop_total cls data data Hj) as [_data Hdata].
    assert (Hget : PyDict.get k _data = None).
    { revert Hdata. unfold data at 1. rewrite for_each_app.
      destruct (resolve_loop_total cls pre data Hj) as [d1 Hd1]. rewrite Hd1.
      cbn [mbind result_bind for_each].
      rewrite resolve_key_resolved, Hres by done. cbn [mbind result_bind].
      assert (Hone : once k d1).
      { apply (resolve_loop_once cls k pre data d1 Hj); [|done].
        unfold once, data. rewrite <- get_None_not_key in Hpre, Hpost.
        clear -Hpre Hpost. induction pre as [|[k0 v0] pre IH]; cbn in *.
        - by rewrite String.eqb_refl.
        - destruct (String.eqb k0 k) eqn:E; [done|]. cbn. rewrite E. by apply IH. }
      apply (for_each_invariant (λ d, PyDict.get k d = None)); [|exact Hone].
      intros d [k' v'] d' Hin Hd. rewrite resolve_key_resolved by done.
      intros [= <-].
      assert (k ≠ k').
      { intros ->. apply Hpost. apply list_elem_of_fmap. by exists (k', v'). }
      specialize (Hlater k' v' Hin).
      destruct (resolved_name_ cls k') as [n'|].
      + rewrite get_set_ne by congruence. by rewrite get_del_ne.
      + by rewrite get_del_ne. }
    exists _data. split; [done|]. split; [done|].
    intros kwargs. unfold from_json_kwargs. rewrite Hdata. cbn [mbind result_bind].
    apply convert_loop_absent; [|done]. by apply get_None_not_key.
Qed.

End JsonDecoding.

(** C8 at the class [Loose] and the inputs [{"colour": "red"}] and
    [{"junk": 1, "size": 2}]. *)
Lemma from_json_passes_unknown_key_to_constructor_witness :
  from_json Sample.plain Sample.klasses 1 empty_world Sample.Loose
            (VDict [("colour", VStr "red")])
  = construct Sample.Loose [("colour", VStr "red")]
  ∧ construct Sample.Loose [("colour", VStr "red")]
    = Raise (TypeError "__init__() got an unexpected keyword argument")
  ∧ (∀ kwargs,
        from_json_kwargs Sample.plain Sample.klasses
                         (from_json Sample.plain Sample.klasses 0 empty_world)
                         empty_world Sample.Loose [("junk", VInt 1); ("size", VInt 2)]
        = Ok kwargs →
        PyDict.get "junk" kwargs = None).
Proof.
  pose proof (from_json_passes_unknown_key_to_constructor
                Sample.plain Sample.klasses
                (from_json Sample.plain Sample.klasses 0 empty_world)
                empty_world Sample.Loose [] [] "colour" (VStr "red") eq_refl)
    as [Hkept _].
  pose proof (from_json_passes_unknown_key_to_constructor
                Sample.plain Sample.klasses
                (from_json Sample.plain Sample.klasses 0 empty_world)
                empty_world Sample.Loose [] [("size", VInt 2)] "junk" (VInt 1)
                eq_refl)
    as [_ Hdropped].
  split; [|split; [vm_compute; reflexivity|]].
  - destruct Hkept as (_data & Hdata & _ & _ & _ & Hctor).
    + reflexivity.
    + reflexivity.
    + reflexivity.
    + reflexivity.
    + intros k' v' Hin. inversion Hin.
    + injection Hdata as <-.
      refine (proj1 (Hctor _ 0)). intros k' v' Hin.
      apply list_elem_of_singleton in Hin. injection Hin as -> ->.
      split; reflexivity.
  - destruct Hdropped as (_data & _ & _ & Hkwargs).
    + reflexivity.
    + apply not_elem_of_nil.
    + intros Hin. apply list_elem_of_singleton in Hin. discriminate Hin.
    + intros k' v' Hin. apply list_elem_of_singleton in Hin.
      injection Hin as -> ->. vm_compute. discriminate.
    + exact Hkwargs.
Defined.

(** C8 as stated fails.  The key [junk] is no property of [Loose]; it is
    among the removals of the class, and the constructor is called
    without it.  With a formatter whose [decode] puts names in lower case
    the keys [Size] and [size] are filed under the same name, and the
    value of the first one does not reach the constructor. *)
Lemma from_json_may_drop_an_unknown_key :
  from_json_kwargs Sample.plain Sample.klasses
                   (from_json Sample.plain Sample.klasses 0 empty_world)
                   empty_world Sample.Loose [("junk", VInt 1); ("size", VInt 2)]
  = Ok [("size", VInt 2)]
  ∧ from_json Sample.plain Sample.klasses 1 empty_world Sample.Loose
              (VDict [("junk", VInt 1); ("size", VInt 2)])
    = Ok (VObj (k_ref Sample.Loose) [("_size", VInt 2)])
  ∧ from_json_kwargs Sample.lowering Sample.klasses
                     (from_json Sample.lowering Sample.klasses 0 empty_world)
                     empty_world Sample.Tag [("Size", VInt 1); ("size", VInt 2)]
    = Ok [("size", VInt 2)].
Proof. vm_compute. repeat split; reflexivity. Qed.

(** ** The JSON round trip *)

Section JsonRoundTrip.
Variable formatter : Formatter.
Variable klasses : gmap string klass.

Abbreviation field_ := (json_field formatter klasses).
Abbreviation mapped_ := (mapped_value formatter klasses).
Abbreviation filed_ := (filed_under formatter).
Abbreviation json_dumps_ := (json_dumps formatter klasses).
Abbreviation from_json_ := (from_json formatter klasses).

Lemma depth_item (x : pyval) (items : list pyval) :
  x ∈ items → (depth x ≤ fold_right Nat.max O (map depth items))%nat.
Proof.
  induction items as [|y items IH]; [by intros ?%elem_of_nil|].
  intros [->|Hx]%elem_of_cons; simpl; [lia|]. specialize (IH Hx). lia.
Qed.

Lemma native_item (x : pyval) (items : list pyval) :
  forallb json_native items = true → x ∈ items → json_native x = true.
Proof.
  rewrite forallb_forall. intros H Hx. apply H. by apply list_elem_of_In.
Qed.

(** [json.dumps] of a native value needs no [default]. *)
Lemma dumps_native (w : world) (n : nat) (v : pyval) :
  json_native v = true → (depth v < n)%nat →
  json_dumps_ n w v = Ok (native_json v).
Proof.
  revert v. induction n as [|n IH]; intros v Hv Hd; [lia|].
  destruct v; try done. cbn [json_dumps native_json].
  rewrite (map_each_ok _ native_json); [done|].
  intros x Hx. apply IH.
  - by eapply native_item.
  - pose proof (depth_item x items Hx). cbn [depth] in Hd. lia.
Qed.

(** [json.loads] gives the value back. *)
Lemma loads_native (n : nat) (v : pyval) :
  json_native v = true → (depth v < n)%nat → json_loads (native_json v) = v.
Proof.
  revert v. induction n as [|n IH]; intros v Hv Hd; [lia|].
  destruct v; try done. cbn [json_loads native_json].
  f_equal. rewrite map_map. rewrite <- (map_id items) at 2.
  apply map_ext_in. intros x Hx%list_elem_of_In. apply IH.
  - by eapply native_item.
  - pose proof (depth_item x items Hx). cbn [depth] in Hd. lia.
Qed.

Lemma of_pairs_distinct {V} (l acc : list (string * V)) :
  NoDup (map fst l) → (∀ k, k ∈ map fst l → k ∉ map fst acc) →
  fold_left (λ d kv, PyDict.set kv.1 kv.2 d) l acc = (acc ++ l)%list.
Proof.
  revert acc. induction l as [|[k v] l IH]; intros acc Hnd Hacc; simpl.
  - by rewrite app_nil_r.
  - apply NoDup_cons in Hnd as [Hk Hnd].
    rewrite set_fresh by (apply Hacc; by left).
    rewrite IH; [by rewrite <- app_assoc | done |].
    intros k' Hk'. unfold PyDict.keys. rewrite map_app. simpl.
    rewrite elem_of_app, list_elem_of_singleton.
    intros [Hin| ->]; [|done]. eapply Hacc; [by right | done].
Qed.

Lemma independent_NoDup (r : string → string) (ws : list string) :
  independent r ws → NoDup ws ∧ NoDup (map r ws).
Proof.
  induction ws as [|x ws IH]; simpl; [split; constructor|].
  intros (Hx & _ & Hrx & Hws). destruct (IH Hws).
  split; constructor; auto.
Qed.

Lemma present_elem (dict : list (string * pyval)) (k : string) (v : pyval) :
  (k, v) ∈ present dict → (k, v) ∈ dict ∧ v ≠ VNone.
Proof.
  induction dict as [|[k0 v0] dict IH]; simpl; [by intros ?%elem_of_nil|].
  destruct v0;
    try (intros [[= -> ->]|Hin]%elem_of_cons;
         [split; [by left | done] | destruct (IH Hin); split; [by right | done]]).
  intros Hin. destruct (IH Hin). split; [by right | done].
Qed.

(** Looking up and assigning a key that is not in the first part of a
    dictionary. *)
Lemma get_app_absent {V} (k : string) (d1 d2 : PyDict.t V) :
  k ∉ PyDict.keys d1 → PyDict.get k (d1 ++ d2)%list = PyDict.get k d2.
Proof.
  induction d1 as [|[k0 v0] d1 IH]; simpl; [done|].
  rewrite not_elem_of_cons. intros [Hne Hd].
  destruct (String.eqb_spec k0 k); [congruence|]. by apply IH.
Qed.

Lemma set_app_absent {V} (k : string) (v : V) (d1 d2 : PyDict.t V) :
  k ∉ PyDict.keys d1 →
  PyDict.set k v (d1 ++ d2)%list = (d1 ++ PyDict.set k v d2)%list.
Proof.
  induction d1 as [|[k0 v0] d1 IH]; simpl; [done|].
  rewrite not_elem_of_cons. intros [Hne Hd].
  destruct (String.eqb_spec k0 k); [congruence|]. by rewrite IH.
Qed.

Lemma scalar_loaded (raw : pyval) :
  json_native raw = true → depth raw = O →
  json_loads (native_json raw) = raw
  ∧ (∀ items, raw ≠ VList items) ∧ (∀ items, raw ≠ VSet items).
Proof.
  intros Hnat Hd. split; [apply (loads_native 1); [done|lia]|].
  split; intros items ->; done.
Qed.

(** [json.dumps] writes the document of a mapped value. *)
Lemma mapped_written (w : world) (n m : nat) (a : any_serializable)
      (x v : pyval) (j : json) :
  mapped_ w n m a x v j → json_dumps_ n w x = Ok j.
Proof.
  assert (Hraw : ∀ y, json_native (raw_of y) = true → depth (raw_of y) = O →
                      (1 < n)%nat →
                      json_dumps_ n w y = Ok (native_json (raw_of y))).
  { intros y Hnat Hd Hn. destruct n as [|[|n1]]; [lia|lia|].
    destruct y; try done; cbn [raw_of] in *;
      try (apply dumps_native; [done | lia]).
    change (json_dumps_ (S (S n1)) w (VEnum enum_class member y))
      with (json_dumps_ (S n1) w y).
    apply dumps_native; [done | lia]. }
  intros [f x' v' _ Hnat Hd Hn _ | s x' v' _ Hnat Hd Hn _
         | k dict j' _ Hk Hget Hto Hfrom]; [by apply Hraw | by apply Hraw | done].
Qed.

(** The class of the mapping rebuilds the value from what [json.loads]
    reads, which is no list and no set. *)
Lemma mapped_read (w : world) (n m : nat) (a : any_serializable)
      (x v : pyval) (j : json) :
  mapped_ w n m a x v j →
  decode_mapped klasses (from_json_ m w) w a (json_loads j) = Ok v
  ∧ (simple_of a = None →
     decode_array_item klasses (from_json_ m w) w a (json_loads j) = Ok v)
  ∧ (∀ items, json_loads j ≠ VList items)
  ∧ (∀ items, json_loads j ≠ VSet items).
Proof.
  intros [f x' v' -> Hnat Hd Hn Hf | s x' v' -> Hnat Hd Hn Hs
         | k dict j' -> Hk Hget Hto Hfrom].
  - destruct (scalar_loaded _ Hnat Hd) as (-> & Hlist & Hset). done.
  - destruct (scalar_loaded _ Hnat Hd) as (-> & Hlist & Hset). done.
  - split; [|split].
    + unfold decode_mapped, klass_from_json. by rewrite Hget, Hk.
    + intros _. unfold decode_array_item, klass_from_json. by rewrite Hget, Hk.
    + destruct m as [|m']; [done|]. cbn [from_json] in Hfrom.
      unfold from_json_body in Hfrom.
      split; intros items E; by rewrite E in Hfrom.
Qed.

(** A turn of the loop of [default] for a property that is written. *)
Lemma default_item_kept (w : world) (c : class_ref) (d : list (string * pyval))
      (k : string) (v x : pyval) :
  v ≠ VNone → skipped_key (PyStr.tail1 k) = false →
  json_wire_value klasses w c (PyStr.tail1 k) v = Ok x →
  default_item formatter klasses w (property_info w c) d (k, v)
  = Ok (PyDict.set (json_wire_name formatter w c (PyStr.tail1 k)) x d).
Proof.
  intros Hv Hskip Hx. unfold default_item, json_wire_name.
  unfold json_wire_value in Hx. rewrite Hskip.
  destruct (property_info w c !! PyStr.tail1 k) as [prop_info|] eqn:E.
  - destruct (sp_custom_type prop_info) as [ct|].
    + destruct (simple_of ct) as [s|]; rewrite Hx; by destruct v.
    + injection Hx as <-. by destruct v.
  - injection Hx as <-. by destruct v.
Qed.

(** The dictionary [default] builds for an instance. *)
Lemma default_loop_kept (w : world) (c : class_ref)
      (stored : string * pyval → pyval) (dict acc : list (string * pyval)) :
  let wire kv := json_wire_name formatter w c (PyStr.tail1 kv.1) in
  (∀ k v, (k, v) ∈ present dict →
          skipped_key (PyStr.tail1 k) = false
          ∧ json_wire_value klasses w c (PyStr.tail1 k) v = Ok (stored (k, v))) →
  NoDup (map wire (present dict)) →
  (∀ kv, kv ∈ present dict → wire kv ∉ PyDict.keys acc) →
  for_each (default_item formatter klasses w (property_info w c)) dict acc
  = Ok (acc ++ map (λ kv, (wire kv, stored kv)) (present dict))%list.
Proof.
  intros wire. revert acc.
  induction dict as [|[k v] dict IH]; intros acc Hkept Hnd Hacc.
  - simpl. by rewrite app_nil_r.
  - assert (Hcase : v = VNone ∨ v ≠ VNone) by (destruct v; (by left) || (by right)).
    destruct Hcase as [->|Hv].
    + cbn [for_each present]. unfold default_item at 1.
      cbn [mbind result_bind]. by apply IH.
    + assert (Hp : present ((k, v) :: dict) = (k, v) :: present dict).
      { by destruct v. }
      rewrite Hp in *. cbn [for_each].
      destruct (Hkept k v) as [Hskip Hct]; [by left|].
      rewrite (default_item_kept w c acc k v (stored (k, v))) by done.
      cbn [mbind result_bind].
      cbn [map] in Hnd. apply NoDup_cons in Hnd as [Hk Hnd].
      rewrite set_fresh by (apply (Hacc (k, v)); by left).
      rewrite IH.
      * cbn [map]. by rewrite <- app_assoc.
      * intros k' v' Hin. apply (Hkept k' v'). by right.
      * done.
      * intros kv Hin. unfold PyDict.keys. rewrite map_app. cbn [map fst].
        rewrite elem_of_app, list_elem_of_singleton.
        intros [Hin'|Heq].
        -- eapply Hacc; [by right | done].
        -- apply Hk. change (wire kv = wire (k, v)) in Heq. rewrite <- Heq.
           apply list_elem_of_fmap. by exists kv.
Qed.

(** The first loop of [from_json] on independent wire names. *)
Lemma resolve_loop_independent (cls : klass) (xs acc : list (string * pyval)) :
  k_json_object cls = true →
  (∀ k v, (k, v) ∈ xs →
          resolved_name formatter cls k = Some (filed_ cls k)) →
  independent (filed_ cls) (PyDict.keys xs) →
  (∀ k, k ∈ PyDict.keys xs → filed_ cls k ∉ PyDict.keys acc) →
  for_each (resolve_key formatter cls) xs (xs ++ acc)%list
  = Ok (acc ++ map (λ kv, (filed_ cls kv.1, kv.2)) xs)%list.
Proof.
  intros Hj. revert acc.
  induction xs as [|[k v] xs IH]; intros acc Hfiled Hind Hacc.
  - simpl. by rewrite app_nil_r.
  - cbn [for_each]. rewrite resolve_key_resolved by done.
    rewrite (Hfiled k v) by by left.
    cbn [mbind result_bind app PyDict.del]. rewrite String.eqb_refl.
    cbn [PyDict.keys map fst independent] in Hind.
    destruct Hind as (Hk & Hdk & Hddk & Hind).
    rewrite set_fresh.
    2:{ unfold PyDict.keys. rewrite map_app, elem_of_app.
        intros [Hin|Hin]; [by apply Hdk|].
        eapply Hacc; [by left | done]. }
    rewrite <- app_assoc. rewrite IH.
    + cbn [map]. by rewrite <- app_assoc.
    + intros k' v' Hin. apply (Hfiled k' v'). by right.
    + done.
    + intros k' Hk'. unfold PyDict.keys. rewrite map_app. cbn [map fst].
      rewrite elem_of_app, list_elem_of_singleton.
      intros [Hin|Heq].
      * eapply Hacc; [by right | done].
      * apply Hddk. rewrite <- Heq. apply list_elem_of_fmap.
        by exists k'.
Qed.

(** The second loop of [from_json] when the turn of each entry puts the
    value built for it in the place of the value read. *)
Lemma convert_loop_built {A} rec (w : world) (cls : klass)
      (name : A → string) (x v : A → pyval) (built todo : list A) :
  NoDup (map name (built ++ todo)) →
  (∀ t d, t ∈ todo → PyDict.get (name t) d = Some (x t) →
          convert_value klasses rec w cls d (name t, x t)
          = Ok (PyDict.set (name t) (v t) d)) →
  for_each (convert_value klasses rec w cls) (map (λ t, (name t, x t)) todo)
           (map (λ t, (name t, v t)) built ++ map (λ t, (name t, x t)) todo)%list
  = Ok (map (λ t, (name t, v t)) (built ++ todo)).
Proof.
  revert built. induction todo as [|t todo IH]; intros built Hnd Hturn.
  - cbn [map for_each]. by rewrite !app_nil_r.
  - assert (Hfresh : name t ∉ PyDict.keys (map (λ t, (name t, v t)) built)).
    { unfold PyDict.keys. rewrite map_map. cbn [fst].
      rewrite map_app in Hnd. apply NoDup_app in Hnd as (_ & Hdisj & _).
      intros Hin. apply (Hdisj _ Hin). by left. }
    cbn [map for_each]. rewrite Hturn.
    + cbn [mbind result_bind]. rewrite set_app_absent by done.
      cbn [PyDict.set]. rewrite String.eqb_refl.
      replace (map (λ t, (name t, v t)) built
               ++ (name t, v t) :: map (λ t, (name t, x t)) todo)%list
        with (map (λ t, (name t, v t)) (built ++ [t])
              ++ map (λ t, (name t, x t)) todo)%list
        by (rewrite map_app; cbn [map]; by rewrite <- app_assoc).
      replace (built ++ t :: todo)%list with ((built ++ [t]) ++ todo)%list
        by (by rewrite <- app_assoc).
      apply IH.
      * by rewrite <- app_assoc.
      * intros t' d Hin. apply Hturn. by right.
    + by left.
    + rewrite get_app_absent by done. cbn [PyDict.get]. by rewrite String.eqb_refl.
Qed.

(** The turn of the second loop for a field. *)
Lemma convert_value_field (w : world) (cls : klass) (n m : nat)
      (name : string) (x v : pyval) (j : json) (d : list (string * pyval)) :
  written_and_read formatter klasses w cls n m name x v j →
  PyDict.get name d = Some (json_loads j) →
  convert_value klasses (from_json_ m w) w cls d (name, json_loads j)
  = Ok (PyDict.set name v d).
Proof.
  intros [v' Hdc Harr Hnat Hd | a x' v' j' Hdc Hmapped
         | a items js n' Hdc -> Hitems
         | ty child a items js n' Hdc Harr Hsimple -> Hitems] Hget;
    unfold convert_value; rewrite Hdc.
  - rewrite (loads_native n) in * by done.
    destruct Harr as [-> | Hflat]; [by rewrite set_same|].
    destruct (PyDict.get name (get_array_property_configuration cls))
      as [[[ty child] a]|]; [|by rewrite set_same].
    destruct v'; try done; by rewrite set_same.
  - destruct (mapped_read w n m a x' v' j' Hmapped) as (Hread & _ & Hlist & Hset).
    rewrite Hread. by destruct (json_loads j'); try done; [destruct (Hlist items)
                                                          |destruct (Hset items)].
  - cbn [json_loads].
    assert (Hmap : map_each (decode_mapped klasses (from_json_ m w) w a)
                            (map json_loads js) = Ok items).
    { clear Hget. induction Hitems as [|v0 j0 items js H0 _ IH]; [done|].
      cbn [map map_each]. rewrite (proj1 (mapped_read w n' m a v0 v0 j0 H0)).
      cbn [mbind result_bind]. by rewrite IH. }
    by rewrite Hmap.
  - rewrite Harr. cbn [json_loads].
    assert (Hmap : map_each (decode_array_item klasses (from_json_ m w) w a)
                            (map json_loads js) = Ok items).
    { clear Hget. induction Hitems as [|v0 j0 items js H0 _ IH]; [done|].
      cbn [map map_each].
      rewrite (proj1 (proj2 (mapped_read w n' m a v0 v0 j0 H0)) Hsimple).
      cbn [mbind result_bind]. by rewrite IH. }
    by rewrite Hmap.
Qed.

(** [json.dumps] writes the document of a field. *)
Lemma field_written (w : world) (cls : klass) (n m : nat)
      (name : string) (x v : pyval) (j : json) :
  written_and_read formatter klasses w cls n m name x v j →
  json_dumps_ n w x = Ok j.
Proof.
  assert (Hlist : ∀ a n' items js,
             Forall2 (λ v j, mapped_ w n' m a v v j) items js →
             json_dumps_ (S n') w (VList items) = Ok (JArr js)).
  { intros a n' items js Hitems. cbn [json_dumps].
    assert (Hmap : map_each (json_dumps_ n' w) items = Ok js).
    { induction Hitems as [|v0 j0 items js H0 _ IH]; [done|].
      cbn [map_each]. rewrite (mapped_written w n' m a v0 v0 j0 H0).
      cbn [mbind result_bind]. by rewrite IH. }
    by rewrite Hmap. }
  intros [v' Hdc Harr Hnat Hd | a x' v' j' Hdc Hmapped
         | a items js n' Hdc -> Hitems
         | ty child a items js n' Hdc Harr Hsimple -> Hitems].
  - by apply dumps_native.
  - by eapply mapped_written.
  - by eapply Hlist.
  - by eapply Hlist.
Qed.


End JsonRoundTrip.



(** * Further properties *)

(** ** The registry *)

Section Registry.

Lemma new_SerializableProperty_same l l' q name ann :
  same_overrides l l' →
  new_SerializableProperty l q name ann = new_SerializableProperty l' q name ann.
Proof.
  intros (Ha & Hb & Hc & Hd). unfold new_SerializableProperty.
  by rewrite Ha, Hb, Hc, Hd.
Qed.

(** The loop of [register_klass] over the members of the class touches
    the property table of the class and nothing else. *)
Lemma property_loop q l0 members l :
  same_overrides l0 l →
  let l' :=
    fold_left
      (fun l (member : string * option pytype) =>
         with_klass_property_mappings l
           (add_property q (fst member)
              (new_SerializableProperty l q (fst member) (snd member))
              (klass_property_mappings l)))
      members l in
  same_overrides l0 l'
  ∧ klass_mappings l' = klass_mappings l
  ∧ ∀ q', klass_property_mappings l' !! q' =
          if decide (q' = q)
          then fold_left (λ ps m, <[m.1 := new_SerializableProperty l0 q m.1 m.2]> ps)
                         members <$> klass_property_mappings l !! q'
          else klass_property_mappings l !! q'.
Proof.
  revert l. induction members as [|m ms IH]; intros l Hsame; cbn [fold_left].
  - split; [done|]. split; [done|]. intros q'. case_decide; [|done].
    by destruct (klass_property_mappings l !! q').
  - match goal with |- context [fold_left _ ms ?l1] => set (l1' := l1) end.
    destruct (IH l1') as (H1 & H2 & H3).
    { destruct Hsame as (?&?&?&?). by repeat split. }
    split; [done|]. split; [by rewrite H2|].
    intros q'. rewrite H3. subst l1'.
    cbn [klass_property_mappings with_klass_property_mappings].
    unfold add_property. case_decide as Hq.
    + subst q'. rewrite lookup_alter_eq.
      rewrite <- (new_SerializableProperty_same l0 l) by done.
      by destruct (klass_property_mappings l !! q).
    + by rewrite lookup_alter_ne.
Qed.

(** Inserting the members one after the other gives the map of the
    members when no name occurs twice. *)
Lemma insert_loop_list_to_map {V} (f : string * option pytype → V)
      (members : list (string * option pytype)) (acc : gmap string V) :
  NoDup (map fst members) →
  fold_left (λ ps m, <[m.1 := f m]> ps) members acc
  = list_to_map (map (λ m, (m.1, f m)) members) ∪ acc.
Proof.
  revert acc. induction members as [|m ms IH]; intros acc Hnd; cbn [fold_left map].
  - cbn. by rewrite (left_id_L ∅ (∪)).
  - apply NoDup_cons in Hnd as [Hm Hnd]. rewrite IH by done.
    change (list_to_map ((m.1, f m) :: map (λ m0, (m0.1, f m0)) ms))
      with (<[m.1 := f m]> (list_to_map (map (λ m0, (m0.1, f m0)) ms) : gmap string V)).
    rewrite <- insert_union_r.
    + by rewrite insert_union_l.
    + apply not_elem_of_list_to_map_1. rewrite <- list_fmap_compose.
      intros Hin. apply Hm. done.
Qed.

Lemma register_klass_library w k a types :
  let q := qualified_name (k_ref k) in
  let l' := library (register_klass w k a types) in
  same_overrides (library w) l'
  ∧ klass_mappings l'
    = <[q := mkSerializableClass (cr_name (k_ref k)) None types]>
        (klass_mappings (library w))
  ∧ ∀ q', klass_property_mappings l' !! q' =
          if decide (q' = q)
          then Some (fold_left
                       (λ ps m, <[m.1 := new_SerializableProperty (library w) q m.1 m.2]> ps)
                       (k_properties k) ∅)
          else klass_property_mappings (library w) !! q'.
Proof.
  intros q l'. subst q l'. unfold register_klass.
  rewrite is_klass_serializable_object. cbn [library].
  match goal with |- context [fold_left ?f ?ms ?l1] =>
    destruct (property_loop (qualified_name (k_ref k)) (library w) ms l1)
      as (H1 & H2 & H3) end.
  { by repeat split. }
  split; [done|]. split; [by rewrite H2|].
  intros q'. rewrite H3. cbn. case_decide.
  - subst q'. by rewrite lookup_insert_eq.
  - by rewrite lookup_insert_ne.
Qed.

Lemma register_klass_property_info w k a types :
  NoDup (map fst (k_properties k)) →
  property_info (register_klass w k a types) (k_ref k)
  = list_to_map
      (map (λ m, (m.1, new_SerializableProperty (library w) (qualified_name (k_ref k))
                                                m.1 m.2))
           (k_properties k)).
Proof.
  intros Hnd. unfold property_info.
  destruct (register_klass_library w k a types) as (_ & _ & H). rewrite H.
  rewrite decide_True by done.
  rewrite insert_loop_list_to_map by done. by rewrite (right_id_L ∅ (∪)).
Qed.

Lemma register_klass_property_lookup w k a types name ann :
  NoDup (map fst (k_properties k)) → (name, ann) ∈ k_properties k →
  property_info (register_klass w k a types) (k_ref k) !! name
  = Some (new_SerializableProperty (library w) (qualified_name (k_ref k)) name ann).
Proof.
  intros Hnd Hin. rewrite register_klass_property_info by done.
  apply elem_of_list_to_map_1.
  - by rewrite <- list_fmap_compose.
  - apply list_elem_of_fmap. by exists (name, ann).
Qed.

(** X1.  [register_klass] rebuilds the property table of the class from
    the members of the class and from the overrides recorded before the
    call: whatever the table held before, it holds afterwards one
    [SerializableProperty] for each member and nothing else.  The class
    entry is the one of the serialization types given, with no custom
    name whatever the argument [a] is.  The tables of the other classes
    and the override tables are as before.  The names of the members
    are distinct, as [inspect.getmembers] gives them. *)
Theorem register_klass_builds_the_property_table
        (w : world) (k : klass) (a : option string)
        (types : list SerializationType) :
  let q := qualified_name (k_ref k) in
  let w' := register_klass w k a types in
  NoDup (map fst (k_properties k)) →
  property_info w' (k_ref k)
  = list_to_map
      (map (λ m, (m.1, new_SerializableProperty (library w) q m.1 m.2))
           (k_properties k))
  ∧ (∀ c', qualified_name c' ≠ q → property_info w' c' = property_info w c')
  ∧ klass_mappings (library w') !! q
    = Some (mkSerializableClass (cr_name (k_ref k)) None types)
  ∧ (∀ q', q' ≠ q →
           klass_mappings (library w') !! q' = klass_mappings (library w) !! q')
  ∧ same_overrides (library w) (library w').
Proof.
  intros q w' Hnd. split; [by apply register_klass_property_info|].
  destruct (register_klass_library w k a types) as (Hsame & Hk & Hp).
  fold q in Hk, Hp. fold w' in Hsame, Hk, Hp.
  split.
  { intros c' Hc'. unfold property_info. rewrite Hp. by rewrite decide_False. }
  rewrite Hk. split; [by rewrite lookup_insert_eq|].
  split; [|done]. intros q' Hq'. by rewrite lookup_insert_ne.
Qed.

(** X2.  After [register_klass] the class is found by
    [is_klass_serializable] under its qualified name, given as a string;
    every other name is found exactly when it was before. *)
Theorem is_klass_serializable_by_name
        (w : world) (k : klass) (a : option string)
        (types : list SerializationType) (s : string) :
  is_klass_serializable (library (register_klass w k a types)) (KlassName s)
  = bool_decide (s = qualified_name (k_ref k))
    || is_klass_serializable (library w) (KlassName s).
Proof.
  destruct (register_klass_library w k a types) as (_ & Hk & _).
  unfold is_klass_serializable, type_is_typing_Type, in_klass_mappings.
  rewrite Hk. destruct (decide (s = qualified_name (k_ref k))) as [->|Hs].
  - rewrite lookup_insert_eq. rewrite (bool_decide_true (_ = _)) by done.
    by rewrite bool_decide_true.
  - rewrite lookup_insert_ne by done. by rewrite (bool_decide_false (s = _)).
Qed.

Lemma register_custom_property_name_lookup l t q n q' :
  _klass_property_names (register_custom_property_name l t q n) !! q'
  = if decide (q' = q)
    then Some (<[t := n]> (default ∅ (_klass_property_names l !! q)))
    else _klass_property_names l !! q'.
Proof.
  unfold register_custom_property_name.
  destruct (_klass_property_names l !! q) as [names|] eqn:E; cbn;
    case_decide; simplify_eq; rewrite ?lookup_insert_eq, ?lookup_insert_ne by done;
    try done.
Qed.

Lemma register_custom_property_name_eq l t q n :
  register_custom_property_name l t q n
  = with_names l (<[q := <[t := n]> (default ∅ (_klass_property_names l !! q))]>
                    (_klass_property_names l)).
Proof.
  unfold register_custom_property_name.
  destruct (_klass_property_names l !! q); [done|].
  cbn [default]. by rewrite insert_empty.
Qed.

(** Registrations of names commute, unless they are for the same property
    and the same serialization type. *)
Lemma register_custom_property_name_commute l t t' q q' n n' :
  q ≠ q' ∨ t ≠ t' →
  register_custom_property_name (register_custom_property_name l t q n) t' q' n'
  = register_custom_property_name (register_custom_property_name l t' q' n') t q n.
Proof.
  intros Hne. rewrite !register_custom_property_name_eq. unfold with_names. cbn.
  f_equal. destruct (decide (q = q')) as [->|Hq].
  - destruct Hne as [?|Ht]; [done|].
    rewrite !lookup_insert_eq. cbn. rewrite !insert_insert_eq. f_equal.
    by apply insert_insert_ne.
  - rewrite !lookup_insert_ne by done. by apply insert_insert_ne.
Qed.

(** X3.  The JSON name and the XML name of a property are recorded side
    by side: registering one of them binds it, keeps the other as it was,
    and leaves the names of every other property alone; and the two
    registrations give the same library in either order. *)
Theorem json_and_xml_names_are_kept_apart
        (l : ObjectMetadataLibrary) (q jn xn : string) :
  let names (l : ObjectMetadataLibrary) (q : string) (t : SerializationType) :=
    _klass_property_names l !! q ≫= (λ m, m !! t) in
  let lj := register_custom_json_property_name l q jn in
  let lx := register_custom_xml_property_name l q xn in
  names lj q JSON = Some jn
  ∧ names lj q XML = names l q XML
  ∧ names lx q XML = Some xn
  ∧ names lx q JSON = names l q JSON
  ∧ (∀ q' t, q' ≠ q → names lj q' t = names l q' t ∧ names lx q' t = names l q' t)
  ∧ register_custom_xml_property_name lj q xn
    = register_custom_json_property_name lx q jn.
Proof.
  intros names lj lx. subst names lj lx.
  unfold register_custom_json_property_name, register_custom_xml_property_name.
  cbn beta. rewrite !register_custom_property_name_lookup.
  rewrite !decide_True by done. cbn.
  rewrite !lookup_insert_eq. rewrite !lookup_insert_ne by done.
  repeat split; try by destruct (_klass_property_names l !! q).
  - rewrite register_custom_property_name_lookup. by rewrite decide_False.
  - rewrite register_custom_property_name_lookup. by rewrite decide_False.
  - apply register_custom_property_name_commute. by right.
Qed.

(** X4.  A custom name registered after the class shows on the property
    of the class exactly when some custom name, for either serialization
    type, was recorded for that property before the class was
    registered: the property then holds the dictionary of the library
    itself, which the later registration updates in place; otherwise it
    holds an empty dictionary of its own. *)
Theorem custom_name_registered_after_the_class
        (w : world) (k : klass) (a : option string)
        (types : list SerializationType) (name : string) (ann : option pytype) :
  let qp := qualified_name (k_ref k) +:+ "." +:+ name in
  let w1 := register_klass w k a types in
  let had_names := bool_decide (is_Some (_klass_property_names (library w) !! qp)) in
  NoDup (map fst (k_properties k)) →
  (name, ann) ∈ k_properties k →
  ∃ p, property_info w1 (k_ref k) !! name = Some p
       ∧ (∀ jn, SerializableProperty_.custom_name
                  (register_custom_json_property_name (library w1) qp jn) p JSON
                = if had_names then Some jn else None)
       ∧ (∀ xn, SerializableProperty_.custom_name
                  (register_custom_xml_property_name (library w1) qp xn) p XML
                = if had_names then Some xn else None).
Proof.
  intros qp w1 had_names Hnd Hin. eexists. split.
  { by apply register_klass_property_lookup. }
  destruct (register_klass_library w k a types) as ((_ & _ & Hnames & _) & _ & _).
  fold w1 in Hnames.
  assert (H : ∀ t n,
             SerializableProperty_.custom_name
               (register_custom_property_name (library w1) t qp n)
               (new_SerializableProperty (library w) (qualified_name (k_ref k)) name ann) t
             = if had_names then Some n else None).
  { intros t n. unfold SerializableProperty_.custom_name,
      SerializableProperty_.custom_names, new_SerializableProperty.
    cbn [sp_custom_names]. fold qp. subst had_names.
    destruct (_klass_property_names (library w) !! qp) as [m|] eqn:E.
    - rewrite bool_decide_true by done.
      rewrite register_custom_property_name_lookup, decide_True by done.
      cbn. by rewrite lookup_insert_eq.
    - rewrite bool_decide_false by (by intros [? ?]). apply lookup_empty. }
  split; intros n; apply H.
Qed.

End Registry.

(** X1 at the class [Tag]. *)
Lemma register_klass_builds_the_property_table_witness :
  property_info (register_klass empty_world Sample.Tag None [JSON]) (k_ref Sample.Tag)
  = {[ "name" := mkSerializableProperty "name" FreshNames (Some TStr) None false None ]}.
Proof.
  refine (eq_trans
            (proj1 (register_klass_builds_the_property_table
                      empty_world Sample.Tag None [JSON] _)) _).
  - apply (bool_decide_unpack _). by vm_compute.
  - cbn [Sample.Tag Sample.shop_class k_properties map list_to_map foldr fst snd].
    by rewrite insert_empty.
Defined.

(** X4 at the property [name] of [Tag]: with an XML name recorded before
    the class is registered, a JSON name recorded afterwards shows on
    the property; with no name recorded before, it does not. *)
Lemma custom_name_registered_after_the_class_witness :
  let before := mkWorld (register_custom_xml_property_name
                           empty_library "shop.Tag.name" "label") ∅ in
  (∃ p, property_info (register_klass before Sample.Tag None [JSON]) (k_ref Sample.Tag)
        !! "name" = Some p
        ∧ SerializableProperty_.custom_name
            (register_custom_json_property_name
               (library (register_klass before Sample.Tag None [JSON]))
               "shop.Tag.name" "tag") p JSON = Some "tag")
  ∧ (∃ p, property_info (register_klass empty_world Sample.Tag None [JSON])
                        (k_ref Sample.Tag) !! "name" = Some p
          ∧ SerializableProperty_.custom_name
              (register_custom_json_property_name
                 (library (register_klass empty_world Sample.Tag None [JSON]))
                 "shop.Tag.name" "tag") p JSON = None).
Proof.
  intros before. split.
  - destruct (custom_name_registered_after_the_class
                before Sample.Tag None [JSON] "name" (Some TStr))
      as (p & Hp & Hj & _).
    + apply (bool_decide_unpack _). by vm_compute.
    + by left.
    + exists p. split; [exact Hp|]. exact (Hj "tag").
  - destruct (custom_name_registered_after_the_class
                empty_world Sample.Tag None [JSON] "name" (Some TStr))
      as (p & Hp & Hj & _).
    + apply (bool_decide_unpack _). by vm_compute.
    + by left.
    + exists p. split; [exact Hp|]. exact (Hj "tag").
Defined.

(** ** The decorators *)

Section Decorators.

Lemma decorated_function ds f l : (decorated ds f l).2 = f.
Proof.
  induction ds as [|d ds IH]; [done|]. cbn [decorated].
  destruct (decorated ds f l) as [l' f'] eqn:E. cbn in IH. subst f'.
  by destruct d.
Qed.

Lemma decorated_cons d ds f l :
  (decorated (d :: ds) f l).1 = (decorate d f (decorated ds f l).1).1.
Proof.
  cbn [decorated]. pose proof (decorated_function ds f l) as Hf.
  destruct (decorated ds f l) as [l' f']. cbn in *. by subst f'.
Qed.

(** Two decorators that are not the same one commute. *)
Lemma decorate_swap d1 d2 f l :
  kind_of d1 ≠ kind_of d2 →
  (decorate d1 f (decorate d2 f l).1).1 = (decorate d2 f (decorate d1 f l).1).1.
Proof.
  destruct d1, d2; try done; intros _;
    cbn [decorate type_mapping json_name xml_attribute xml_array xml_name fst];
    try reflexivity;
    unfold register_custom_json_property_name, register_custom_xml_property_name;
    try (apply register_custom_property_name_commute; by right);
    rewrite ?register_custom_property_name_eq; try reflexivity.
Qed.

Lemma decorated_permutation ds ds' f l :
  ds ≡ₚ ds' → NoDup (map kind_of ds) →
  (decorated ds f l).1 = (decorated ds' f l).1.
Proof.
  intros Hp. revert l.
  induction Hp as [|d ds ds' Hp IH|d1 d2 ds|ds1 ds2 ds3 H12 IH12 H23 IH23];
    intros l Hnd.
  - done.
  - rewrite !decorated_cons. rewrite IH; [done|].
    cbn in Hnd. by apply NoDup_cons in Hnd as [_ ?].
  - rewrite !decorated_cons. apply decorate_swap.
    cbn in Hnd. apply NoDup_cons in Hnd as [Hd _].
    intros Heq. apply Hd. rewrite Heq. by left.
  - rewrite IH12 by done. apply IH23.
    change (NoDup (kind_of <$> ds2)). rewrite <- H12. exact Hnd.
Qed.

(** X5.  The decorators of a getter may be stacked in any order: two
    stacks of the same decorator lines, none of the five decorators
    used twice, leave the same library and the same function. *)
Theorem decorators_may_be_stacked_in_any_order
        (ds ds' : list decorator) (f : function) (l : ObjectMetadataLibrary) :
  ds ≡ₚ ds' → NoDup (map kind_of ds) →
  decorated ds f l = decorated ds' f l.
Proof.
  intros Hp Hnd. apply injective_projections.
  - by apply decorated_permutation.
  - by rewrite !decorated_function.
Qed.

(** The qualified name a decorator builds for the getter of a property
    is the one [register_klass] builds for the property. *)
Lemma getter_qual_name (k : klass) (name : string) (f : function) :
  f_module f = cr_module (k_ref k) →
  f_qualname f = cr_qualname (k_ref k) +:+ "." +:+ name →
  function_qual_name f = qualified_name (k_ref k) +:+ "." +:+ name.
Proof.
  intros Hm Hq. unfold function_qual_name, qualified_name. rewrite Hm, Hq.
  by rewrite !append_assoc_.
Qed.

(** X6.  A property whose getter is decorated, in a class registered
    afterwards, carries what its decorators say: the custom type of
    [type_mapping], the names of [json_name] and [xml_name], the
    attribute flag of [xml_attribute] and the array configuration of
    [xml_array].  The getter is a function of the class body, named
    after the property, and none of the five decorators is used
    twice. *)
Theorem decorated_property_is_registered_with_its_overrides
        (w : world) (k : klass) (a : option string)
        (types : list SerializationType) (name : string) (ann : option pytype)
        (f : function) (ds : list decorator) :
  let l1 := (decorated ds f (library w)).1 in
  let w' := register_klass (mkWorld l1 (klass_attrs w)) k a types in
  NoDup (map fst (k_properties k)) →
  (name, ann) ∈ k_properties k →
  f_module f = cr_module (k_ref k) →
  f_qualname f = cr_qualname (k_ref k) +:+ "." +:+ name →
  NoDup (map kind_of ds) →
  ∃ p, property_info w' (k_ref k) !! name = Some p
       ∧ (∀ type_, At_type_mapping type_ ∈ ds → sp_custom_type p = Some type_)
       ∧ (∀ n, At_json_name n ∈ ds →
               SerializableProperty_.custom_name (library w') p JSON = Some n)
       ∧ (At_xml_attribute ∈ ds → sp_is_xml_attribute p = true)
       ∧ (∀ array_type child_name,
             At_xml_array array_type child_name ∈ ds →
             sp_xml_array_config p = Some (array_type, child_name))
       ∧ (∀ n, At_xml_name n ∈ ds →
               SerializableProperty_.custom_name (library w') p XML = Some n).
Proof.
  intros l1 w' Hnd Hin Hmod Hqual Hkinds.
  pose proof (getter_qual_name k name f Hmod Hqual) as Hqp.
  eexists. split.
  { by apply (register_klass_property_lookup (mkWorld l1 (klass_attrs w))). }
  destruct (register_klass_library (mkWorld l1 (klass_attrs w)) k a types)
    as ((_ & _ & Hnames & _) & _ & _).
  fold w' in Hnames. cbn [library] in Hnames |- *.
  assert (Htop : ∀ d, d ∈ ds → ∃ l0, l1 = (decorate d f l0).1).
  { intros d [ds' Hp]%elem_of_Permutation. subst l1.
    rewrite (decorated_permutation _ _ _ _ Hp Hkinds), decorated_cons. by eexists. }
  assert (Hcn : ∀ t n l0,
             l1 = register_custom_property_name l0 t (function_qual_name f) n →
             SerializableProperty_.custom_name (library w')
               (new_SerializableProperty l1 (qualified_name (k_ref k)) name ann) t
             = Some n).
  { intros t n l0 Hl1.
    unfold SerializableProperty_.custom_name, SerializableProperty_.custom_names,
      new_SerializableProperty. cbn [sp_custom_names].
    rewrite <- Hnames, <- Hqp. rewrite Hl1.
    rewrite !register_custom_property_name_lookup, !decide_True by done.
    rewrite register_custom_property_name_lookup, decide_True by done.
    cbn. by rewrite lookup_insert_eq. }
  clearbody l1. repeat split.
  - intros type_ [l0 ->]%Htop. unfold new_SerializableProperty.
    cbn [sp_custom_type]. rewrite <- Hqp. cbn. by rewrite lookup_insert_eq.
  - intros n [l0 Hl0]%Htop. by apply (Hcn JSON n l0).
  - intros [l0 ->]%Htop. unfold new_SerializableProperty.
    cbn [sp_is_xml_attribute]. rewrite <- Hqp. cbn.
    rewrite bool_decide_true; [done|set_solver].
  - intros array_type child_name [l0 ->]%Htop. unfold new_SerializableProperty.
    cbn [sp_xml_array_config]. rewrite <- Hqp. cbn. by rewrite lookup_insert_eq.
  - intros n [l0 Hl0]%Htop. by apply (Hcn XML n l0).
Qed.

End Decorators.

(** X5 at the getter of [Tag.name] under [@json_name] and
    [@xml_attribute]. *)
Lemma decorators_may_be_stacked_in_any_order_witness :
  decorated [At_json_name "label"; At_xml_attribute] Stock.name_getter empty_library
  = decorated [At_xml_attribute; At_json_name "label"] Stock.name_getter empty_library.
Proof.
  apply decorators_may_be_stacked_in_any_order.
  - apply perm_swap.
  - apply (bool_decide_unpack _). by vm_compute.
Defined.

(** X6 at the same getter, the class [Tag] registered afterwards. *)
Lemma decorated_property_is_registered_with_its_overrides_witness :
  let l1 := (decorated [At_json_name "label"; At_xml_attribute]
                       Stock.name_getter empty_library).1 in
  let w' := register_klass (mkWorld l1 ∅) Sample.Tag None _DEFAULT_SERIALIZATION_TYPES in
  ∃ p, property_info w' (k_ref Sample.Tag) !! "name" = Some p
       ∧ SerializableProperty_.custom_name (library w') p JSON = Some "label"
       ∧ sp_is_xml_attribute p = true.
Proof.
  intros l1 w'.
  destruct (decorated_property_is_registered_with_its_overrides
              empty_world Sample.Tag None _DEFAULT_SERIALIZATION_TYPES
              "name" (Some TStr) Stock.name_getter
              [At_json_name "label"; At_xml_attribute])
    as (p & Hp & _ & Hj & Ha & _).
  - apply (bool_decide_unpack _). by vm_compute.
  - by left.
  - reflexivity.
  - reflexivity.
  - apply (bool_decide_unpack _). by vm_compute.
  - exists p. split; [exact Hp|]. split.
    + apply Hj. by left.
    + apply Ha. right. by left.
Defined.

(** ** Loops and assignments *)

Section LoopLemmas.
Context {A B S : Type}.

Lemma for_each_ext (f g : S → A → result S) (xs : list A) (acc : S) :
  (∀ s x, x ∈ xs → f s x = g s x) → for_each f xs acc = for_each g xs acc.
Proof.
  revert acc. induction xs as [|x xs IH]; intros acc H; cbn [for_each]; [done|].
  rewrite H by by left. destruct (g acc x); [|done]. cbn.
  apply IH. intros s y Hy. apply H. by right.
Qed.

Lemma map_each_ext (f g : A → result B) (xs : list A) :
  (∀ x, x ∈ xs → f x = g x) → map_each f xs = map_each g xs.
Proof.
  induction xs as [|x xs IH]; intros H; cbn [map_each]; [done|].
  rewrite H by by left. rewrite IH; [done|]. intros y Hy. apply H. by right.
Qed.

Lemma for_each_map (m : B → A) (step : S → A → result S) (xs : list B) (acc : S) :
  for_each step (map m xs) acc = for_each (λ s x, step s (m x)) xs acc.
Proof.
  revert acc. induction xs as [|x xs IH]; intros acc; cbn [for_each map]; [done|].
  destruct (step acc (m x)); [|done]. cbn. apply IH.
Qed.

(** Turns that leave the state as it is can be left out. *)
Lemma for_each_filter (keep : A → bool) (f : S → A → result S)
      (xs : list A) (acc : S) :
  (∀ s x, x ∈ xs → keep x = false → f s x = Ok s) →
  for_each f xs acc = for_each f (filter keep xs) acc.
Proof.
  revert acc. induction xs as [|x xs IH]; intros acc H; [done|].
  destruct (keep x) eqn:E.
  - rewrite filter_cons_True by (by apply Is_true_eq_left). cbn [for_each].
    destruct (f acc x); [|done]. cbn. apply IH.
    intros s y Hy. apply H. by right.
  - rewrite filter_cons_False by (rewrite E; exact id). cbn [for_each].
    rewrite H by (done || by left). cbn. apply IH.
    intros s y Hy. apply H. by right.
Qed.

Lemma fold_left_filter (keep : A → bool) (f : S → A → S)
      (xs : list A) (acc : S) :
  (∀ s x, keep x = false → f s x = s) →
  fold_left f xs acc = fold_left f (filter keep xs) acc.
Proof.
  intros H. revert acc. induction xs as [|x xs IH]; intros acc; [done|].
  destruct (keep x) eqn:E.
  - rewrite filter_cons_True by (by apply Is_true_eq_left). cbn [fold_left]. apply IH.
  - rewrite filter_cons_False by (rewrite E; exact id). cbn [fold_left].
    rewrite H by done. apply IH.
Qed.

End LoopLemmas.

Lemma filter_bool_elem {A} (keep : A → bool) (xs : list A) (x : A) :
  x ∈ filter keep xs ↔ x ∈ xs ∧ keep x = true.
Proof.
  rewrite list_elem_of_filter. split; intros [H1 H2]; split; try done.
  - by apply Is_true_eq_true.
  - by apply Is_true_eq_left.
Qed.

Section DictAssignments.
Context {A V : Type}.
Implicit Types (d : PyDict.t V) (k : string) (v : V).

(** A loop whose turns assign to names that are new and distinct appends
    the assignments in the order of the turns. *)
Lemma for_each_set_fresh (step : PyDict.t V → A → result (PyDict.t V))
      (f : A → string) (g : A → V) (xs : list A) (acc : PyDict.t V) :
  (∀ d x, x ∈ xs → step d x = Ok (PyDict.set (f x) (g x) d)) →
  NoDup (map f xs) →
  (∀ x, x ∈ xs → f x ∉ PyDict.keys acc) →
  for_each step xs acc = Ok (acc ++ map (λ x, (f x, g x)) xs)%list.
Proof.
  revert acc. induction xs as [|x xs IH]; intros acc Hstep Hnd Hacc;
    cbn [for_each map].
  - by rewrite app_nil_r.
  - apply NoDup_cons in Hnd as [Hx Hnd].
    rewrite Hstep by by left. cbn [mbind result_bind].
    rewrite set_fresh by (apply Hacc; by left).
    rewrite IH; [by rewrite <- app_assoc| |done|].
    + intros d y Hy. apply Hstep. by right.
    + intros y Hy. rewrite keys_app. cbn. rewrite elem_of_app, list_elem_of_singleton.
      intros [Hin| Heq].
      * eapply Hacc; [by right|done].
      * apply Hx. rewrite <- Heq. apply list_elem_of_fmap. by exists y.
Qed.

Lemma fold_left_set_fresh (step : PyDict.t V → A → PyDict.t V)
      (f : A → string) (g : A → V) (xs : list A) (acc : PyDict.t V) :
  (∀ d x, x ∈ xs → step d x = PyDict.set (f x) (g x) d) →
  NoDup (map f xs) →
  (∀ x, x ∈ xs → f x ∉ PyDict.keys acc) →
  fold_left step xs acc = (acc ++ map (λ x, (f x, g x)) xs)%list.
Proof.
  revert acc. induction xs as [|x xs IH]; intros acc Hstep Hnd Hacc;
    cbn [fold_left map].
  - by rewrite app_nil_r.
  - apply NoDup_cons in Hnd as [Hx Hnd].
    rewrite Hstep by by left.
    rewrite set_fresh by (apply Hacc; by left).
    rewrite IH; [by rewrite <- app_assoc| |done|].
    + intros d y Hy. apply Hstep. by right.
    + intros y Hy. rewrite keys_app. cbn. rewrite elem_of_app, list_elem_of_singleton.
      intros [Hin| Heq].
      * eapply Hacc; [by right|done].
      * apply Hx. rewrite <- Heq. apply list_elem_of_fmap. by exists y.
Qed.

(** A loop whose turns all assign to the same name leaves the value of
    the last turn. *)
Lemma for_each_set_last (step : PyDict.t V → A → result (PyDict.t V))
      (name : string) (g : A → V) (front : list A) (last : A) (d : PyDict.t V) :
  (∀ d x, x ∈ (front ++ [last])%list → step d x = Ok (PyDict.set name (g x) d)) →
  for_each step (front ++ [last])%list d = Ok (PyDict.set name (g last) d).
Proof.
  revert d. induction front as [|x front IH]; intros d Hstep; cbn [app for_each].
  - rewrite Hstep; [done|]. by left.
  - rewrite Hstep by by left. cbn [mbind result_bind].
    rewrite IH; [by rewrite set_set|]. intros d' y Hy. apply Hstep. by right.
Qed.

End DictAssignments.

(** A loop whose turns append one element each. *)
Lemma for_each_append_child {A} (step : xml_state → A → result xml_state)
      (h : A → Element) (xs : list A) (st : xml_state) :
  (∀ s x, x ∈ xs → step s x = Ok (append_child s (h x))) →
  for_each step xs st = Ok (st.1, (st.2 ++ map h xs)%list).
Proof.
  revert st. induction xs as [|x xs IH]; intros st Hstep; cbn [for_each map].
  - rewrite app_nil_r. by destruct st.
  - rewrite Hstep by by left. cbn [mbind result_bind].
    rewrite IH by (intros s y Hy; apply Hstep; by right).
    unfold append_child. cbn [fst snd]. by rewrite <- app_assoc.
Qed.

(** ** The encoders *)

Section Encoders.
Variable formatter : Formatter.
Variable klasses : gmap string klass.
Variable str_other : pyval → string.

Abbreviation _as_xml_ := (_as_xml formatter klasses str_other).
Abbreviation as_xml_ := (as_xml formatter klasses str_other).
Abbreviation default_ := (DefaultJsonEncoder_default formatter klasses).
Abbreviation json_dumps_ := (json_dumps formatter klasses).

Lemma default_item_invisible w info d kv :
  visible kv = false → default_item formatter klasses w info d kv = Ok d.
Proof.
  destruct kv as [k v]. unfold visible, default_item. cbn [fst snd].
  destruct v; try done; intros ->%negb_false_iff; done.
Qed.

Lemma _as_xml_element_invisible call w info st kv :
  visible kv = false →
  _as_xml_element formatter str_other call w info st kv = Ok st.
Proof.
  destruct kv as [k v]. unfold visible, _as_xml_element. cbn [fst snd].
  destruct v; try done; intros ->%negb_false_iff; done.
Qed.

Lemma as_xml_element_invisible call w cls st kv :
  visible kv = false →
  as_xml_element formatter klasses str_other call w cls st kv = Ok st.
Proof.
  destruct kv as [k v]. unfold visible, as_xml_element. cbn [fst snd].
  destruct v; try done; intros ->%negb_false_iff; done.
Qed.

Lemma _as_xml_attribute_private w info acc kv :
  public kv = false → _as_xml_attribute formatter str_other w info acc kv = acc.
Proof.
  destruct kv as [k v]. unfold public, _as_xml_attribute, _as_xml_attribute_name.
  cbn [fst]. by intros ->%negb_false_iff.
Qed.

Lemma as_xml_attribute_private cls acc kv :
  public kv = false → as_xml_attribute formatter str_other cls acc kv = acc.
Proof.
  destruct kv as [k v]. unfold public, as_xml_attribute, as_xml_attribute_name.
  cbn [fst]. by intros ->%negb_false_iff.
Qed.

Lemma visible_public kv : public kv = false → visible kv = false.
Proof. unfold visible, public. intros ->. by destruct (kv.2). Qed.

(** X8.  The attributes of an instance that are [None] or private (a
    key that, without its first character, starts with an underscore or
    holds a double underscore) have no part in what [default] and
    [json.dumps] write, and the private ones have no part in what
    [_as_xml] and [XmlSerializableObject.as_xml] write: the result, error
    or not, is that for the instance without them. *)
Theorem encoders_skip_None_and_private_attributes
        (w : world) (c : class_ref) (dict : list (string * pyval)) :
  default_ w (VObj c dict) = default_ w (VObj c (filter visible dict))
  ∧ (∀ n, json_dumps_ n w (VObj c dict) = json_dumps_ n w (VObj c (filter visible dict)))
  ∧ (∀ fuel element_name,
        _as_xml_ fuel w (VObj c dict) element_name
        = _as_xml_ fuel w (VObj c (filter public dict)) element_name)
  ∧ (∀ fuel element_name,
        as_xml_ fuel w (VObj c dict) element_name
        = as_xml_ fuel w (VObj c (filter public dict)) element_name).
Proof.
  assert (Hd : default_ w (VObj c dict) = default_ w (VObj c (filter visible dict))).
  { cbn [DefaultJsonEncoder_default].
    rewrite (for_each_filter visible); [done|].
    intros. by apply default_item_invisible. }
  split; [done|]. split; [|split].
  - intros [|n]; [done|]. cbn [json_dumps]. by rewrite Hd.
  - intros fuel en. unfold _as_xml, _as_xml_body, _as_xml_attributes.
    rewrite (fold_left_filter public)
      by (intros; by apply _as_xml_attribute_private).
    rewrite (for_each_filter public); [done|].
    intros. by apply _as_xml_element_invisible, visible_public.
  - intros fuel en. unfold as_xml, as_xml_body, as_xml_attributes.
    destruct (klasses !! qualified_name c) as [cls|]; [|done].
    rewrite (fold_left_filter public)
      by (intros; by apply as_xml_attribute_private).
    rewrite (for_each_filter public); [done|].
    intros. by apply as_xml_element_invisible, visible_public.
Qed.

(** X9.  For an instance of a class with no property table in the
    library (a class that was never registered, or one without
    properties) [_as_xml] writes an element with no attribute, no text
    and no child, whatever the instance holds, where [default] writes
    every attribute that is neither [None] nor private, under the
    encoded key. *)
Theorem class_without_property_table_is_written_empty_as_xml
        (w : world) (c : class_ref) (dict : list (string * pyval)) :
  property_info w c = ∅ →
  (∀ fuel element_name,
      _as_xml_ fuel w (VObj c dict) element_name
      = Ok (mkElement (root_tag formatter c element_name) [] None []))
  ∧ default_ w (VObj c dict)
    = Ok (VDict (fold_left
                   (λ d kv, PyDict.set (encode formatter (PyStr.tail1 kv.1)) kv.2 d)
                   (filter visible dict) [])).
Proof.
  intros Hinfo. split.
  - intros fuel en. unfold _as_xml, _as_xml_body, _as_xml_attributes. rewrite Hinfo.
    assert (Ha : ∀ acc, fold_left (_as_xml_attribute formatter str_other w ∅) dict acc = acc).
    { induction dict as [|[k v] dict IH]; intros acc; cbn [fold_left]; [done|].
      rewrite IH. unfold _as_xml_attribute, _as_xml_attribute_name.
      rewrite lookup_empty. by destruct (skipped_key _). }
    assert (He : ∀ st, for_each (_as_xml_element formatter str_other
                                   (call_as_xml formatter klasses str_other fuel w)
                                   w ∅) dict st = Ok st).
    { clear Ha. induction dict as [|[k v] dict IH]; intros st; cbn [for_each]; [done|].
      assert (Hturn : _as_xml_element formatter str_other
                        (call_as_xml formatter klasses str_other fuel w) w ∅ st (k, v)
                      = Ok st).
      { unfold _as_xml_element. rewrite lookup_empty.
        destruct v; try done; by destruct (skipped_key _). }
      rewrite Hturn. cbn. apply IH. }
    by rewrite Ha, He.
  - cbn [DefaultJsonEncoder_default]. rewrite Hinfo.
    rewrite (for_each_filter visible)
      by (intros; by apply default_item_invisible).
    assert (Hloop : ∀ xs acc,
               (∀ x, x ∈ xs → visible x = true) →
               for_each (default_item formatter klasses w ∅) xs acc
               = Ok (fold_left
                       (λ d kv, PyDict.set (encode formatter (PyStr.tail1 kv.1)) kv.2 d)
                       xs acc)).
    { induction xs as [|[k v] xs IH]; intros acc Hxs; cbn [for_each fold_left]; [done|].
      assert (Hturn : default_item formatter klasses w ∅ acc (k, v)
                      = Ok (PyDict.set (encode formatter (PyStr.tail1 k)) v acc)).
      { specialize (Hxs (k, v) ltac:(by left)). revert Hxs.
        unfold default_item, visible. cbn [fst snd]. rewrite lookup_empty.
        destruct v; try done; by intros ->%negb_true_iff. }
      rewrite Hturn. cbn. apply IH. intros x Hx. apply Hxs. by right. }
    rewrite Hloop; [done|].
    intros x Hx. by apply filter_bool_elem in Hx as [_ ?].
Qed.

Lemma same_view_property_info w w' c :
  same_view w w' → property_info w c = property_info w' c.
Proof. intros (_ & H & _). unfold property_info. by rewrite H. Qed.

Lemma same_view_custom_names w w' p :
  same_view w w' →
  SerializableProperty_.custom_names (library w) p
  = SerializableProperty_.custom_names (library w') p.
Proof.
  intros (_ & _ & H). unfold SerializableProperty_.custom_names. by rewrite H.
Qed.

Lemma same_view_class_getattr w w' c attr :
  same_view w w' → class_getattr klasses w c attr = class_getattr klasses w' c attr.
Proof. intros (H & _ & _). unfold class_getattr. by rewrite H. Qed.

Lemma same_view__as_xml_element call call' w w' info st kv :
  same_view w w' → (∀ x en, call x en = call' x en) →
  _as_xml_element formatter str_other call w info st kv
  = _as_xml_element formatter str_other call' w' info st kv.
Proof.
  intros Hv Hcall. destruct kv as [k v].
  assert (Hname : ∀ p key, xml_name_of w p key = xml_name_of w' p key).
  { intros p key. unfold xml_name_of. by rewrite (same_view_custom_names w w'). }
  assert (Hitem : ∀ p nk items,
             map_each (_as_xml_array_item str_other call p nk) items
             = map_each (_as_xml_array_item str_other call' p nk) items).
  { intros p nk items. apply map_each_ext. intros j _.
    unfold _as_xml_array_item. unfold mbind, result_bind.
    repeat (rewrite ?Hcall; first [done | case_match]). }
  unfold _as_xml_element.
  destruct v; try reflexivity;
    (destruct (skipped_key _); [reflexivity|];
     destruct (info !! _) as [p|]; [|reflexivity];
     destruct (sp_is_xml_attribute p); [reflexivity|];
     rewrite Hname;
     destruct (String.eqb _ "."); [reflexivity|];
     destruct (sp_custom_type p) as [ct|]; [reflexivity|];
     destruct (SerializableProperty_.is_array p) as [[]|]; cbn [mbind result_bind];
     [ destruct (sp_xml_array_config p) as [[t nk]|]; [|reflexivity];
       destruct (iterate _); cbn [mbind result_bind]; [|reflexivity];
       rewrite Hitem; reflexivity
     | destruct (SerializableProperty_.is_enum p) as [[]|];
       cbn [mbind result_bind]; try reflexivity;
       destruct (SerializableProperty_.is_primitive_type p) as [[]|];
       cbn [mbind result_bind negb]; try reflexivity;
       rewrite Hcall; reflexivity
     | reflexivity ]).
Qed.

Lemma same_view__as_xml_body call call' w w' self en :
  same_view w w' → (∀ x en, call x en = call' x en) →
  _as_xml_body formatter str_other call w self en
  = _as_xml_body formatter str_other call' w' self en.
Proof.
  intros Hv Hcall. destruct self; try done. unfold _as_xml_body, _as_xml_attributes.
  rewrite <- (same_view_property_info w w') by done.
  assert (Ha : ∀ acc kv,
             _as_xml_attribute formatter str_other w (property_info w cls) acc kv
             = _as_xml_attribute formatter str_other w' (property_info w cls) acc kv).
  { intros acc [k v]. unfold _as_xml_attribute, _as_xml_attribute_name, xml_name_of.
    destruct (skipped_key _); [done|].
    destruct (property_info w cls !! _) as [p|]; [|done].
    by rewrite (same_view_custom_names w w'). }
  assert (Hf : ∀ xs acc,
             fold_left (_as_xml_attribute formatter str_other w (property_info w cls)) xs acc
             = fold_left (_as_xml_attribute formatter str_other w' (property_info w cls)) xs acc).
  { induction xs as [|x xs IH]; intros acc; cbn [fold_left]; [done|].
    by rewrite Ha, IH. }
  rewrite Hf.
  rewrite (for_each_ext _ (_as_xml_element formatter str_other call' w' (property_info w cls)));
    [done|].
  intros. by apply same_view__as_xml_element.
Qed.

Lemma same_view_as_xml_sub_element call call' w w' cls st new_key v :
  same_view w w' → (∀ x en, call x en = call' x en) →
  as_xml_sub_element formatter klasses str_other call w cls st new_key v
  = as_xml_sub_element formatter klasses str_other call' w' cls st new_key v.
Proof.
  intros Hv Hcall.
  assert (Hitem : ∀ ik items,
             map_each (as_xml_array_item klasses str_other call w ik) items
             = map_each (as_xml_array_item klasses str_other call' w' ik) items).
  { intros ik items. apply map_each_ext. intros j _.
    unfold as_xml_array_item. destruct j; try done.
    rewrite (same_view_class_getattr w w') by done. by rewrite Hcall. }
  unfold as_xml_sub_element.
  destruct (PyDict.get new_key (get_property_data_class_mappings cls)) as [ks|].
  - unfold any_getattr. destruct ks; try done.
    rewrite (same_view_class_getattr w w') by done. by rewrite Hcall.
  - destruct v; try done;
      (destruct (PyDict.get new_key (get_array_property_configuration cls))
        as [[[[] nk] a]|]; by rewrite Hitem).
Qed.

Lemma same_view_as_xml_body call call' w w' self en :
  same_view w w' → (∀ x en, call x en = call' x en) →
  as_xml_body formatter klasses str_other call w self en
  = as_xml_body formatter klasses str_other call' w' self en.
Proof.
  intros Hv Hcall. destruct self; try done. unfold as_xml_body.
  destruct (klasses !! qualified_name cls) as [k|]; [|done].
  rewrite (for_each_ext _ (as_xml_element formatter klasses str_other call' w' k));
    [done|].
  intros st [key v] _. unfold as_xml_element.
  destruct v; try done;
    (destruct (skipped_key _); [done|];
     destruct (str_in _ _); [done|];
     destruct (PyDict.get _ (get_property_key_mappings k)) as [mapped|];
     [destruct (String.eqb mapped "."); [done|]|];
     by apply same_view_as_xml_sub_element).
Qed.

Lemma same_view_call_as_xml fuel w w' x en :
  same_view w w' →
  call_as_xml formatter klasses str_other fuel w x en
  = call_as_xml formatter klasses str_other fuel w' x en.
Proof.
  intros Hv. revert x en. induction fuel as [|n IH]; intros x en; [done|].
  cbn [call_as_xml]. destruct x; try done.
  rewrite (same_view_class_getattr w w') by done.
  destruct (class_getattr klasses w' cls "as_xml") as [[]|]; try done.
  - by apply same_view__as_xml_body.
  - by apply same_view_as_xml_body.
Qed.

Lemma same_view_default w w' o :
  same_view w w' → default_ w o = default_ w' o.
Proof.
  intros Hv. destruct o; try done. cbn [DefaultJsonEncoder_default].
  rewrite <- (same_view_property_info w w') by done.
  rewrite (for_each_ext _ (default_item formatter klasses w' (property_info w cls)));
    [done|].
  intros d [k v] _. unfold default_item, SerializableProperty_.custom_name.
  destruct v; try done; destruct (skipped_key _); try done;
    destruct (property_info w cls !! _); try done;
    by rewrite (same_view_custom_names w w').
Qed.

Lemma same_view_json_dumps n w w' v :
  same_view w w' → json_dumps_ n w v = json_dumps_ n w' v.
Proof.
  intros Hv. revert v. induction n as [|n IH]; intros v; [done|].
  cbn [json_dumps].
  destruct v; try done;
    rewrite ?(same_view_default w w') by done;
    try (destruct (default_ w' _); [cbn; apply IH | done]).
  - rewrite (map_each_ext _ (json_dumps_ n w')); [done|]. intros; apply IH.
  - rewrite (map_each_ext _ (λ kv : string * pyval,
                               j ← json_dumps_ n w' kv.2; Ok (kv.1, j))); [done|].
    intros kv _. by rewrite IH.
Qed.

(** X7.  An attribute flag, an array configuration or a type mapping
    recorded in the library after the classes were registered changes
    nothing in what [_as_xml], [XmlSerializableObject.as_xml] and
    [_as_json] write for any value, error or not: the properties built
    by [register_klass] hold the flag, the configuration and the type
    found at that time. *)
Theorem overrides_registered_after_the_class_do_not_reach_the_encoders
        (l : ObjectMetadataLibrary) (attrs : gmap string (gmap string method))
        (qual_name : string) (array_type : XmlArraySerializationType)
        (child_name : string) (mapped_type : any_serializable)
        (l' : ObjectMetadataLibrary) :
  l' = register_xml_property_attribute l qual_name
  ∨ l' = register_xml_property_array_config l qual_name array_type child_name
  ∨ l' = register_property_type_mapping l qual_name mapped_type →
  ∀ fuel o element_name,
    _as_xml_ fuel (mkWorld l' attrs) o element_name
    = _as_xml_ fuel (mkWorld l attrs) o element_name
    ∧ as_xml_ fuel (mkWorld l' attrs) o element_name
      = as_xml_ fuel (mkWorld l attrs) o element_name
    ∧ _as_json formatter klasses fuel (mkWorld l' attrs) o
      = _as_json formatter klasses fuel (mkWorld l attrs) o.
Proof.
  intros Hl' fuel o en.
  assert (Hv : same_view (mkWorld l' attrs) (mkWorld l attrs)).
  { by destruct Hl' as [->|[->| ->]]. }
  split; [|split].
  - apply same_view__as_xml_body; [done|]. intros. by apply same_view_call_as_xml.
  - apply same_view_as_xml_body; [done|]. intros. by apply same_view_call_as_xml.
  - by apply same_view_json_dumps.
Qed.

Lemma _as_xml_attribute_name_of_element w info k p :
  skipped_key (PyStr.tail1 k) = false →
  info !! PyStr.tail1 k = Some p →
  sp_is_xml_attribute p = false →
  _as_xml_attribute_name formatter w info k = None.
Proof.
  intros Hskip Hinfo Hattr. unfold _as_xml_attribute_name.
  by rewrite Hskip, Hinfo, Hattr.
Qed.

(** X11.  [_as_xml] raises for an instance with a value, other than
    [None], of a registered property whose getter has no return
    annotation, unless the property is an attribute, is mapped to the
    text of the element or has a custom type: the turn of the property
    raises the [AttributeError] of [None.__name__].  [default] writes the
    same property without looking at the annotation. *)
Theorem _as_xml_raises_for_a_property_without_annotation
        (fuel : nat) (w : world) (c : class_ref)
        (pre post : list (string * pyval)) (k : string) (v : pyval)
        (p : SerializableProperty) (element_name : option string) :
  let info := property_info w c in
  v ≠ VNone →
  skipped_key (PyStr.tail1 k) = false →
  info !! PyStr.tail1 k = Some p →
  sp_type_ p = None →
  sp_custom_type p = None →
  sp_is_xml_attribute p = false →
  xml_name_of w p (PyStr.tail1 k) ≠ "." →
  raises (_as_xml_ fuel w (VObj c (pre ++ (k, v) :: post)%list) element_name)
  ∧ (∀ call st,
        _as_xml_element formatter str_other call w info st (k, v)
        = Raise (AttributeError "__name__"))
  ∧ (∀ d, default_item formatter klasses w info d (k, v)
          = Ok (PyDict.set (json_wire_name formatter w c (PyStr.tail1 k)) v d)).
Proof.
  intros info Hv Hskip Hinfo Hty Hct Hattr Hdot.
  assert (Hturn : ∀ call st,
             _as_xml_element formatter str_other call w info st (k, v)
             = Raise (AttributeError "__name__")).
  { intros call st. unfold _as_xml_element. rewrite Hskip, Hinfo, Hattr.
    apply String.eqb_neq in Hdot. rewrite Hdot, Hct.
    unfold SerializableProperty_.is_array, SerializableProperty_.is_optional,
      SerializableProperty_.type__name. rewrite Hty. by destruct v. }
  split; [|split; [done|]].
  - unfold _as_xml, _as_xml_body.
    destruct (for_each_raises
                (_as_xml_element formatter str_other
                   (call_as_xml formatter klasses str_other fuel w) w info)
                pre post (k, v) (None, [])) as [e He].
    { intros st. rewrite Hturn. by eexists. }
    fold info. rewrite He. by exists e.
  - intros d. unfold default_item, json_wire_name. fold info.
    rewrite Hskip, Hinfo, Hct. by destruct v.
Qed.

(** The turn of the second loop of [_as_xml] for an array property with
    an array configuration and items of a primitive type. *)
Lemma _as_xml_element_iterable call w info st k v items p array_type nested_key t :
  let new_key := encode formatter (xml_name_of w p (PyStr.tail1 k)) in
  let es := map (λ j, text_element nested_key (primitive_text str_other t j)) items in
  v ≠ VNone →
  iterate v = Ok items →
  skipped_key (PyStr.tail1 k) = false →
  info !! PyStr.tail1 k = Some p →
  sp_is_xml_attribute p = false →
  xml_name_of w p (PyStr.tail1 k) ≠ "." →
  sp_custom_type p = None →
  SerializableProperty_.is_array p = Ok true →
  sp_xml_array_config p = Some (array_type, nested_key) →
  SerializableProperty_.concrete_type p = Ok t →
  t ∈ SerializableProperty_._PRIMITIVE_TYPES →
  _as_xml_element formatter str_other call w info st (k, v)
  = Ok (match array_type with
        | NESTED => append_child st (mkElement new_key [] None es)
        | FLAT => (st.1, (st.2 ++ es)%list)
        end).
Proof.
  intros new_key es Hv Hit Hskip Hinfo Hattr Hdot Hct Harr Hcfg Ht Hprim.
  unfold _as_xml_element. rewrite Hskip, Hinfo, Hattr.
  apply String.eqb_neq in Hdot. rewrite Hdot, Hct, Harr.
  cbn [mbind result_bind]. rewrite Hcfg, Hit. cbn [mbind result_bind].
  rewrite (_as_xml_array_items_primitive str_other call p nested_key t items Ht Hprim).
  cbn [mbind result_bind]. destruct v; try done; by destruct array_type.
Qed.

(** X12.  For an instance whose one attribute is an array property with
    an array configuration and items of a primitive type, [_as_xml]
    returns the element of the class with, when the configuration is
    [NESTED], one child named by the wire name of the property that holds
    one child per item, and, when it is [FLAT], one child per item; the
    items are tagged with the child name of the configuration, in the
    order of the iteration, and their text is [str] of the item, in
    lower case for [bool] items. *)
Theorem _as_xml_of_an_array_property
        (fuel : nat) (w : world) (c : class_ref) (k : string) (v : pyval)
        (items : list pyval) (p : SerializableProperty)
        (array_type : XmlArraySerializationType) (nested_key : string)
        (t : pytype) (element_name : option string) :
  let new_key := encode formatter (xml_name_of w p (PyStr.tail1 k)) in
  let es := map (λ j, text_element nested_key (primitive_text str_other t j)) items in
  v ≠ VNone →
  iterate v = Ok items →
  skipped_key (PyStr.tail1 k) = false →
  property_info w c !! PyStr.tail1 k = Some p →
  sp_is_xml_attribute p = false →
  xml_name_of w p (PyStr.tail1 k) ≠ "." →
  sp_custom_type p = None →
  SerializableProperty_.is_array p = Ok true →
  sp_xml_array_config p = Some (array_type, nested_key) →
  SerializableProperty_.concrete_type p = Ok t →
  t ∈ SerializableProperty_._PRIMITIVE_TYPES →
  _as_xml_ fuel w (VObj c [(k, v)]) element_name
  = Ok (mkElement (root_tag formatter c element_name) [] None
          (match array_type with
           | NESTED => [mkElement new_key [] None es]
           | FLAT => es
           end)).
Proof.
  intros new_key es Hv Hit Hskip Hinfo Hattr Hdot Hct Harr Hcfg Ht Hprim.
  unfold _as_xml, _as_xml_body, _as_xml_attributes. cbn [fold_left for_each].
  unfold _as_xml_attribute.
  rewrite (_as_xml_attribute_name_of_element w _ k p) by done.
  rewrite (_as_xml_element_iterable _ w _ _ k v items p array_type nested_key t)
    by done.
  cbn [mbind result_bind]. by destruct array_type.
Qed.

(** X13.  For an instance whose one attribute is a property annotated
    with a primitive type, [_as_xml] returns the element of the class
    with one child, named by the wire name of the property, whose text
    is [str] of the value, in lower case when the annotation is
    [bool]. *)
Theorem _as_xml_of_a_primitive_property
        (fuel : nat) (w : world) (c : class_ref) (k : string) (v : pyval)
        (p : SerializableProperty) (t : pytype) (element_name : option string) :
  let new_key := encode formatter (xml_name_of w p (PyStr.tail1 k)) in
  v ≠ VNone →
  skipped_key (PyStr.tail1 k) = false →
  property_info w c !! PyStr.tail1 k = Some p →
  sp_is_xml_attribute p = false →
  xml_name_of w p (PyStr.tail1 k) ≠ "." →
  sp_custom_type p = None →
  sp_type_ p = Some t →
  t ∈ SerializableProperty_._PRIMITIVE_TYPES →
  _as_xml_ fuel w (VObj c [(k, v)]) element_name
  = Ok (mkElement (root_tag formatter c element_name) [] None
          [text_element new_key
             (if bool_decide (t = TBool) then PyStr.lower (py_str str_other v)
              else py_str str_other v)]).
Proof.
  intros new_key Hv Hskip Hinfo Hattr Hdot Hct Ht Hprim.
  unfold _as_xml, _as_xml_body, _as_xml_attributes. cbn [fold_left for_each].
  unfold _as_xml_attribute.
  rewrite (_as_xml_attribute_name_of_element w _ k p) by done.
  by rewrite (_as_xml_element_primitive formatter str_other _ w _ _ k v p t).
Qed.

End Encoders.

(** X9 at an instance of [Tag] in a world where nothing is registered. *)
Lemma class_without_property_table_is_written_empty_as_xml_witness :
  _as_xml Sample.plain Sample.klasses Sample.no_str 1 empty_world
          (VObj (k_ref Sample.Tag) [("_name", VStr "x")]) None
  = Ok (mkElement "Tag" [] None [])
  ∧ DefaultJsonEncoder_default Sample.plain Sample.klasses empty_world
                               (VObj (k_ref Sample.Tag) [("_name", VStr "x")])
    = Ok (VDict [("name", VStr "x")]).
Proof.
  destruct (class_without_property_table_is_written_empty_as_xml
              Sample.plain Sample.klasses Sample.no_str empty_world
              (k_ref Sample.Tag) [("_name", VStr "x")]) as [Hxml Hjson].
  - reflexivity.
  - split; [exact (Hxml 1 None) | exact Hjson].
Defined.

(** X7 at the class [Tag] registered with [name] as an attribute, and the
    attribute flag of another property recorded afterwards. *)
Lemma overrides_registered_after_the_class_do_not_reach_the_encoders_witness :
  let l := library Sample.tag_world in
  let attrs := klass_attrs Sample.tag_world in
  let o := VObj (k_ref Sample.Tag) [("_name", VStr "x")] in
  _as_xml Sample.plain Sample.klasses Sample.no_str 1
          (mkWorld (register_xml_property_attribute l "shop.Tag.size") attrs) o None
  = _as_xml Sample.plain Sample.klasses Sample.no_str 1 (mkWorld l attrs) o None.
Proof.
  intros l attrs o.
  refine (proj1 (overrides_registered_after_the_class_do_not_reach_the_encoders
                   Sample.plain Sample.klasses Sample.no_str l attrs
                   "shop.Tag.size" FLAT "" Sample.int_
                   (register_xml_property_attribute l "shop.Tag.size")
                   _ 1 o None)).
  left. reflexivity.
Defined.

(** X11 at the class [Memo], whose getter [note] has no return
    annotation. *)
Lemma _as_xml_raises_for_a_property_without_annotation_witness :
  _as_xml_element Sample.plain Sample.no_str
                  (call_as_xml Sample.plain Stock.klasses Sample.no_str 0 Stock.memo_world)
                  Stock.memo_world
                  (property_info Stock.memo_world (k_ref Stock.Memo))
                  (None, []) ("_note", VStr "x")
  = Raise (AttributeError "__name__").
Proof.
  refine (proj1 (proj2 (_as_xml_raises_for_a_property_without_annotation
                          Sample.plain Stock.klasses Sample.no_str 1 Stock.memo_world
                          (k_ref Stock.Memo) [] [] "_note" (VStr "x")
                          (mkSerializableProperty "note" FreshNames None None false None)
                          None _ _ _ _ _ _ _)) _ _);
    try (vm_compute; reflexivity); discriminate.
Defined.

(** X12 at a [Basket] of three items, configured [NESTED]. *)
Lemma _as_xml_of_an_array_property_witness :
  _as_xml Sample.plain Sample.klasses Sample.no_str 1 (Sample.basket_world NESTED)
          (VObj (k_ref Sample.Basket) [("_items", Sample.three)]) None
  = Ok (mkElement "Basket" [] None
          [mkElement "items" [] None
             [Sample.item "item" "1"; Sample.item "item" "2"; Sample.item "item" "3"]]).
Proof.
  refine (_as_xml_of_an_array_property
            Sample.plain Sample.klasses Sample.no_str 1 (Sample.basket_world NESTED)
            (k_ref Sample.Basket) "_items" Sample.three
            [VInt 1; VInt 2; VInt 3]
            (mkSerializableProperty "items" FreshNames (Some (TList TInt)) None false
                                    (Some (NESTED, "item")))
            NESTED "item" TInt None _ _ _ _ _ _ _ _ _ _ _);
    try (vm_compute; reflexivity); try discriminate.
  right. by left.
Defined.

(** X13 at a [Basket] whose flag is set. *)
Lemma _as_xml_of_a_primitive_property_witness :
  _as_xml Sample.plain Sample.klasses Sample.no_str 1 Sample.plain_basket_world
          (VObj (k_ref Sample.Basket) [("_flag", VBool true)]) None
  = Ok (mkElement "Basket" [] None [Sample.item "flag" "true"]).
Proof.
  refine (_as_xml_of_a_primitive_property
            Sample.plain Sample.klasses Sample.no_str 1 Sample.plain_basket_world
            (k_ref Sample.Basket) "_flag" (VBool true)
            (mkSerializableProperty "flag" FreshNames (Some TBool) None false None)
            TBool None _ _ _ _ _ _ _ _);
    try (vm_compute; reflexivity); try discriminate.
  by left.
Defined.

(** ** The predicates of a property *)

Section Annotations.

Lemma own_name_tests (u : pytype) (n : string) :
  type_name u = Ok n → own_name u = true →
  String.eqb n "Optional" = match u with TOptional _ => true | _ => false end
  ∧ str_in n SerializableProperty_._ARRAY_TYPES = is_array_type u.
Proof.
  destruct u; try done; cbn; intros [= <-] Hu; try done;
    apply negb_true_iff in Hu;
    unfold str_in in *; cbn [existsb] in *;
    repeat (apply orb_false_elim in Hu as [? Hu]);
    rewrite ?orb_false_r; split; try done;
    by repeat (apply orb_false_intro; try done).
Qed.

Lemma named_type_name (u : pytype) :
  (named u = true → ∃ n, type_name u = Ok n)
  ∧ (named u = false → type_name u = Raise (AttributeError "__name__")).
Proof. destruct u; split; try done; intros _; by eexists. Qed.


End Annotations.


(** ** JSON decoding: classes without hooks, classes registered *)

Section JsonDecodingEdges.
Variable formatter : Formatter.
Variable klasses : gmap string klass.

Abbreviation from_json_ := (from_json formatter klasses).
Abbreviation _from_json_ := (_from_json formatter klasses).

(** X14.  For a class that does not derive from [JsonSerializableObject]
    (a class that [@serializable_class] alone gave [from_json]) the JSON
    decode of an input with at least one key raises the
    [AttributeError] of the missing [get_json_key_removals]; the empty
    input goes to the constructor without keyword arguments. *)
Theorem from_json_needs_the_hooks_of_JsonSerializableObject
        (fuel : nat) (w : world) (cls : klass) :
  k_json_object cls = false →
  (∀ kv rest,
      from_json_ (S fuel) w cls (VDict (kv :: rest))
      = Raise (AttributeError "get_json_key_removals")
      ∧ _from_json_ (S fuel) w cls (VDict (kv :: rest))
        = Raise (AttributeError "get_json_key_removals"))
  ∧ from_json_ (S fuel) w cls (VDict []) = construct cls []
  ∧ _from_json_ (S fuel) w cls (VDict []) = construct cls [].
Proof.
  intros Hj. split.
  2:{ split; reflexivity. }
  intros [k v] rest. unfold _from_json. cbn [from_json].
  unfold from_json_body, from_json_kwargs. cbn [for_each].
  unfold resolve_key. rewrite Hj. split; reflexivity.
Qed.

Lemma klass_from_json_registered rec w k a types j :
  serialization_type_in JSON types = true →
  klass_from_json klasses rec (register_klass w k a types) (AClass (k_ref k)) j
  = Some (Raise (TypeError missing_cls)).
Proof.
  intros Hjson. unfold klass_from_json, class_getattr.
  rewrite register_klass_attrs. rewrite decide_True by done.
  rewrite decide_False by done. rewrite decide_True by done. by rewrite Hjson.
Qed.

(** X15.  Once a class is registered with JSON among its serialization
    types, [klass.from_json(data=j)] on it raises a [TypeError]: the
    attribute is the plain function [_from_json], called without [cls].
    So the JSON decode of any class that maps a property to the
    registered class raises as soon as the input holds a value for that
    property, other than an empty list or set. *)
Theorem from_json_cannot_decode_into_a_registered_class
        (w : world) (k : klass) (a : option string)
        (types : list SerializationType) :
  let w' := register_klass w k a types in
  serialization_type_in JSON types = true →
  (∀ rec j, decode_mapped klasses rec w' (AClass (k_ref k)) j
            = Raise (TypeError missing_cls))
  ∧ (∀ rec j, decode_array_item klasses rec w' (AClass (k_ref k)) j
              = Raise (TypeError missing_cls))
  ∧ (∀ fuel cls data _data name v,
        for_each (resolve_key formatter cls) data data = Ok _data →
        (name, v) ∈ _data →
        PyDict.get name (get_property_data_class_mappings cls) = Some (AClass (k_ref k)) →
        v ≠ VList [] → v ≠ VSet [] →
        raises (from_json_ (S fuel) w' cls (VDict data))
        ∧ raises (_from_json_ (S fuel) w' cls (VDict data))).
Proof.
  intros w' Hjson.
  assert (Hm : ∀ rec j, decode_mapped klasses rec w' (AClass (k_ref k)) j
                        = Raise (TypeError missing_cls)).
  { intros rec j. unfold decode_mapped. subst w'.
    by rewrite klass_from_json_registered. }
  split; [done|]. split.
  { intros rec j. unfold decode_array_item. subst w'.
    by rewrite klass_from_json_registered. }
  intros fuel cls data _data name v Hres Hin Hmap Hl Hs.
  assert (raises (from_json_ (S fuel) w' cls (VDict data))) as Hr; [|by split].
  cbn [from_json]. unfold from_json_body, from_json_kwargs. rewrite Hres.
  cbn [mbind result_bind].
  apply list_elem_of_split in Hin as (pre & post & Hsplit).
  rewrite Hsplit at 1.
  destruct (for_each_raises
              (convert_value klasses (from_json_ fuel w') w' cls)
              pre post (name, v) _data) as [e He].
  { intros d. unfold convert_value. rewrite Hmap.
    destruct v as [| | | | | |[|j js]|[|j js]| |]; try done;
      cbn [map_each]; rewrite Hm; by eexists. }
  rewrite He. by exists e.
Qed.

End JsonDecodingEdges.

(** X14 at the class [Basket], which has no serializable base. *)
Lemma from_json_needs_the_hooks_of_JsonSerializableObject_witness :
  _from_json Sample.plain Sample.klasses 1 Sample.plain_basket_world Sample.Basket
             (VDict [("flag", VBool true)])
  = Raise (AttributeError "get_json_key_removals").
Proof.
  exact (proj2 (proj1 (from_json_needs_the_hooks_of_JsonSerializableObject
                         Sample.plain Sample.klasses 0 Sample.plain_basket_world
                         Sample.Basket eq_refl)
                      ("flag", VBool true) [])).
Defined.

(** X15 at the class [Kit], whose property [part] is mapped to [Tag]: with
    [Tag] registered the decode raises, and without it the same input is
    decoded through the [from_json] that [Tag] inherits. *)
Lemma from_json_cannot_decode_into_a_registered_class_witness :
  let w' := register_klass empty_world Sample.Tag None [JSON] in
  let data := VDict [("part", VDict [("name", VStr "x")])] in
  raises (from_json Sample.plain Stock.klasses 2 w' Stock.Kit data)
  ∧ from_json Sample.plain Stock.klasses 2 empty_world Stock.Kit data
    = Ok (VObj (k_ref Stock.Kit)
               [("_part", VObj (k_ref Sample.Tag) [("_name", VStr "x")])]).
Proof.
  intros w' data. split; [|vm_compute; reflexivity].
  refine (proj1 (proj2 (proj2 (from_json_cannot_decode_into_a_registered_class
                                 Sample.plain Stock.klasses
                                 empty_world Sample.Tag None [JSON] eq_refl))
                       1 Stock.Kit [("part", VDict [("name", VStr "x")])]
                       [("part", VDict [("name", VStr "x")])]
                       "part" (VDict [("name", VStr "x")]) _ _ _ _ _));
    try (vm_compute; reflexivity); try discriminate.
  by left.
Defined.

(** ** The text of integers *)

Section Digits.

Lemma all_digits_app (a b : string) :
  PyStr.all_digits (a +:+ b) = PyStr.all_digits a && PyStr.all_digits b.
Proof.
  induction a as [|c a IH]; [done|].
  rewrite append_cons. cbn [PyStr.all_digits]. rewrite IH. by rewrite andb_assoc.
Qed.

Lemma int_digits_app (acc : Z) (a b : string) :
  PyStr.int_digits acc (a +:+ b) = PyStr.int_digits (PyStr.int_digits acc a) b.
Proof.
  revert acc. induction a as [|c a IH]; intros acc; [done|].
  rewrite append_cons. cbn [PyStr.int_digits]. apply IH.
Qed.

Lemma length_app_ (a b : string) :
  String.length (a +:+ b) = (String.length a + String.length b)%nat.
Proof.
  induction a as [|c a IH]; [done|]. rewrite append_cons. cbn. by rewrite IH.
Qed.

Lemma is_ascii_app (a b : string) :
  PyStr.is_ascii (a +:+ b) = PyStr.is_ascii a && PyStr.is_ascii b.
Proof.
  induction a as [|c a IH]; [done|].
  rewrite append_cons. cbn [PyStr.is_ascii]. rewrite IH. by rewrite andb_assoc.
Qed.

(** A text made of decimal digits is an ASCII text. *)
Lemma all_digits_ascii (s : string) :
  PyStr.all_digits s = true → PyStr.is_ascii s = true.
Proof.
  induction s as [|c s IH]; [done|]. cbn [PyStr.all_digits PyStr.is_ascii].
  intros [Hc Hs]%andb_true_iff. rewrite (IH Hs), andb_true_r.
  unfold PyStr.is_digit in Hc. apply andb_true_iff in Hc as [_ Hc].
  apply Nat.leb_le in Hc. apply Nat.ltb_lt. lia.
Qed.

Lemma pretty_N_char_digit (x : N) :
  (x < 10)%N →
  PyStr.is_digit (pretty_N_char x) = true
  ∧ (Z.of_nat (Ascii.nat_of_ascii (pretty_N_char x)) - 48 = Z.of_N x)%Z.
Proof.
  intros Hx.
  assert (H : ∀ n : nat, (n < 10)%nat →
              PyStr.is_digit (pretty_N_char (N.of_nat n)) = true
              ∧ (Z.of_nat (Ascii.nat_of_ascii (pretty_N_char (N.of_nat n))) - 48
                 = Z.of_N (N.of_nat n))%Z).
  { intros n Hn. do 10 (destruct n as [|n]; [by vm_compute|]). lia. }
  rewrite <- (N2Nat.id x). apply H. lia.
Qed.

(** The digits [str] writes for a natural number, read back. *)
Lemma pretty_N_go_digits (x : N) (s : string) :
  ∃ d, pretty_N_go x s = d +:+ s
       ∧ PyStr.all_digits d = true
       ∧ (∀ acc, PyStr.int_digits acc d
                 = acc * 10 ^ Z.of_nat (String.length d) + Z.of_N x)%Z
       ∧ ((0 < x)%N → d ≠ "").
Proof.
  revert s. induction (N.lt_wf_0 x) as [x _ IH]; intros s.
  assert (x = 0 ∨ 0 < x)%N as [->|Hx] by lia.
  - exists "". rewrite pretty_N_go_0. repeat split; [|lia].
    intros acc. cbn. lia.
  - rewrite pretty_N_go_step by done.
    destruct (IH (x `div` 10)%N (N.div_lt x 10 Hx eq_refl)
                 (String (pretty_N_char (x `mod` 10)) s))
      as (d & Hd & Hall & Hint & _).
    destruct (pretty_N_char_digit (x `mod` 10)%N) as [Hc Hv].
    { by apply N.mod_lt. }
    exists (d +:+ String (pretty_N_char (x `mod` 10)) "").
    split; [|split; [|split]].
    + rewrite Hd. by rewrite append_assoc_.
    + rewrite all_digits_app, Hall. cbn. by rewrite Hc.
    + intros acc. rewrite int_digits_app, Hint. cbn [PyStr.int_digits].
      rewrite Hv, length_app_. cbn [String.length].
      rewrite Nat2Z.inj_add, Z.pow_add_r by lia.
      pose proof (N.div_mod x 10 ltac:(lia)) as Hdm.
      assert (Z.of_N x = 10 * Z.of_N (x `div` 10) + Z.of_N (x `mod` 10))%Z as ->
        by lia.
      change (Z.of_nat 1) with 1%Z. lia.
    + intros _. by destruct d.
Qed.

Lemma pretty_N_digits (x : N) :
  PyStr.isdigit (pretty x) = true ∧ PyStr.int_of (pretty x) = Z.of_N x
  ∧ PyStr.is_ascii (pretty x) = true.
Proof.
  unfold pretty, pretty_N. case_decide as Hx; [by subst x|].
  destruct (pretty_N_go_digits x "") as (d & Hd & Hall & Hint & Hne).
  assert (Hd' : pretty_N_go x "" = d).
  { rewrite Hd. clear. induction d as [|c d IH]; [done|].
    rewrite append_cons. by rewrite IH. }
  rewrite Hd'. split; [|split].
  - unfold PyStr.isdigit. destruct d; [|done]. exfalso. apply Hne; [lia|done].
  - unfold PyStr.int_of. rewrite Hint. lia.
  - by apply all_digits_ascii.
Qed.

(** [str(z).isdigit()] holds for the integers from zero on, and [int]
    reads [z] back. *)
Lemma of_int_digits (z : Z) :
  PyStr.isdigit (PyStr.of_int z) = bool_decide (0 ≤ z)%Z
  ∧ ((0 ≤ z)%Z → PyStr.int_of (PyStr.of_int z) = z)
  ∧ PyStr.is_ascii (PyStr.of_int z) = true.
Proof.
  unfold PyStr.of_int. destruct z as [|p|p].
  - done.
  - destruct (pretty_N_digits (N.pos p)) as (H1 & H2 & H3).
    change (pretty (Z.pos p)) with (pretty (N.pos p)).
    rewrite H1. split; [by rewrite bool_decide_true|]. split; [|done].
    intros _. rewrite H2. lia.
  - destruct (pretty_N_digits (N.pos p)) as (_ & _ & H3).
    change (pretty (Z.neg p)) with ("-" +:+ pretty (N.pos p)).
    split; [|split; [lia|]].
    + rewrite bool_decide_false by lia. by rewrite append_cons.
    + by rewrite is_ascii_app, H3.
Qed.

End Digits.

(** ** XML decoding: texts, attributes and nested arrays *)

Section XmlDecodingEdges.
Variable formatter : Formatter.
Variable klasses : gmap string klass.
Variable str_other : pyval → string.
Variable unicode : Unicode.
Variable start_ns : Element → result (list (string * string)).

Abbreviation from_xml_ := (from_xml formatter klasses str_other unicode start_ns).
Abbreviation from_xml_child_ := (from_xml_child formatter klasses str_other unicode).
Abbreviation int_or_raw_ := (int_or_raw str_other unicode).
Abbreviation py_str_ := (py_str str_other).
Abbreviation in_force := (effective_namespace start_ns).

(** The text of an integer read back. *)
Lemma int_or_raw_of_int (z : Z) :
  int_or_raw_ (VStr (py_str_ (VInt z)))
  = Ok (if bool_decide (0 ≤ z)%Z then VInt z else VStr (py_str_ (VInt z))).
Proof.
  unfold int_or_raw, str_isdigit, int_of_str. cbn [py_str].
  destruct (of_int_digits z) as (H1 & H2 & H3). rewrite H3, H1.
  case_bool_decide; [|done]. cbn [mbind result_bind]. by rewrite H2.
Qed.

(** A value that is read back from its text is read back. *)
Lemma int_or_raw_read_back (v : pyval) :
  read_back_from_text unicode v → int_or_raw_ (VStr (py_str_ v)) = Ok v.
Proof.
  destruct v as [| |z| |s| | | | |]; try done; cbn [read_back_from_text].
  - intros Hz. rewrite int_or_raw_of_int. by rewrite bool_decide_true.
  - intros Hs. unfold int_or_raw. cbn [py_str]. by rewrite Hs.
Qed.

(** X16.  What [from_xml] makes of the text of an attribute or of a sub
    element without data class: the text of an integer from zero on is
    read back as that integer, the text of a negative integer stays a
    string; the text of a boolean stays the string [True] or [False]; an
    element without text gives [None]; and an ASCII text made of digits,
    not empty, is read as an integer from zero on, whatever zeros it
    starts with. *)
Theorem xml_text_is_read_back_as_an_integer_when_it_is_all_digits :
  (∀ z, int_or_raw_ (VStr (py_str_ (VInt z)))
        = Ok (if bool_decide (0 ≤ z)%Z then VInt z else VStr (py_str_ (VInt z))))
  ∧ (∀ b, int_or_raw_ (VStr (py_str_ (VBool b)))
          = Ok (VStr (if b then "True" else "False")))
  ∧ int_or_raw_ VNone = Ok VNone
  ∧ (∀ zeros z,
        PyStr.all_digits zeros = true → Z.to_nat (PyStr.int_of zeros) = O →
        (0 ≤ z)%Z →
        int_or_raw_ (VStr (zeros +:+ py_str_ (VInt z))) = Ok (VInt z)).
Proof.
  split; [exact int_or_raw_of_int|]. split; [by intros []|]. split; [done|].
  intros zeros z Hzeros Hzero Hz. unfold int_or_raw, str_isdigit, int_of_str.
  cbn [py_str]. destruct (of_int_digits z) as (H1 & H2 & H3).
  rewrite bool_decide_true in H1 by done.
  assert (Hall : PyStr.all_digits (PyStr.of_int z) = true).
  { unfold PyStr.isdigit in H1. by destruct (PyStr.of_int z). }
  assert (Hne : PyStr.of_int z ≠ "").
  { intros E. rewrite E in H1. done. }
  rewrite is_ascii_app, (all_digits_ascii _ Hzeros), H3. cbn [andb].
  assert (Hd : PyStr.isdigit (zeros +:+ PyStr.of_int z) = true).
  { unfold PyStr.isdigit.
    destruct (zeros +:+ PyStr.of_int z) eqn:E.
    - destruct zeros; [|done]. by rewrite append_nil in E.
    - rewrite <- E. by rewrite all_digits_app, Hzeros, Hall. }
  rewrite Hd. cbn [mbind result_bind]. do 2 f_equal.
  unfold PyStr.int_of in *. rewrite int_digits_app.
  assert (Hnn : ∀ s acc, (0 ≤ acc)%Z → PyStr.all_digits s = true →
                         (0 ≤ PyStr.int_digits acc s)%Z).
  { induction s as [|c s IH]; intros acc Hacc; [done|].
    cbn [PyStr.all_digits PyStr.int_digits]. intros [Hc Hs]%andb_true_iff.
    apply IH; [|done]. unfold PyStr.is_digit in Hc.
    apply andb_true_iff in Hc as [Hc _]. apply Nat.leb_le in Hc. lia. }
  assert (PyStr.int_digits 0 zeros = 0)%Z as ->.
  { pose proof (Hnn zeros 0%Z ltac:(lia) Hzeros). lia. }
  by apply H2.
Qed.

(** X17.  An attribute of the element whose name, decoded and mapped, is
    not among [properties_as_attributes] is dropped without error: the
    outcome of [from_xml] is that for the element without the attribute.
    The default namespace in force is the same for both elements, as it
    is when it is given. *)
Theorem from_xml_ignores_attributes_that_are_not_listed
        (fuel : nat) (w : world) (cls : klass) (tag_ : string)
        (pre post : list (string * string)) (attribute_name attribute_value : string)
        (text_ : option string) (kids : list Element)
        (default_namespace : option string) :
  let data := mkElement tag_ (pre ++ (attribute_name, attribute_value) :: post)%list
                        text_ kids in
  let data' := mkElement tag_ (pre ++ post)%list text_ kids in
  str_in (mapped_name cls (decode formatter attribute_name))
         (properties_as_attributes cls) = false →
  effective_namespace start_ns data default_namespace
  = effective_namespace start_ns data' default_namespace →
  from_xml_ fuel w cls data default_namespace
  = from_xml_ fuel w cls data' default_namespace.
Proof.
  intros data data' Hattr Hns. destruct fuel as [|n]; [done|].
  cbn [from_xml]. unfold from_xml_body. rewrite Hns. subst data data'.
  destruct (effective_namespace start_ns (mkElement tag_ (pre ++ post) text_ kids)
                                default_namespace) as [ns|]; [|done].
  cbn [mbind result_bind attrib children]. rewrite !for_each_app. cbn [for_each].
  assert (Hturn : ∀ d, from_xml_attribute formatter klasses str_other unicode cls d
                         (attribute_name, attribute_value) = Ok d).
  { intros d. unfold from_xml_attribute. by rewrite Hattr. }
  destruct (for_each _ pre []) as [d|]; [|done]. cbn [mbind result_bind].
  by rewrite Hturn.
Qed.

(** X18.  A child element that holds a [NESTED] array whose item class has
    no [from_xml] (a class such as [int]) cannot be decoded unless it is
    empty: [from_xml] calls [klass.from_xml] on every item and raises at
    the first one.  An empty one gives the empty list. *)
Theorem from_xml_cannot_decode_a_nested_array_of_plain_items
        (fuel : nat) (w : world) (cls : klass) (data : Element)
        (default_namespace : option string)
        (pre post : list Element) (child : Element)
        (nested_tag : string) (a : any_serializable) :
  let name ns := mapped_name cls (decode formatter (strip_namespace ns (tag child))) in
  children data = (pre ++ child :: post)%list →
  (∀ ns, in_force data default_namespace = Ok ns →
         PyDict.get (name ns) (get_array_property_configuration cls)
         = Some (NESTED, nested_tag, a)) →
  any_getattr klasses w a "from_xml" = None →
  (children child ≠ [] → raises (from_xml_ (S fuel) w cls data default_namespace))
  ∧ (children child = [] →
     ∀ rec ns d, in_force data default_namespace = Ok ns →
                 from_xml_child_ rec w cls ns d child
                 = Ok (PyDict.set (name ns) (VList []) d)).
Proof.
  intros name Hchildren Hcfg Hattr.
  assert (Hnone : ∀ rec e dn, klass_from_xml klasses rec w a e dn = None).
  { intros rec e dn. unfold klass_from_xml. destruct a as [c| |]; try done.
    cbn [any_getattr] in Hattr. by rewrite Hattr. }
  split.
  - intros Hkids. cbn [from_xml]. unfold from_xml_body. rewrite Hchildren.
    destruct (in_force data default_namespace) as [ns|e] eqn:Hns; [|by exists e].
    cbn [mbind result_bind]. specialize (Hcfg ns eq_refl).
    destruct (for_each _ (attrib data) []) as [d0|e]; [|by exists e].
    cbn [mbind result_bind].
    destruct (for_each_raises (from_xml_child_ (from_xml_ fuel w) w cls ns)
                pre post child (from_xml_text cls data d0)) as [e He].
    { intros d. unfold from_xml_child. fold (name ns). rewrite Hcfg.
      destruct (children child) as [|sub subs]; [done|]. cbn [for_each].
      assert (Hsub : ∀ d', raises (from_xml_sub_child klasses (from_xml_ fuel w) w a ns
                                                        nested_tag
                                                        (strip_namespace ns (tag child))
                                                        (name ns) d' sub)).
      { intros d'. unfold from_xml_sub_child. rewrite Hnone.
        destruct (negb _); by eexists. }
      destruct (Hsub (PyDict.set (name ns) (VList []) d)) as [e He]. rewrite He.
      by exists e. }
    rewrite He. by exists e.
  - intros Hkids rec ns d Hns. unfold from_xml_child. fold (name ns).
    by rewrite (Hcfg ns Hns), Hkids.
Qed.

End XmlDecodingEdges.

(** X17 at a [Page] element with an attribute [lang]. *)
Lemma from_xml_ignores_attributes_that_are_not_listed_witness :
  let title := mkElement "title" [] (Some "Hi") [] in
  from_xml Sample.plain Sample.klasses Sample.no_str Sample.no_unicode Sample.no_ns
           1 empty_world
           Sample.Page (mkElement "Page" [("lang", "en")] None [title]) None
  = from_xml Sample.plain Sample.klasses Sample.no_str Sample.no_unicode Sample.no_ns
             1 empty_world
             Sample.Page (mkElement "Page" [] None [title]) None.
Proof.
  intros title.
  exact (from_xml_ignores_attributes_that_are_not_listed
           Sample.plain Sample.klasses Sample.no_str Sample.no_unicode Sample.no_ns
           1 empty_world
           Sample.Page "Page" [] [] "lang" "en" None [title] None eq_refl eq_refl).
Defined.

(** X18 at a [Crate] element: the items element [as_xml] would write for a
    list of one integer. *)
Lemma from_xml_cannot_decode_a_nested_array_of_plain_items_witness :
  raises (from_xml Sample.plain Sample.klasses Sample.no_str Sample.no_unicode
                   Sample.no_ns 1 empty_world
                   Sample.Crate
                   (mkElement "Crate" [] None
                              [mkElement "items" [] None [Sample.item "item" "1"]])
                   None).
Proof.
  refine (proj1 (from_xml_cannot_decode_a_nested_array_of_plain_items
                   Sample.plain Sample.klasses Sample.no_str Sample.no_unicode
                   Sample.no_ns 0 empty_world
                   Sample.Crate
                   (mkElement "Crate" [] None
                              [mkElement "items" [] None [Sample.item "item" "1"]])
                   None [] []
                   (mkElement "items" [] None [Sample.item "item" "1"])
                   "item" Sample.int_ _ _ _) _);
    try (vm_compute; reflexivity); discriminate.
Defined.

(** ** XML round trips *)

Section XmlRoundTrips.
Variable formatter : Formatter.
Variable klasses : gmap string klass.
Variable str_other : pyval → string.
Variable unicode : Unicode.
Variable start_ns : Element → result (list (string * string)).

Abbreviation as_xml_ := (as_xml formatter klasses str_other).
Abbreviation from_xml_ := (from_xml formatter klasses str_other unicode start_ns).
Abbreviation from_xml_child_ := (from_xml_child formatter klasses str_other unicode).
Abbreviation field_ := (xml_text_field formatter unicode).
Abbreviation py_str_ := (py_str str_other).
Abbreviation wire_of := (xml_wire_name formatter).
Abbreviation in_force := (effective_namespace start_ns).

(** A value that is read back from its text is a string or an integer. *)
Lemma read_back_scalar (v : pyval) :
  read_back_from_text unicode v → (∃ s, v = VStr s) ∨ (∃ z, v = VInt z).
Proof. destruct v; try done; eauto. Qed.

Lemma as_xml_element_text call w cls st k v :
  field_ w cls k v → element_entry cls (k, v) = true →
  as_xml_element formatter klasses str_other call w cls st (k, v)
  = Ok (append_child st (text_element (wire_of (k, v)) (py_str_ v))).
Proof.
  intros [Hskip Hkm _ Hdc _ Hrb _] Hel.
  unfold element_entry, attribute_entry in Hel. cbn [fst snd] in Hel.
  unfold as_xml_element, as_xml_sub_element, xml_wire_name. cbn [fst].
  rewrite Hskip, Hkm, Hdc.
  destruct (read_back_scalar v Hrb) as [[s ->]|[z ->]];
    apply negb_true_iff in Hel; by rewrite Hel.
Qed.

Lemma as_xml_element_other call w cls st kv :
  (kv.2 ≠ VNone → field_ w cls kv.1 kv.2) → element_entry cls kv = false →
  as_xml_element formatter klasses str_other call w cls st kv = Ok st.
Proof.
  destruct kv as [k v]. cbn [fst snd]. intros Hf Hel.
  unfold element_entry, attribute_entry in Hel. cbn [fst snd] in Hel.
  unfold as_xml_element.
  destruct v; try done; apply negb_false_iff in Hel;
    (destruct Hf as [Hskip _ _ _ _ _ _]; [done|]; by rewrite Hskip, Hel).
Qed.

Lemma as_xml_attribute_text w cls acc k v :
  field_ w cls k v → attribute_entry cls (k, v) = true →
  as_xml_attribute formatter str_other cls acc (k, v)
  = PyDict.set (wire_of (k, v)) (py_str_ v) acc.
Proof.
  intros [Hskip Hkm _ _ _ _ _] Hat. unfold attribute_entry in Hat. cbn [fst] in Hat.
  unfold as_xml_attribute, as_xml_attribute_name, xml_wire_name. cbn [fst].
  by rewrite Hskip, Hat, Hkm.
Qed.

Lemma as_xml_attribute_other cls acc kv :
  attribute_entry cls kv = false →
  as_xml_attribute formatter str_other cls acc kv = acc.
Proof.
  destruct kv as [k v]. unfold attribute_entry. cbn [fst]. intros Hat.
  unfold as_xml_attribute, as_xml_attribute_name. rewrite Hat.
  by destruct (skipped_key _).
Qed.

Lemma from_xml_attribute_text w cls d k v :
  field_ w cls k v → attribute_entry cls (k, v) = true →
  from_xml_attribute formatter klasses str_other unicode cls d
                     (wire_of (k, v), py_str_ v)
  = Ok (PyDict.set (PyStr.tail1 k) v d).
Proof.
  intros [_ _ Hnm Hdc Hdec Hrb _] Hat. unfold attribute_entry in Hat. cbn [fst] in Hat.
  unfold from_xml_attribute, xml_wire_name, mapped_name. cbn [fst].
  by rewrite Hdec, Hnm, Hat, Hdc, (int_or_raw_read_back _ _ _ Hrb).
Qed.

Lemma strip_namespace_plain ns t :
  PyStr.has_char "{" t = false → strip_namespace ns t = t.
Proof.
  intros Ht. unfold strip_namespace. rewrite append_cons.
  by apply remove_all_absent.
Qed.

Lemma from_xml_child_text rec w cls ns d k v :
  field_ w cls k v → attribute_entry cls (k, v) = false →
  from_xml_child_ rec w cls ns d (text_element (wire_of (k, v)) (py_str_ v))
  = Ok (PyDict.set (PyStr.tail1 k) v d).
Proof.
  intros [_ _ Hnm Hdc Hdec Hrb Hel] Hat.
  destruct (Hel Hat) as (Harr & Hflat & Hdict & Hbrace).
  unfold from_xml_child, text_element, xml_wire_name, mapped_name.
  cbn [fst tag text children].
  rewrite strip_namespace_plain by done.
  rewrite Hdec, Hnm, Harr, Hflat, Hdc, Hdict.
  unfold text_value. cbn [text]. by rewrite (int_or_raw_read_back _ _ _ Hrb).
Qed.

Lemma wire_names_distinct w cls (xs : list (string * pyval)) :
  (∀ k v, (k, v) ∈ xs → field_ w cls k v) →
  NoDup (map (λ kv, PyStr.tail1 kv.1) xs) → NoDup (map wire_of xs).
Proof.
  intros Hf Hnd. apply (NoDup_fmap_1 (decode formatter)).
  rewrite <- list_fmap_compose.
  erewrite list_fmap_ext; [exact Hnd|].
  intros i [k v] Hi. cbn. apply (Hf k v). by eapply list_elem_of_lookup_2.
Qed.


Lemma as_xml_array_items_text call w item_key items :
  (∀ j, j ∈ items → is_instance j = false) →
  map_each (as_xml_array_item klasses str_other call w item_key) items
  = Ok (map (λ j, text_element item_key (py_str_ j)) items).
Proof.
  intros Hitems. apply map_each_ok. intros j Hj.
  specialize (Hitems j Hj). by destruct j.
Qed.



End XmlRoundTrips.




(** ** Nested objects and attributes without value *)

Section NestedAndNone.
Variable formatter : Formatter.
Variable klasses : gmap string klass.
Variable str_other : pyval → string.
Variable unicode : Unicode.
Variable start_ns : Element → result (list (string * string)).

Abbreviation _as_xml_ := (_as_xml formatter klasses str_other).
Abbreviation as_xml_ := (as_xml formatter klasses str_other).
Abbreviation from_xml_ := (from_xml formatter klasses str_other unicode start_ns).
Abbreviation in_force := (effective_namespace start_ns).

(** The predicates of a property annotated with a class. *)
Lemma class_annotation p n :
  sp_type_ p = Some (TClass n) → own_name (TClass n) = true →
  SerializableProperty_.is_array p = Ok false
  ∧ SerializableProperty_.is_enum p = Ok false
  ∧ SerializableProperty_.is_primitive_type p = Ok false.
Proof.
  intros Ht Hown. cbn in Hown. apply negb_true_iff in Hown.
  unfold str_in in Hown. cbn [existsb] in Hown.
  repeat (apply orb_false_elim in Hown as [? Hown]).
  unfold SerializableProperty_.is_array, SerializableProperty_.is_enum,
    SerializableProperty_.is_primitive_type, SerializableProperty_.concrete_type,
    SerializableProperty_.is_optional, SerializableProperty_.type__name,
    SerializableProperty_.type__args.
  rewrite Ht. cbn [mbind result_bind type_name].
  assert (Hopt : String.eqb n "Optional" = false) by done.
  assert (Harr : str_in n SerializableProperty_._ARRAY_TYPES = false).
  { unfold str_in. cbn [existsb SerializableProperty_._ARRAY_TYPES].
    by repeat (apply orb_false_intro; try done). }
  rewrite Hopt, Harr. cbn [mbind result_bind]. repeat split.
Qed.

(** X22.  A property annotated with a class, whose value is an instance
    of a class that [register_klass] gave [as_xml], is written by
    [_as_xml] as the element that [_as_xml] returns for that instance
    when it is called with the wire name of the property as element
    name; an error of the nested call is the error of the call. *)
Theorem _as_xml_of_a_nested_object
        (fuel : nat) (w : world) (c c' : class_ref) (k : string)
        (dict' : list (string * pyval)) (p : SerializableProperty) (n : string)
        (element_name : option string) :
  let v := VObj c' dict' in
  let new_key := encode formatter (xml_name_of w p (PyStr.tail1 k)) in
  skipped_key (PyStr.tail1 k) = false →
  property_info w c !! PyStr.tail1 k = Some p →
  sp_is_xml_attribute p = false →
  xml_name_of w p (PyStr.tail1 k) ≠ "." →
  sp_custom_type p = None →
  sp_type_ p = Some (TClass n) →
  own_name (TClass n) = true →
  class_getattr klasses w c' "as_xml" = Some Fn_as_xml →
  _as_xml_ (S fuel) w (VObj c [(k, v)]) element_name
  = (e ← _as_xml_ fuel w v (Some new_key);
     Ok (mkElement (root_tag formatter c element_name) [] None [e])).
Proof.
  intros v new_key Hskip Hinfo Hattr Hdot Hct Ht Hown Hget.
  destruct (class_annotation p n Ht Hown) as (Harr & Hen & Hprim).
  unfold _as_xml. unfold _as_xml_body at 1. unfold _as_xml_attributes.
  cbn [fold_left for_each]. unfold _as_xml_attribute.
  rewrite (_as_xml_attribute_name_of_element formatter w _ k p) by done.
  unfold _as_xml_element. rewrite Hskip, Hinfo, Hattr.
  apply String.eqb_neq in Hdot. rewrite Hdot, Hct, Harr.
  cbn [mbind result_bind]. rewrite Hen. cbn [mbind result_bind].
  rewrite Hprim. cbn [mbind result_bind negb].
  subst v. cbn [call_as_xml]. rewrite Hget. fold new_key.
  destruct (_as_xml_body formatter str_other
              (call_as_xml formatter klasses str_other fuel w) w
              (VObj c' dict') (Some new_key)); reflexivity.
Qed.


End NestedAndNone.

(** X22 at a [Gadget] whose part is a [Tag], both registered. *)
Lemma _as_xml_of_a_nested_object_witness :
  _as_xml Sample.plain Sample.klasses Sample.no_str 1 Sample.gadget_world
          (VObj (k_ref Sample.Gadget)
                [("_part", VObj (k_ref Sample.Tag) [("_name", VStr "x")])]) None
  = Ok (mkElement "Gadget" [] None
          [mkElement "part" [] None [Sample.item "name" "x"]]).
Proof.
  refine (eq_trans
            (_as_xml_of_a_nested_object
               Sample.plain Sample.klasses Sample.no_str 0 Sample.gadget_world
               (k_ref Sample.Gadget) (k_ref Sample.Tag) "_part" [("_name", VStr "x")]
               (mkSerializableProperty "part" FreshNames (Some (TClass "Tag"))
                                       None false None)
               "Tag" None _ _ _ _ _ _ _ _) _);
    try (vm_compute; reflexivity).
  discriminate.
Defined.


(** ** Nested objects and custom types through the codecs *)

Section Composition.
Variable formatter : Formatter.
Variable klasses : gmap string klass.
Variable str_other : pyval → string.
Variable unicode : Unicode.
Variable start_ns : Element → result (list (string * string)).

Abbreviation as_xml_ := (as_xml formatter klasses str_other).
Abbreviation from_xml_ := (from_xml formatter klasses str_other unicode start_ns).
Abbreviation in_force := (effective_namespace start_ns).
Abbreviation _as_json_ := (_as_json formatter klasses).
Abbreviation from_json_ := (from_json formatter klasses).
Abbreviation _from_json_ := (_from_json formatter klasses).
Abbreviation py_str_ := (py_str str_other).

(** What [default] returns for an instance with one attribute. *)
Lemma default_of_a_property w c k v :
  v ≠ VNone →
  skipped_key (PyStr.tail1 k) = false →
  (∀ p, property_info w c !! PyStr.tail1 k = Some p → sp_custom_type p = None) →
  DefaultJsonEncoder_default formatter klasses w (VObj c [(k, v)])
  = Ok (VDict [(json_wire_name formatter w c (PyStr.tail1 k), v)]).
Proof.
  intros Hv Hskip Hct. cbn [DefaultJsonEncoder_default for_each].
  unfold default_item, json_wire_name. rewrite Hskip.
  destruct (property_info w c !! PyStr.tail1 k) as [p|] eqn:E.
  - rewrite (Hct p eq_refl). by destruct v.
  - by destruct v.
Qed.

(** X24.  The document [_as_json] writes for an instance with one
    attribute, neither [None] nor private and without custom type, is the
    object with one member: the document [_as_json] writes for the value,
    under the wire name of the property; an error for the value is the
    error for the instance.  The value may be of any kind, a nested
    instance included. *)
Theorem _as_json_of_a_property
        (n : nat) (w : world) (c : class_ref) (k : string) (v : pyval) :
  v ≠ VNone →
  skipped_key (PyStr.tail1 k) = false →
  (∀ p, property_info w c !! PyStr.tail1 k = Some p → sp_custom_type p = None) →
  _as_json_ (S (S n)) w (VObj c [(k, v)])
  = (j ← _as_json_ n w v;
     Ok (JObj [(json_wire_name formatter w c (PyStr.tail1 k), j)])).
Proof.
  intros Hv Hskip Hct. unfold _as_json.
  change (json_dumps formatter klasses (S (S n)) w (VObj c [(k, v)]))
    with (v' ← DefaultJsonEncoder_default formatter klasses w (VObj c [(k, v)]);
          json_dumps formatter klasses (S n) w v').
  rewrite default_of_a_property by done. cbn [mbind result_bind].
  cbn [json_dumps map_each fst snd].
  by destruct (json_dumps formatter klasses n w v).
Qed.


Lemma tag_of_as_xml fuel w c dict nk e :
  as_xml_ fuel w (VObj c dict) (Some nk) = Ok e → nk ≠ "" → tag e = nk.
Proof.
  unfold as_xml, as_xml_body. destruct (klasses !! qualified_name c); [|done].
  destruct (for_each _ _ _); [|done]. cbn [mbind result_bind].
  intros [= <-] Hnk%String.eqb_neq. cbn [tag root_tag]. by rewrite Hnk.
Qed.



End Composition.

(** X24 at a [Gadget] whose part is a [Tag]. *)
Lemma _as_json_of_a_property_witness :
  _as_json Sample.plain Sample.klasses 5 Sample.gadget_world
           (VObj (k_ref Sample.Gadget)
                 [("_part", VObj (k_ref Sample.Tag) [("_name", VStr "x")])])
  = Ok (JObj [("part", JObj [("name", JStr "x")])]).
Proof.
  refine (eq_trans
            (_as_json_of_a_property
               Sample.plain Sample.klasses 3 Sample.gadget_world
               (k_ref Sample.Gadget) "_part"
               (VObj (k_ref Sample.Tag) [("_name", VStr "x")]) _ _ _) _).
  - discriminate.
  - vm_compute; reflexivity.
  - intros p Hp. vm_compute in Hp. by injection Hp as <-.
  - vm_compute; reflexivity.
Defined.



